(** * Attendance backend: ledger state machine, lockout and tenant checks

    A shallow embedding of the Express/Mongoose handlers and model
    methods of the face-recognition attendance backend:

    - [models/Attendance.js]   ([Attendance])
    - [models/User.js]         ([User])
    - [models/Organization.js] ([Organization])
    - the attendance, user, auth and organization controllers.

    Conventions of the embedding.

    - A [Date] is its epoch value in milliseconds, an integer.
    - An [ObjectId] is an opaque identifier with decidable equality.
    - A collection is the list of its stored documents in natural order;
      [findOne] returns the first match, [save] of a loaded document
      rewrites the document with the same [_id].
    - A handler is evaluated at one clock reading [now]; it returns its HTTP
      response together with the collections it wrote.
    - The [timestamps] plugin fields ([createdAt], [updatedAt]) are not
      part of the stored records below.
    - A [string] holds the UTF-8 bytes of a text; where the code reads the
      [length] of a string the embedding counts UTF-16 code units.
    - Library functions over text and hashes (the setters of the [email]
      path, [sha256], [bcryptjs]) are parameters of the embedding. *)

From Stdlib Require Import ZArith QArith Qround List Sorted String Bool Lia.
From stdpp Require Import base option list gmap strings.

Local Open Scope string_scope.
Local Open Scope list_scope.
Local Open Scope Z_scope.

(** ** Shared vocabulary *)

Definition ObjectId := nat.
Bind Scope nat_scope with ObjectId.
Definition Date := Z.

(** [ObjectId.prototype.equals]: an absent argument is never equal. *)
Definition oid_equals (a : ObjectId) (b : option ObjectId) : bool :=
  match b with
  | Some b' => Nat.eqb a b'
  | None => false
  end.

(** JSON values as they arrive in a request body or sit in an ad-hoc
    property of a document object. *)
Inductive JsValue :=
| JsUndefined
| JsNull
| JsBool (b : bool)
| JsNum (n : Z)
| JsStr (s : string)
| JsId (i : ObjectId)
| JsDate (d : Date).

(** What [res.status(code).json({success, message, data})] sends. *)
Record Response (A : Type) := mkResponse {
  statusCode : Z;
  success : bool;
  message : string;
  data : option A
}.
Arguments mkResponse {A} _ _ _ _.
Arguments statusCode {A} _.
Arguments success {A} _.
Arguments message {A} _.
Arguments data {A} _.

Definition fail {A} (code : Z) (msg : string) : Response A :=
  mkResponse code false msg None.

(** The outcome of [schema.validate(req.body)]: Joi is an external
    collaborator, the handlers only branch on [error]. *)
Inductive Validated (V : Type) :=
| JoiError (details : list string)
| JoiValue (value : V).
Arguments JoiError {V} _.
Arguments JoiValue {V} _.

Definition validationError {A} : Response A := fail 400 "Validation error".

(** [String.prototype.length] counts UTF-16 code units. A [string] holds
    the UTF-8 bytes of a text: a byte below 128 and the leading byte of a
    sequence of two or three bytes start a code point of one unit, the
    leading byte of a sequence of four bytes starts a code point of two
    units, and a continuation byte starts none. *)
Fixpoint jsLength (s : string) : nat :=
  match s with
  | EmptyString => 0%nat
  | String c rest =>
      let b := Ascii.nat_of_ascii c in
      ((if b <? 128 then 1
        else if b <? 192 then 0
        else if b <? 240 then 1
        else 2) + jsLength rest)%nat
  end.

(** ** models/Attendance.js *)

Module Attendance.

Inductive AttType := CheckIn | CheckOut | BreakStart | BreakEnd.
Inductive Method := FaceRecognition | Manual | AadhaarAssisted.
Inductive Status := Pending | Approved | Rejected | AutoApproved.

Record FaceImage := { filename : option string; path : option string }.
Record Location := {
  latitude : option Q; longitude : option Q; address : option string
}.

(** The paths of [AttendanceSchema]. *)
Record t := mk {
  _id : ObjectId;
  user : ObjectId;
  organization : ObjectId;
  date : Date;
  checkInTime : Date;
  checkOutTime : option Date;
  type : AttType;
  recognitionMethod : Method;
  faceConfidence : option Q;
  faceImage : option FaceImage;
  location : option Location;
  ipAddress : option string;
  userAgent : option string;
  status : Status;
  approvedBy : option ObjectId;
  approvedDate : option Date;
  rejectionReason : option string;
  workingHours : Z;
  breakTime : Z;
  overtime : Z;
  isOfflineEntry : bool;
  syncedAt : option Date;
  deviceId : option string;
  notes : option string;
  adminNotes : option string
}.

Definition att_type_eqb (a b : AttType) : bool :=
  match a, b with
  | CheckIn, CheckIn | CheckOut, CheckOut
  | BreakStart, BreakStart | BreakEnd, BreakEnd => true
  | _, _ => false
  end.

(** [calculateWorkingHours(checkIn, checkOut, breakTime = 0)]; an absent
    [checkOut] is the falsy case of the first line. *)
Definition calculateWorkingHours
    (checkIn : Date) (checkOut : option Date) (breakTime : option Z) : Z :=
  match checkOut with
  | None => 0
  | Some out =>
      let diffInMs := out - checkIn in
      let totalMinutes := diffInMs / (1000 * 60) in
      Z.max 0 (totalMinutes - default 0 breakTime)
  end.



End Attendance.

(** ** Collaborators: hashing and the local calendar *)

(** [crypto.createHash('sha256')] and [bcryptjs], as functions. *)
Class Crypto := {
  sha256 : string -> string;
  bcrypt_hash : string -> string;
  bcrypt_compare : string -> string -> bool
}.

(** [new Date(d.getFullYear(), d.getMonth(), d.getDate())]: midnight, in
    the server's time zone, of the day that contains [d]. *)
Class LocalTime := { localMidnight : Date -> Date }.

(** The setters of a schema path declared [lowercase: true, trim: true]:
    Mongoose applies [String.prototype.toLowerCase] and [trim] to a value
    assigned to the path and to the value the path is given in the filter
    of a query. Both are library functions over Unicode text. *)
Class Setters := { lowercaseTrim : string -> string }.

Definition msPerDay : Z := 24 * 60 * 60 * 1000.

(** ** models/User.js *)

Module User.

Inductive Role := Employee | Admin | Hr | SuperAdmin.

Definition role_eqb (a b : Role) : bool :=
  match a, b with
  | Employee, Employee | Admin, Admin | Hr, Hr | SuperAdmin, SuperAdmin => true
  | _, _ => false
  end.

Record FaceImage := {
  filename : option string;
  path : option string;
  cloudinaryUrl : option string;
  cloudinaryPublicId : option string;
  uploadDate : Date
}.

(** The paths of [UserSchema]. [loginAttempts] is [None] when the stored
    document has no such field (after [$unset]). *)
Record t := mk {
  _id : ObjectId;
  firstName : string;
  lastName : string;
  email : string;
  employeeId : string;
  department : string;
  designation : string;
  phoneNumber : string;
  password : string;
  faceDescriptors : list (list Q);
  faceImages : list FaceImage;
  faceEnrolled : bool;
  faceEnrollmentAttempts : Z;
  aadhaarNumber : option string;
  aadhaarVerified : bool;
  aadhaarVerificationDate : option Date;
  isActive : bool;
  isApproved : bool;
  approvedBy : option ObjectId;
  approvedDate : option Date;
  organization : option ObjectId;
  resetPasswordToken : option string;
  resetPasswordExpires : option Date;
  role : Role;
  lastLogin : option Date;
  loginAttempts : option nat;
  lockUntil : option Date
}.

(** Reading [this.loginAttempts] on a hydrated document applies the
    schema default 0. *)
Definition getLoginAttempts (this : t) : nat := default 0%nat (loginAttempts this).

(** Field groups written by the methods and handlers below. *)
Definition with_login (la : option nat) (lu : option Date) (u : t) : t :=
  mk (_id u) (firstName u) (lastName u) (email u) (employeeId u)
     (department u) (designation u) (phoneNumber u) (password u)
     (faceDescriptors u) (faceImages u) (faceEnrolled u)
     (faceEnrollmentAttempts u) (aadhaarNumber u) (aadhaarVerified u)
     (aadhaarVerificationDate u) (isActive u) (isApproved u) (approvedBy u)
     (approvedDate u) (organization u) (resetPasswordToken u)
     (resetPasswordExpires u) (role u) (lastLogin u) la lu.

Definition with_lastLogin (d : option Date) (u : t) : t :=
  mk (_id u) (firstName u) (lastName u) (email u) (employeeId u)
     (department u) (designation u) (phoneNumber u) (password u)
     (faceDescriptors u) (faceImages u) (faceEnrolled u)
     (faceEnrollmentAttempts u) (aadhaarNumber u) (aadhaarVerified u)
     (aadhaarVerificationDate u) (isActive u) (isApproved u) (approvedBy u)
     (approvedDate u) (organization u) (resetPasswordToken u)
     (resetPasswordExpires u) (role u) d (loginAttempts u) (lockUntil u).

Definition with_face (fd : list (list Q)) (fi : list FaceImage)
    (fe : bool) (fa : Z) (u : t) : t :=
  mk (_id u) (firstName u) (lastName u) (email u) (employeeId u)
     (department u) (designation u) (phoneNumber u) (password u)
     fd fi fe fa (aadhaarNumber u) (aadhaarVerified u)
     (aadhaarVerificationDate u) (isActive u) (isApproved u) (approvedBy u)
     (approvedDate u) (organization u) (resetPasswordToken u)
     (resetPasswordExpires u) (role u) (lastLogin u) (loginAttempts u)
     (lockUntil u).

Definition with_reset (pw : string) (tok : option string)
    (exp : option Date) (u : t) : t :=
  mk (_id u) (firstName u) (lastName u) (email u) (employeeId u)
     (department u) (designation u) (phoneNumber u) pw
     (faceDescriptors u) (faceImages u) (faceEnrolled u)
     (faceEnrollmentAttempts u) (aadhaarNumber u) (aadhaarVerified u)
     (aadhaarVerificationDate u) (isActive u) (isApproved u) (approvedBy u)
     (approvedDate u) (organization u) tok exp (role u) (lastLogin u)
     (loginAttempts u) (lockUntil u).

Definition with_account (active approved : bool) (by_ : option ObjectId)
    (on : option Date) (u : t) : t :=
  mk (_id u) (firstName u) (lastName u) (email u) (employeeId u)
     (department u) (designation u) (phoneNumber u) (password u)
     (faceDescriptors u) (faceImages u) (faceEnrolled u)
     (faceEnrollmentAttempts u) (aadhaarNumber u) (aadhaarVerified u)
     (aadhaarVerificationDate u) active approved by_ on (organization u)
     (resetPasswordToken u) (resetPasswordExpires u) (role u) (lastLogin u)
     (loginAttempts u) (lockUntil u).

(** The [isLocked] virtual: [!!(this.lockUntil && this.lockUntil > Date.now())]. *)
Definition isLocked (now : Date) (this : t) : bool :=
  match lockUntil this with
  | Some l => l >? now
  | None => false
  end.

Definition lockDuration : Z := 2 * 60 * 60 * 1000.

(** [incLoginAttempts]: the [updateOne] it issues, applied to the stored
    document. [$inc] on a missing field starts from 0. *)
Definition incLoginAttempts (now : Date) (this : t) : t :=
  let expired :=
    match lockUntil this with
    | Some l => l <? now
    | None => false
    end in
  if expired then with_login (Some 1%nat) None this
  else
    let attempts := (getLoginAttempts this + 1)%nat in
    if (5 <=? attempts)%nat && negb (isLocked now this)
    then with_login (Some attempts) (Some (now + lockDuration)) this
    else with_login (Some attempts) (lockUntil this) this.

(** [resetLoginAttempts]: [$unset] of both fields. *)
Definition resetLoginAttempts (this : t) : t := with_login None None this.

(** [addFaceDescriptor(descriptor)], before its [save]. *)
Definition addFaceDescriptor (descriptor : list Q) (this : t) : t :=
  let descriptors := faceDescriptors this ++ [descriptor] in
  with_face descriptors (faceImages this)
    (if (3 <=? length descriptors)%nat then true else faceEnrolled this)
    (faceEnrollmentAttempts this) this.

(** [clearFaceData()], before its [save]. *)
Definition clearFaceData (this : t) : t := with_face [] [] false 0 this.

Definition resetTokenLifetime : Z := 10 * 60 * 1000.

(** [createPasswordResetToken()]: [resetToken] is the hex string of the 32
    random bytes; the plain token is returned, its hash is kept. *)
Definition createPasswordResetToken `{Crypto}
    (now : Date) (resetToken : string) (this : t) : string * t :=
  (resetToken,
   with_reset (password this) (Some (sha256 resetToken))
     (Some (now + resetTokenLifetime)) this).

(** Collection helpers. *)
Definition findById (id : ObjectId) (users : list t) : option t :=
  List.find (fun u => Nat.eqb (_id u) id) users.

(** [findOne({ email })]: the value in the filter passes the setters of
    the [email] path before it is compared. *)
Definition findByEmail `{Setters} (e : string) (users : list t) : option t :=
  List.find (fun u => String.eqb (email u) (lowercaseTrim e)) users.

(** Writes [doc] over the stored document that has its [_id]. *)
Fixpoint store (doc : t) (users : list t) : list t :=
  match users with
  | [] => []
  | u :: rest =>
      if Nat.eqb (_id u) (_id doc) then doc :: rest else u :: store doc rest
  end.

(** [save()] of a loaded document whose only modified path is
    [lastLogin]: the stored document with that [_id] receives the date, its
    other paths stay as they are stored. *)
Fixpoint saveLastLogin (id : ObjectId) (d : option Date) (users : list t)
    : list t :=
  match users with
  | [] => []
  | u :: rest =>
      if Nat.eqb (_id u) id then with_lastLogin d u :: rest
      else u :: saveLastLogin id d rest
  end.

Inductive AuthError := InvalidCredentials | AccountLocked.

Definition authErrorMessage (e : AuthError) : string :=
  match e with
  | InvalidCredentials => "Invalid credentials"
  | AccountLocked =>
      "Account temporarily locked due to too many failed login attempts"
  end.

(** [findByCredentials(email, password)]: the thrown error or the returned
    user, with the collection after the call. *)
Definition findByCredentials `{Crypto} `{Setters}
    (now : Date) (email password : string) (users : list t)
    : (AuthError + t) * list t :=
  match findByEmail email users with
  | None => (inl InvalidCredentials, users)
  | Some user =>
      if isLocked now user then (inl AccountLocked, users)
      else if negb (bcrypt_compare password (User.password user)) then
        (inl InvalidCredentials, store (incLoginAttempts now user) users)
      else
        let stored :=
          if (0 <? getLoginAttempts user)%nat
          then resetLoginAttempts user else user in
        let saved := with_lastLogin (Some now) stored in
        (inr (with_lastLogin (Some now) user), store saved users)
  end.

End User.

(** ** models/Organization.js *)

Module Organization.

Inductive OrgType := School | Office | Hotel | Hospital | Factory | Retail | Other.
Inductive Plan := Free | Basic | Premium | Enterprise.

Record Settings := {
  workingHoursStart : string;
  workingHoursEnd : string;
  workingDays : list string;
  timezone : string;
  lateThreshold : Z;
  requireFaceRecognition : bool;
  allowOfflineMode : bool
}.

Record Subscription := {
  plan : Plan;
  maxUsers : Z;
  expiresAt : option Date;
  subscriptionActive : bool
}.

Record Stats := {
  totalUsers : Z;
  activeUsers : Z;
  totalAttendanceRecords : Z
}.

(** The paths of [OrganizationSchema] (the postal address is left out). *)
Record t := mk {
  _id : ObjectId;
  name : string;
  type : OrgType;
  description : option string;
  phone : option string;
  email : option string;
  website : option string;
  settings : Settings;
  subscription : Subscription;
  inviteCode : option string;
  isActive : bool;
  createdBy : option ObjectId;
  stats : Stats
}.






(** [canAddUser()]. *)
Definition canAddUser (this : t) : bool :=
  totalUsers (stats this) <? maxUsers (subscription this).

Definition findById (id : ObjectId) (orgs : list t) : option t :=
  List.find (fun o => Nat.eqb (_id o) id) orgs.

End Organization.

(** ** The document store *)

Record Db := mkDb {
  users : list User.t;
  attendance : list Attendance.t;
  organizations : list Organization.t
}.

Definition with_users (us : list User.t) (db : Db) : Db :=
  mkDb us (attendance db) (organizations db).

Definition with_attendance (atts : list Attendance.t) (db : Db) : Db :=
  mkDb (users db) atts (organizations db).

(** ** controllers/AttendanceController.js *)

Module AttendanceController.

Import Attendance.

(** The two values [markAttendanceSchema] admits for [type]. *)
Inductive MarkType := MarkCheckIn | MarkCheckOut.

Definition toAttType (m : MarkType) : AttType :=
  match m with
  | MarkCheckIn => CheckIn
  | MarkCheckOut => CheckOut
  end.

(** The validated body of [POST /attendance/mark]. *)
Record MarkValue := {
  mtype : MarkType;
  mlocation : option Location;
  note : option string;
  isOffline : bool;
  offlineTimestamp : option Date
}.

(** [req.file] as multer leaves it. *)
Record UploadedFile := { fileName : string; filePath : string }.

Definition findById (id : ObjectId) (atts : list t) : option t :=
  List.find (fun a => Nat.eqb (_id a) id) atts.

(** Writes [doc] over the stored document that has its [_id]. *)
Fixpoint store (doc : t) (atts : list t) : list t :=
  match atts with
  | [] => []
  | a :: rest =>
      if Nat.eqb (_id a) (_id doc) then doc :: rest else a :: store doc rest
  end.

(** [findByIdAndDelete]. *)
Fixpoint remove (id : ObjectId) (atts : list t) : list t :=
  match atts with
  | [] => []
  | a :: rest => if Nat.eqb (_id a) id then rest else a :: remove id rest
  end.

(** [.sort({ checkInTime: -1 })], as a stable insertion sort. The order
    the database gives to events with equal times is not fixed; the guard
    below depends on the times of the first matches only (see
    [LedgerFacts.rejects_check_in] and [LedgerFacts.rejects_check_out]). *)
Fixpoint insertDesc (a : t) (sorted : list t) : list t :=
  match sorted with
  | [] => [a]
  | b :: rest =>
      if checkInTime b <=? checkInTime a then a :: b :: rest
      else b :: insertDesc a rest
  end.

Definition sortDesc (atts : list t) : list t := foldr insertDesc [] atts.

(** The filter of the query: this user's events whose [checkInTime] lies
    in [[startOfDay, endOfDay)]. *)
Definition isToday `{LocalTime} (now : Date) (uid : ObjectId) (a : t) : bool :=
  let startOfDay := localMidnight now in
  let endOfDay := startOfDay + msPerDay in
  Nat.eqb (user a) uid &&
  (startOfDay <=? checkInTime a) && (checkInTime a <? endOfDay).

Definition existingAttendance `{LocalTime}
    (now : Date) (uid : ObjectId) (atts : list t) : list t :=
  sortDesc (List.filter (isToday now uid) atts).

Definition alreadyCheckedIn : Response t :=
  fail 400 "You are already checked in. Please check out first.".

Definition noOpenCheckIn : Response t :=
  fail 400 "You need to check in first before checking out.".

Definition notApproved : Response t :=
  fail 403 "Account not approved yet. Please contact your admin.".

Definition accountInactive : Response t :=
  fail 403 "Account is inactive. Please contact your admin.".

Definition markFailed : Response t := fail 500 "Failed to mark attendance".

(** The transition guard of [markAttendance]: [true] when the request is
    turned away. *)
Definition rejects (ty : MarkType) (existing : list t) : bool :=
  let lastCheckIn := List.find (fun att => att_type_eqb (type att) CheckIn) existing in
  let lastCheckOut := List.find (fun att => att_type_eqb (type att) CheckOut) existing in
  match ty with
  | MarkCheckIn =>
      match lastCheckIn with
      | Some ci =>
          match lastCheckOut with
          | None => true
          | Some co => checkInTime co <? checkInTime ci
          end
      | None => false
      end
  | MarkCheckOut =>
      match lastCheckIn with
      | None => true
      | Some ci =>
          match lastCheckOut with
          | Some co => checkInTime co >? checkInTime ci
          | None => false
          end
      end
  end.

(** [new Attendance({...})] with the schema defaults, the assignment of
    [checkOutTime] for a check-out and the pre-save hook that derives [date].
    The keys [note] and [isOffline] handed to the constructor are not paths of
    the schema and are dropped by it. *)
Definition newAttendance `{LocalTime}
    (now : Date) (newId : ObjectId) (file : option UploadedFile)
    (v : MarkValue) (uid org : ObjectId) : t :=
  let time :=
    match isOffline v, offlineTimestamp v with
    | true, Some ts => ts
    | _, _ => now
    end in
  {| _id := newId;
     user := uid;
     organization := org;
     date := localMidnight time;
     checkInTime := time;
     checkOutTime :=
       match mtype v with
       | MarkCheckOut => Some time
       | MarkCheckIn => None
       end;
     type := toAttType (mtype v);
     recognitionMethod := FaceRecognition;
     faceConfidence := None;
     faceImage :=
       match file with
       | Some f => Some {| filename := Some (fileName f);
                           path := Some (filePath f) |}
       | None => None
       end;
     location := mlocation v;
     ipAddress := None;
     userAgent := None;
     status := AutoApproved;
     approvedBy := None;
     approvedDate := None;
     rejectionReason := None;
     workingHours := 0;
     breakTime := 0;
     overtime := 0;
     isOfflineEntry := false;
     syncedAt := None;
     deviceId := None;
     notes := None;
     adminNotes := None |}.

Definition created (ty : MarkType) (a : t) : Response t :=
  mkResponse 201 true
    (match ty with
     | MarkCheckIn => "Checked in"
     | MarkCheckOut => "Checked out"
     end ++ " successfully!")%string
    (Some a).

(** [markAttendance(req, res)]: [user] is [req.user], [newId] the id
    the new document receives. Saving the event fails, and the handler
    answers 500, when the required [organization] is missing. The event is
    saved before [user.lastLogin] is: that [save] writes the one modified
    path on the stored document and throws, the event being stored
    already, when no stored document has the id of [req.user]. *)
Definition markAttendance `{LocalTime}
    (now : Date) (newId : ObjectId) (file : option UploadedFile)
    (body : Validated MarkValue) (user : User.t) (db : Db)
    : Response t * Db :=
  match body with
  | JoiError _ => (validationError, db)
  | JoiValue v =>
      if negb (User.isApproved user) then (notApproved, db)
      else if negb (User.isActive user) then (accountInactive, db)
      else
        let existing := existingAttendance now (User._id user) (attendance db) in
        if rejects (mtype v) existing then
          (match mtype v with
           | MarkCheckIn => alreadyCheckedIn
           | MarkCheckOut => noOpenCheckIn
           end, db)
        else
          match User.organization user with
          | None => (markFailed, db)
          | Some org =>
              let att := newAttendance now newId file v (User._id user) org in
              let db1 := with_attendance (attendance db ++ [att]) db in
              match User.findById (User._id user) (users db1) with
              | None => (markFailed, db1)
              | Some _ =>
                  let db2 :=
                    with_users
                      (User.saveLastLogin (User._id user) (Some now) (users db1))
                      db1 in
                  (created (mtype v) att, db2)
              end
          end
  end.

(** A loaded document object: the schema paths and the plain
    properties assigned to it besides. Under Mongoose's default [strict]
    schema option a property that is not a path of the schema is never
    written by [save], nor serialized in a response. *)
Record Document := {
  paths : t;
  props : gmap string JsValue
}.

Definition hydrate (a : t) : Document := {| paths := a; props := ∅ |}.

(** The path names of [AttendanceSchema]. *)
Definition schemaPaths : list string :=
  [ "user"; "organization"; "date"; "checkInTime"; "checkOutTime"; "type";
    "recognitionMethod"; "faceConfidence"; "faceImage"; "location";
    "ipAddress"; "userAgent"; "status"; "approvedBy"; "approvedDate";
    "rejectionReason"; "workingHours"; "breakTime"; "overtime";
    "isOfflineEntry"; "syncedAt"; "deviceId"; "notes"; "adminNotes" ].

(** [doc[name] = v] for a [name] outside [schemaPaths]. *)
Definition assignProp (name : string) (v : JsValue) (doc : Document) : Document :=
  {| paths := paths doc; props := <[name := v]> (props doc) |}.

Definition save (doc : Document) (atts : list t) : list t := store (paths doc) atts.

Definition isUndefined (v : JsValue) : bool :=
  match v with
  | JsUndefined => true
  | _ => false
  end.

(** The body of [PUT /attendance/:id]: an absent key reads [JsUndefined]. *)
Record UpdateBody := { bnote : JsValue; bisApproved : JsValue }.

(** The admin-of-another-organization guard shared by update and delete:
    [None] when reading [req.user.organization.equals] throws. *)
Definition foreignAdmin (actor : User.t) (org : option ObjectId) : option bool :=
  match User.role actor with
  | User.Admin =>
      match User.organization actor with
      | Some mine => Some (negb (oid_equals mine org))
      | None => None
      end
  | _ => Some false
  end.

(** [updateAttendance(req, res)]. *)
Definition updateAttendance
    (now : Date) (actor : User.t) (id : ObjectId) (body : UpdateBody) (db : Db)
    : Response t * Db :=
  match findById id (attendance db) with
  | None => (fail 404 "Attendance record not found", db)
  | Some found =>
      match foreignAdmin actor (Some (organization found)) with
      | None => (fail 500 "Failed to update attendance record", db)
      | Some true =>
          (fail 403 "You can only modify attendance records in your organization", db)
      | Some false =>
          let doc := hydrate found in
          let doc :=
            if isUndefined (bnote body) then doc
            else assignProp "note" (bnote body) doc in
          let doc :=
            if isUndefined (bisApproved body) then doc
            else assignProp "isApproved" (bisApproved body) doc in
          let doc := assignProp "modifiedBy" (JsId (User._id actor)) doc in
          let doc := assignProp "modifiedAt" (JsDate now) doc in
          (mkResponse 200 true "Attendance record updated successfully"
             (Some (paths doc)),
           with_attendance (save doc (attendance db)) db)
      end
  end.

(** [deleteAttendance(req, res)]. *)
Definition deleteAttendance
    (actor : User.t) (id : ObjectId) (db : Db) : Response t * Db :=
  match findById id (attendance db) with
  | None => (fail 404 "Attendance record not found", db)
  | Some found =>
      match foreignAdmin actor (Some (organization found)) with
      | None => (fail 500 "Failed to delete attendance record", db)
      | Some true =>
          (fail 403 "You can only delete attendance records in your organization", db)
      | Some false =>
          (mkResponse 200 true "Attendance record deleted successfully" None,
           with_attendance (remove id (attendance db)) db)
      end
  end.

End AttendanceController.

(** ** controllers/UserController.js *)

Module UserController.

Inductive Action := Approve | Reject | Activate | Deactivate | ResetFace.

Definition actionName (a : Action) : string :=
  match a with
  | Approve => "approve"
  | Reject => "reject"
  | Activate => "activate"
  | Deactivate => "deactivate"
  | ResetFace => "reset-face"
  end.

(** The validated body of [POST /users/:id/admin-action]. *)
Record AdminActionValue := { action : Action; reason : option string }.

Definition selfForbidden (a : Action) : bool :=
  match a with
  | Deactivate | Reject => true
  | _ => false
  end.

(** The [switch (action)] with the [save] that follows it, on the
    loaded [user]. *)
Definition applyAction (now : Date) (actor : User.t) (a : Action) (user : User.t) : User.t :=
  match a with
  | Approve =>
      User.with_account (User.isActive user) true
        (Some (User._id actor)) (Some now) user
  | Reject =>
      User.with_account false false
        (User.approvedBy user) (User.approvedDate user) user
  | Activate =>
      User.with_account true (User.isApproved user)
        (User.approvedBy user) (User.approvedDate user) user
  | Deactivate =>
      User.with_account false (User.isApproved user)
        (User.approvedBy user) (User.approvedDate user) user
  | ResetFace => User.clearFaceData user
  end.

(** [performAdminAction(req, res)]: [actor] is [req.user], [id] is
    [req.params.id]. *)
Definition performAdminAction
    (now : Date) (actor : User.t) (id : ObjectId)
    (body : Validated AdminActionValue) (db : Db) : Response User.t * Db :=
  match body with
  | JoiError _ => (validationError, db)
  | JoiValue v =>
      match User.findById id (users db) with
      | None => (fail 404 "User not found", db)
      | Some user =>
          match AttendanceController.foreignAdmin actor (User.organization user) with
          | None => (fail 500 "Failed to perform admin action", db)
          | Some true =>
              (fail 403 "You can only manage users in your organization", db)
          | Some false =>
              if Nat.eqb (User._id actor) (User._id user)
                 && selfForbidden (action v)
              then (fail 400 "Cannot perform this action on your own account", db)
              else
                let user' := applyAction now actor (action v) user in
                (mkResponse 200 true
                   ("User " ++ actionName (action v) ++ "d successfully")%string
                   (Some user'),
                 with_users (User.store user' (users db)) db)
          end
      end
  end.

End UserController.

(** ** controllers/OrganizationController.js *)

Module OrganizationController.

Definition roleName (r : User.Role) : string :=
  match r with
  | User.Employee => "employee"
  | User.Admin => "admin"
  | User.Hr => "hr"
  | User.SuperAdmin => "super-admin"
  end.

(** The filters of [GET /organizations/:id/users] kept by the model; the
    text search, the ordering, the paging and the join with today's
    attendance shape the page that is returned and are left out. *)
Record UsersQuery := {
  qdepartment : option string;
  qrole : option string;
  qisActive : option string
}.

Definition matchesQuery (org : ObjectId) (q : UsersQuery) (u : User.t) : bool :=
  oid_equals org (User.organization u)
  && match qdepartment q with
     | Some d => if String.eqb d "" then true else String.eqb (User.department u) d
     | None => true
     end
  && match qrole q with
     | Some r =>
         if String.eqb r "" || String.eqb r "all" then true
         else String.eqb (roleName (User.role u)) r
     | None => true
     end
  && match qisActive q with
     | Some s => Bool.eqb (User.isActive u) (String.eqb s "true")
     | None => true
     end.

(** [.select('-password -faceDescriptors')]. *)
Definition selectPublic (u : User.t) : User.t :=
  User.with_reset "" (User.resetPasswordToken u) (User.resetPasswordExpires u)
    (User.with_face [] (User.faceImages u) (User.faceEnrolled u)
       (User.faceEnrollmentAttempts u) u).

(** The permission test of [getOrganizationUsers] and
    [getOrganizationStats]; [organization?.equals] of an absent
    organization is [undefined]. *)
Definition accessDenied (actor : User.t) (org : ObjectId) : bool :=
  negb (User.role_eqb (User.role actor) User.SuperAdmin)
  && (negb (User.role_eqb (User.role actor) User.Admin)
      || negb (match User.organization actor with
               | Some mine => oid_equals mine (Some org)
               | None => false
               end)).

(** [getOrganizationUsers(req, res)]: a read, the store is not written. *)
Definition getOrganizationUsers
    (actor : User.t) (id : ObjectId) (q : UsersQuery) (db : Db)
    : Response (list User.t) :=
  match Organization.findById id (organizations db) with
  | None => fail 404 "Organization not found"
  | Some organization =>
      if accessDenied actor (Organization._id organization)
      then fail 403 "Access denied"
      else
        mkResponse 200 true ""
          (Some (map selectPublic
                   (List.filter (matchesQuery id q) (users db))))
  end.






End OrganizationController.

(** ** controllers/AuthController.js *)

Module AuthController.

Record LoginValue := { lemail : string; lpassword : string }.

(** [login(req, res)]: every error thrown by [findByCredentials] is
    answered 401 with its message. *)
Definition login `{Crypto} `{Setters}
    (now : Date) (body : Validated LoginValue) (db : Db) : Response User.t * Db :=
  match body with
  | JoiError _ => (validationError, db)
  | JoiValue v =>
      match User.findByCredentials now (lemail v) (lpassword v) (users db) with
      | (inl e, us) => (fail 401 (User.authErrorMessage e), with_users us db)
      | (inr user, us) =>
          (mkResponse 200 true "Login successful" (Some user), with_users us db)
      end
  end.

(** [!s] for a body field that should hold a string. *)
Definition falsy (s : option string) : bool :=
  match s with
  | None => true
  | Some s' => String.eqb s' ""
  end.

(** [forgotPassword(req, res)]: [resetToken] is the random token drawn
    by [createPasswordResetToken]. [mailReturned] is [true] when
    [require('../services/emailService')] and the call of
    [sendPasswordResetEmail] return: the service catches its own send
    errors and reports them in a result that the handler does not read.
    It is [false] when they throw, as the module does on loading when the
    transport cannot be configured. *)
Definition forgotPassword `{Crypto} `{Setters}
    (now : Date) (resetToken : string) (mailReturned : bool)
    (email : option string) (db : Db) : Response unit * Db :=
  match email with
  | None => (fail 400 "Email is required", db)
  | Some e =>
      if String.eqb e "" then (fail 400 "Email is required", db)
      else
        match User.findByEmail e (users db) with
        | None => (fail 404 "No user found with that email address", db)
        | Some user =>
            let user' := snd (User.createPasswordResetToken now resetToken user) in
            if mailReturned then
              (mkResponse 200 true "Password reset email sent successfully" None,
               with_users (User.store user' (users db)) db)
            else
              (fail 500 "Email could not be sent. Please try again later.",
               with_users
                 (User.store (User.with_reset (User.password user') None None user')
                             (users db)) db)
        end
  end.

Definition tokenInvalid : Response User.t := fail 400 "Token is invalid or has expired".

(** The filter of the [findOne] in [resetPassword]. *)
Definition holdsToken (now : Date) (hashedToken : string) (u : User.t) : bool :=
  match User.resetPasswordToken u, User.resetPasswordExpires u with
  | Some h, Some exp => String.eqb h hashedToken && (exp >? now)
  | _, _ => false
  end.

(** [resetPassword(req, res)]: the pre-save hook hashes the new password. *)
Definition resetPassword `{Crypto}
    (now : Date) (token : string) (password confirmPassword : option string)
    (db : Db) : Response User.t * Db :=
  if falsy password || falsy confirmPassword then
    (fail 400 "Password and confirm password are required", db)
  else
    let pw := default "" password in
    if negb (String.eqb pw (default "" confirmPassword)) then
      (fail 400 "Passwords do not match", db)
    else if (jsLength pw <? 6)%nat then
      (fail 400 "Password must be at least 6 characters long", db)
    else
      let hashedToken := sha256 token in
      match List.find (holdsToken now hashedToken) (users db) with
      | None => (tokenInvalid, db)
      | Some user =>
          let user' :=
            User.with_login (Some 0%nat) None
              (User.with_reset (bcrypt_hash pw) None None user) in
          (mkResponse 200 true "Password reset successful" (Some user'),
           with_users (User.store user' (users db)) db)
      end.

(** [enrollFace(req, res)]: [descriptors] is [None] when the body field is
    missing or does not parse to an array. *)
Definition enrollFace
    (now : Date) (file : option AttendanceController.UploadedFile)
    (descriptors : option (list Q)) (user : User.t) (db : Db)
    : Response User.t * Db :=
  match file with
  | None => (fail 400 "Face image is required", db)
  | Some f =>
      match descriptors with
      | None => (fail 400 "Face descriptors are required", db)
      | Some d =>
          let image :=
            {| User.filename := Some (AttendanceController.fileName f);
               User.path := None;
               User.cloudinaryUrl := Some (AttendanceController.filePath f);
               User.cloudinaryPublicId := Some (AttendanceController.fileName f);
               User.uploadDate := now |} in
          let all := User.faceDescriptors user ++ [d] in
          let user' :=
            User.with_face all (User.faceImages user ++ [image])
              (if (1 <=? length all)%nat then true else User.faceEnrolled user)
              (User.faceEnrollmentAttempts user) user in
          (mkResponse 200 true "Face enrolled successfully" (Some user'),
           with_users (User.store user' (users db)) db)
      end
  end.

End AuthController.

(** ** The specification's vocabulary

    The conditions of the ledger and the derived metrics in the words of the
    specification, to be compared with what the handlers compute. *)

Module Ledger.

Import Attendance AttendanceController.


(** The user's events of the current calendar day, in stored order. *)
Definition todays `{LocalTime} (now : Date) (uid : ObjectId) (atts : list t) : list t :=
  List.filter (isToday now uid) atts.

(** [e] is a most recent event of type [ty] among [evs]. *)
Definition latest (ty : AttType) (e : t) (evs : list t) : Prop :=
  In e evs /\ type e = ty
  /\ forall x, In x evs -> type x = ty -> checkInTime x <= checkInTime e.

(** An open check-in: a check-in exists and no check-out exists or the most
    recent check-out is earlier than the most recent check-in. *)
Definition openCheckIn (evs : list t) : Prop :=
  exists ci, latest CheckIn ci evs
    /\ ((forall x, In x evs -> type x <> CheckOut)
        \/ exists co, latest CheckOut co evs /\ checkInTime co < checkInTime ci).


Definition descending : list t -> Prop :=
  StronglySorted (fun a b => checkInTime b <= checkInTime a).

(** The instant a new event is stamped with. *)
Definition requestTime (now : Date) (v : MarkValue) : Date :=
  match isOffline v, offlineTimestamp v with
  | true, Some ts => ts
  | _, _ => now
  end.

(** The check-in rule as the specification states it, for every user who
    passes its gate preconditions. *)
Definition check_in_rule `{LocalTime}
    (now : Date) (newId : ObjectId) (file : option UploadedFile)
    (v : MarkValue) (user : User.t) (db : Db) : Prop :=
  mtype v = MarkCheckIn ->
  User.isApproved user = true ->
  User.isActive user = true ->
  let today := todays now (User._id user) (attendance db) in
  let out := markAttendance now newId file (JoiValue v) user db in
  (openCheckIn today -> out = (alreadyCheckedIn, db))
  /\ (~ openCheckIn today ->
      exists e, fst out = created MarkCheckIn e
        /\ attendance (snd out) = attendance db ++ [e]
        /\ type e = CheckIn
        /\ checkInTime e = requestTime now v).


(** What [markAttendance] answers and stores when the request passes
    every check, for a stored user of organization [org]: the new event,
    and [lastLogin] on the stored document of the user. *)
Definition accepted `{LocalTime}
    (now : Date) (newId : ObjectId) (file : option UploadedFile)
    (v : MarkValue) (user : User.t) (db : Db) (org : ObjectId)
    : Response t * Db :=
  let e := newAttendance now newId file v (User._id user) org in
  let db1 := with_attendance (attendance db ++ [e]) db in
  (created (mtype v) e,
   with_users (User.saveLastLogin (User._id user) (Some now) (users db1)) db1).

End Ledger.

(** ** Sequences of logins *)

Module Lockout.

Import User.

(** Successive calls of [findByCredentials] for one account: each try is
    the clock reading and the password presented. *)
Fixpoint authenticateAll `{Crypto} `{Setters}
    (email : string) (tries : list (Date * string)) (users : list t)
    : list (AuthError + t) * list t :=
  match tries with
  | [] => ([], users)
  | (now, password) :: rest =>
      let '(r, users1) := findByCredentials now email password users in
      let '(rs, users2) := authenticateAll email rest users1 in
      (r :: rs, users2)
  end.

(** A try with a password that does not match the stored hash of [u]. *)
Definition wrong `{Crypto} (u : t) (try : Date * string) : Prop :=
  bcrypt_compare (snd try) (password u) = false.

(** The responses the specification expects around the fifth failure: the
    fifth try and a sixth try are both answered AccountLocked. *)
Definition fifth_and_sixth_locked `{Crypto} `{Setters}
    (email : string) (tries : list (Date * string))
    (sixth : Date * string) (users : list t) : Prop :=
  let '(rs, users5) := authenticateAll email tries users in
  nth_error rs 4 = Some (inl AccountLocked)
  /\ fst (findByCredentials (fst sixth) email (snd sixth) users5)
     = inl AccountLocked.

End Lockout.

(** ** Invite codes and reset tokens: store invariants *)

Module Tenancy.



Fixpoint allChars (p : Ascii.ascii -> bool) (s : string) : bool :=
  match s with
  | EmptyString => true
  | String c rest => p c && allChars p rest
  end.

(** No stored user holds the hash of [token]: a freshly drawn token. *)
Definition freshToken `{Crypto} (token : string) (users : list User.t) : Prop :=
  forall x, In x users -> User.resetPasswordToken x <> Some (sha256 token).

End Tenancy.

(** ** Sample collaborators and documents

    Concrete instances on which the definitions above can be run. *)

Module Samples.

(** A server whose local time is UTC. *)
#[global] Instance utcTime : LocalTime :=
  {| localMidnight := fun d => d / msPerDay * msPerDay |}.

(** Stand-ins for the hash functions: tagged identity. *)
#[global] Instance tagCrypto : Crypto :=
  {| sha256 := fun s => ("sha256:" ++ s)%string;
     bcrypt_hash := fun s => ("bcrypt:" ++ s)%string;
     bcrypt_compare := fun candidate hash =>
       String.eqb ("bcrypt:" ++ candidate)%string hash |}.

(** Setters that know ASCII: the letters A to Z are lowered, blanks at
    both ends are dropped. *)
Definition lowerAscii (c : Ascii.ascii) : Ascii.ascii :=
  let n := Ascii.nat_of_ascii c in
  if ((65 <=? n) && (n <=? 90))%nat then Ascii.ascii_of_nat (n + 32) else c.

Definition isBlank (c : Ascii.ascii) : bool :=
  let n := Ascii.nat_of_ascii c in
  (Nat.eqb n 32 || (9 <=? n) && (n <=? 13))%nat.

Fixpoint trimStart (s : string) : string :=
  match s with
  | EmptyString => EmptyString
  | String c rest => if isBlank c then trimStart rest else s
  end.

Fixpoint trimEnd (s : string) : string :=
  match s with
  | EmptyString => EmptyString
  | String c rest =>
      match trimEnd rest with
      | EmptyString => if isBlank c then EmptyString else String c EmptyString
      | kept => String c kept
      end
  end.

Fixpoint lowerAll (s : string) : string :=
  match s with
  | EmptyString => EmptyString
  | String c rest => String (lowerAscii c) (lowerAll rest)
  end.

#[global] Instance asciiSetters : Setters :=
  {| lowercaseTrim := fun s => lowerAll (trimEnd (trimStart s)) |}.

Definition hour : Z := 60 * 60 * 1000.

Definition employee (id : ObjectId) (org : option ObjectId) (mail : string) : User.t :=
  User.mk id "Asha" "Rao" mail "E-1" "Ops" "Clerk" "9999999999"
    (bcrypt_hash "secret1") [] [] false 0 None false None true true None None
    org None None User.Employee None None None.

Definition admin (id : ObjectId) (org : option ObjectId) (mail : string) : User.t :=
  User.mk id "Ravi" "Iyer" mail "A-1" "Ops" "Manager" "8888888888"
    (bcrypt_hash "secret2") [] [] false 0 None false None true true None None
    org None None User.Admin None None None.

(** A registered employee whose account awaits approval. *)
Definition pending (id : ObjectId) (org : option ObjectId) (mail : string) : User.t :=
  User.with_account true false None None (employee id org mail).

(** An event as the schema defaults leave it at creation. *)
Definition event (id uid org : ObjectId) (ty : Attendance.AttType)
    (time : Date) (break : Z) : Attendance.t :=
  Attendance.mk id uid org (localMidnight time) time None ty
    Attendance.FaceRecognition None None None None None
    Attendance.AutoApproved None None None 0 break 0 false None None None None.

Definition org (id : ObjectId) (code : option string) (active : bool) : Organization.t :=
  Organization.mk id "Acme" Organization.Office None None None None
    {| Organization.workingHoursStart := "09:00";
       Organization.workingHoursEnd := "17:00";
       Organization.workingDays := [];
       Organization.timezone := "Asia/Kolkata";
       Organization.lateThreshold := 15;
       Organization.requireFaceRecognition := true;
       Organization.allowOfflineMode := true |}
    {| Organization.plan := Organization.Free;
       Organization.maxUsers := 10;
       Organization.expiresAt := None;
       Organization.subscriptionActive := true |}
    code active None
    {| Organization.totalUsers := 0;
       Organization.activeUsers := 0;
       Organization.totalAttendanceRecords := 0 |}.

Definition checkInRequest : AttendanceController.MarkValue :=
  {| AttendanceController.mtype := AttendanceController.MarkCheckIn;
     AttendanceController.mlocation := None;
     AttendanceController.note := None;
     AttendanceController.isOffline := false;
     AttendanceController.offlineTimestamp := None |}.

Definition checkOutRequest : AttendanceController.MarkValue :=
  {| AttendanceController.mtype := AttendanceController.MarkCheckOut;
     AttendanceController.mlocation := None;
     AttendanceController.note := None;
     AttendanceController.isOffline := false;
     AttendanceController.offlineTimestamp := None |}.

(** A super-admin, who belongs to no organization. *)
Definition superAdmin (id : ObjectId) (mail : string) : User.t :=
  User.mk id "Mira" "Das" mail "S-1" "HQ" "Owner" "7777777777"
    (bcrypt_hash "secret3") [] [] false 0 None false None true true None None
    None None None User.SuperAdmin None None None.

(** A store that holds the account [u] and nothing else. *)
Definition homeDb (u : User.t) : Db := mkDb [u] [] [].

Definition asha : User.t := employee 1 (Some 10%nat) "asha@acme.io".

(** Five tries with passwords that are not Asha's, one second apart. *)
Definition fiveWrong : list (Date * string) :=
  [(1000, "guess1"); (2000, "guess2"); (3000, "guess3"); (4000, "guess4");
   (5000, "guess5")].

(** One employee of organization 10 who checked in at 09:00 on day 0. *)
Definition morningDb (u : User.t) : Db :=
  mkDb [u] [event 100 (User._id u) 10 Attendance.CheckIn (9 * hour) 0] [].

End Samples.

From Stdlib Require Import DecimalString.


(** * Further code of the repository *)

(** ** middleware/auth.js: the rate limiter of sensitive operations *)

Module RateLimit.

Definition tooMany : Response unit :=
  fail 429 "Too many attempts. Please try again later.".

(** One call of the middleware returned by
    [sensitiveOperationLimit(maxAttempts, windowMs)]: [key] is
    [req.ip + (req.user ? req.user._id : '')], [attempts] the [Map] the
    closure keeps. [None] stands for [next()]. *)
Definition sensitiveOperationLimit
    (maxAttempts windowMs : Z) (key : string) (now : Z)
    (attempts : gmap string (list Z))
    : option (Response unit) * gmap string (list Z) :=
  let attempts :=
    match attempts !! key with
    | Some _ => attempts
    | None => <[key := []]> attempts
    end in
  let userAttempts := default [] (attempts !! key) in
  let recentAttempts :=
    List.filter (fun time => now - time <? windowMs) userAttempts in
  if Z.of_nat (length recentAttempts) >=? maxAttempts then
    (Some tooMany, attempts)
  else
    (None, <[key := recentAttempts ++ [now]]> attempts).

(** The requests of one key, one after the other: the instants of those
    that were let through, and the map that is left. *)
Fixpoint admitted
    (maxAttempts windowMs : Z) (key : string) (times : list Z)
    (attempts : gmap string (list Z))
    : list Z * gmap string (list Z) :=
  match times with
  | [] => ([], attempts)
  | now :: rest =>
      let '(answer, attempts1) :=
        sensitiveOperationLimit maxAttempts windowMs key now attempts in
      let '(passed, attempts2) :=
        admitted maxAttempts windowMs key rest attempts1 in
      (match answer with
       | None => now :: passed
       | Some _ => passed
       end, attempts2)
  end.

(** How many of the instants [earlier] lie within the window that ends
    at [now]. *)
Definition withinWindow (windowMs : Z) (now : Z) (earlier : list Z) : Z :=
  Z.of_nat (length (List.filter (fun time => now - time <? windowMs) earlier)).

End RateLimit.

(** ** Documents updated in place *)

Module Stored.

(** [doc.save()] after assignments to some paths of a loaded user: the
    stored document with that [_id] receives the assignments [f], its other
    paths stay as stored. *)
Fixpoint modifyUser (id : ObjectId) (f : User.t -> User.t) (users : list User.t)
    : list User.t :=
  match users with
  | [] => []
  | u :: rest =>
      if Nat.eqb (User._id u) id then f u :: rest
      else u :: modifyUser id f rest
  end.

Definition with_aadhaar (number : option string) (verified : bool)
    (on : option Date) (u : User.t) : User.t :=
  User.mk (User._id u) (User.firstName u) (User.lastName u) (User.email u)
    (User.employeeId u) (User.department u) (User.designation u)
    (User.phoneNumber u) (User.password u) (User.faceDescriptors u)
    (User.faceImages u) (User.faceEnrolled u) (User.faceEnrollmentAttempts u)
    number verified on (User.isActive u) (User.isApproved u)
    (User.approvedBy u) (User.approvedDate u) (User.organization u)
    (User.resetPasswordToken u) (User.resetPasswordExpires u) (User.role u)
    (User.lastLogin u) (User.loginAttempts u) (User.lockUntil u).

Definition with_profile (first last phone dept desig : string) (u : User.t) : User.t :=
  User.mk (User._id u) first last (User.email u) (User.employeeId u) dept desig
    phone (User.password u) (User.faceDescriptors u) (User.faceImages u)
    (User.faceEnrolled u) (User.faceEnrollmentAttempts u)
    (User.aadhaarNumber u) (User.aadhaarVerified u)
    (User.aadhaarVerificationDate u) (User.isActive u) (User.isApproved u)
    (User.approvedBy u) (User.approvedDate u) (User.organization u)
    (User.resetPasswordToken u) (User.resetPasswordExpires u) (User.role u)
    (User.lastLogin u) (User.loginAttempts u) (User.lockUntil u).

End Stored.

(** ** routes/aadhaar.js: the OTP requests *)

Module Aadhaar.

(** An entry of [otpStore], keyed by the Aadhaar number. *)
Record OtpData := {
  requestId : string;
  userId : ObjectId;
  timestamp : Z;
  attempts : Z
}.

(** What [AadhaarService.sendOTP] and [AadhaarService.verifyOTP] return;
    a handler receives [None] when the service throws. *)
Record SendResult := { sendSuccess : bool; sendRequestId : string }.

Record VerifyResult := {
  verifySuccess : bool;
  verified : bool;
  verifyMessage : option string
}.

Definition isDigit (c : Ascii.ascii) : bool :=
  let n := Ascii.nat_of_ascii c in ((48 <=? n) && (n <=? 57))%nat.

(** [/^\d{6}$/.test(otp)]; an absent [otp] is tested as the text
    [undefined]. *)
Definition sixDigits (otp : option string) : bool :=
  match otp with
  | Some s => Nat.eqb (String.length s) 6 && Tenancy.allChars isDigit s
  | None => false
  end.

(** The development branch of [AadhaarService.verifyOTP]. *)
Definition mockVerifyOTP (otp : option string) : VerifyResult :=
  if sixDigits otp then
    {| verifySuccess := true; verified := true;
       verifyMessage := Some "Aadhaar verified successfully (Mock)" |}
  else
    {| verifySuccess := false; verified := false;
       verifyMessage := Some "Invalid OTP format" |}.

Definition sameNumber (stored : option string) (n : string) : bool :=
  match stored with
  | Some s => String.eqb s n
  | None => false
  end.

Definition verifiedHolder (n : string) (u : User.t) : bool :=
  sameNumber (User.aadhaarNumber u) n && User.aadhaarVerified u.

Definition otpResendDelay : Z := 2 * 60 * 1000.
Definition otpLifetime : Z := 10 * 60 * 1000.

(** The payload of the answers: the request id of a send, the attempts
    left after a failed verification, the date of a successful one. *)
Record OtpAnswer := {
  answerRequestId : option string;
  attemptsRemaining : option Z;
  verificationDate : option Date
}.

(** The handler of [POST /aadhaar/send-otp], past [authenticate] and the
    rate limiter: [body] is the validated Aadhaar number, [user] is
    [req.user], [service] what [sendOTP] returns. *)
Definition sendOtp
    (now : Z) (body : Validated string) (user : User.t)
    (service : option SendResult) (db : Db) (otpStore : gmap string OtpData)
    : Response OtpAnswer * gmap string OtpData :=
  match body with
  | JoiError _ => (validationError, otpStore)
  | JoiValue aadhaarNumber =>
      if negb (sameNumber (User.aadhaarNumber user) aadhaarNumber)
         && match List.find (verifiedHolder aadhaarNumber) (users db) with
            | Some _ => true
            | None => false
            end
      then
        (fail 400 "This Aadhaar number is already verified by another user",
         otpStore)
      else
        let recent :=
          match otpStore !! aadhaarNumber with
          | Some d => negb (timestamp d =? 0) && (now - timestamp d <? otpResendDelay)
          | None => false
          end in
        if recent then
          (fail 429 "Please wait before requesting another OTP", otpStore)
        else
          match service with
          | None => (fail 500 "Failed to send OTP", otpStore)
          | Some r =>
              if negb (sendSuccess r) then (fail 400 "Failed to send OTP", otpStore)
              else
                (mkResponse 200 true
                   "OTP sent successfully to your Aadhaar registered mobile number"
                   (Some {| answerRequestId := Some (sendRequestId r);
                            attemptsRemaining := None;
                            verificationDate := None |}),
                 <[aadhaarNumber :=
                     {| requestId := sendRequestId r;
                        userId := User._id user;
                        timestamp := now;
                        attempts := 0 |}]> otpStore)
          end
  end.

Definition invalidOtpRequest : Response OtpAnswer :=
  fail 400 "Invalid OTP request. Please request a new OTP.".

Definition otpExpired : Response OtpAnswer :=
  fail 400 "OTP has expired. Please request a new OTP.".

Definition otpAttemptsExceeded : Response OtpAnswer :=
  fail 400 "Maximum OTP verification attempts exceeded".

(** The handler of [POST /aadhaar/verify-otp], past [authenticate] and
    the rate limiter: [body] is the validated number and OTP, [service]
    what [verifyOTP] returns when the handler gets to call it. *)
Definition verifyOtp
    (now : Z) (body : Validated (string * option string)) (user : User.t)
    (service : option VerifyResult) (db : Db) (otpStore : gmap string OtpData)
    : Response OtpAnswer * Db * gmap string OtpData :=
  match body with
  | JoiError _ => (validationError, db, otpStore)
  | JoiValue (aadhaarNumber, otp) =>
      match otpStore !! aadhaarNumber with
      | None => (invalidOtpRequest, db, otpStore)
      | Some otpData =>
          if negb (Nat.eqb (userId otpData) (User._id user)) then
            (invalidOtpRequest, db, otpStore)
          else if now - timestamp otpData >? otpLifetime then
            (otpExpired, db, delete aadhaarNumber otpStore)
          else if attempts otpData >=? 3 then
            (otpAttemptsExceeded, db, delete aadhaarNumber otpStore)
          else
            match service with
            | None => (fail 500 "Failed to verify OTP", db, otpStore)
            | Some r =>
                let otpData' :=
                  {| requestId := requestId otpData;
                     userId := userId otpData;
                     timestamp := timestamp otpData;
                     attempts := attempts otpData + 1 |} in
                let otpStore' := <[aadhaarNumber := otpData']> otpStore in
                if negb (verifySuccess r) || negb (verified r) then
                  (mkResponse 400 false
                     (match verifyMessage r with
                      | Some m => if String.eqb m "" then "OTP verification failed" else m
                      | None => "OTP verification failed"
                      end)
                     (Some {| answerRequestId := None;
                              attemptsRemaining := Some (3 - attempts otpData');
                              verificationDate := None |}),
                   db, otpStore')
                else
                  (mkResponse 200 true
                     "Aadhaar verification completed successfully"
                     (Some {| answerRequestId := None;
                              attemptsRemaining := None;
                              verificationDate := Some now |}),
                   with_users
                     (Stored.modifyUser (User._id user)
                        (Stored.with_aadhaar (Some aadhaarNumber) true (Some now))
                        (users db)) db,
                   delete aadhaarNumber otpStore')
            end
      end
  end.

(** Successive verifications of one number by one caller: each try is the
    clock reading, the OTP sent and the answer of the service. *)
Fixpoint verifyAll
    (aadhaarNumber : string) (user : User.t)
    (tries : list (Z * option string * option VerifyResult))
    (db : Db) (otpStore : gmap string OtpData)
    : list (Response OtpAnswer) * Db * gmap string OtpData :=
  match tries with
  | [] => ([], db, otpStore)
  | (now, otp, service) :: rest =>
      let '(r, db1, store1) :=
        verifyOtp now (JoiValue (aadhaarNumber, otp)) user service db otpStore in
      let '(rs, db2, store2) := verifyAll aadhaarNumber user rest db1 store1 in
      (r :: rs, db2, store2)
  end.

(** A try that the service turns down. *)
Definition refused (try : Z * option string * option VerifyResult) : Prop :=
  exists r, snd try = Some r /\ (verifySuccess r = false \/ verified r = false).

End Aadhaar.

(** ** middleware/auth.js: authentication and role checks *)

(** What [jwt.verify(token, secret)] does at a given instant: it returns
    the [userId] of the payload or throws. *)
Inductive JwtResult :=
| JwtPayload (userId : ObjectId)
| JsonWebTokenError
| TokenExpiredError
| JwtFailure.

Class Jwt := { jwtVerify : Z -> string -> JwtResult }.

Module Middleware.

(** [s.replace(pattern, '')] for a string pattern: the first occurrence
    is removed. *)
Fixpoint removeFirst (pattern s : string) : string :=
  if String.prefix pattern s then
    String.substring (String.length pattern)
      (String.length s - String.length pattern) s
  else
    match s with
    | EmptyString => EmptyString
    | String c rest => String c (removeFirst pattern rest)
    end.

(** [.select('-password')]. *)
Definition withoutPassword (u : User.t) : User.t :=
  User.with_reset "" (User.resetPasswordToken u) (User.resetPasswordExpires u) u.

Definition unauthorized (msg : string) : Response unit := fail 401 msg.

(** [authenticate]: [authorization] is the [Authorization] header. The
    result is the answer sent, or the user placed in [req.user] for the
    handlers that follow. *)
Definition authenticate `{Jwt}
    (now : Z) (authorization : option string) (users : list User.t)
    : Response unit + User.t :=
  match authorization with
  | None => inl (unauthorized "Access denied. No token provided.")
  | Some header =>
      let token := removeFirst "Bearer " header in
      if String.eqb token "" then
        inl (unauthorized "Access denied. No token provided.")
      else
        match jwtVerify now token with
        | JsonWebTokenError => inl (unauthorized "Invalid token.")
        | TokenExpiredError => inl (unauthorized "Token has expired.")
        | JwtFailure => inl (fail 500 "Authentication failed.")
        | JwtPayload userId =>
            match User.findById userId users with
            | None => inl (unauthorized "Invalid token. User not found.")
            | Some stored =>
                let user := withoutPassword stored in
                if negb (User.isActive user) then
                  inl (unauthorized "Account is deactivated.")
                else if User.isLocked now user then
                  inl (unauthorized "Account is temporarily locked.")
                else inr user
            end
        end
  end.

(** [requireApproval]: [None] stands for [next()]. *)
Definition requireApproval (user : User.t) : option (Response unit) :=
  if negb (User.isApproved user) then
    Some (fail 403 "Account pending approval. Please contact your administrator.")
  else None.

(** [authorize(roles)]: [roles] is one role or an array of roles; further
    arguments of a call are not read. *)
Definition authorize (roles : User.Role + list User.Role) (user : option User.t)
    : option (Response unit) :=
  match user with
  | None => Some (unauthorized "Authentication required.")
  | Some u =>
      let allowedRoles :=
        match roles with
        | inl role => [role]
        | inr array => array
        end in
      if negb (existsb (User.role_eqb (User.role u)) allowedRoles) then
        Some (fail 403 "Insufficient permissions.")
      else None
  end.

(** [authorizeOwnerOrAdmin]: [resourceUserId] is the id named in the
    path. *)
Definition authorizeOwnerOrAdmin (resourceUserId : ObjectId) (user : User.t)
    : option (Response unit) :=
  if Nat.eqb (User._id user) resourceUserId
     || User.role_eqb (User.role user) User.Admin
  then None
  else Some (fail 403 "Access denied. You can only access your own data.").

End Middleware.

(** ** controllers/UserController.js: profiles and deletion *)

Module UserAdmin.

Import AttendanceController.

Definition accessDenied {A} : Response A := fail 403 "Access denied".

(** The role test shared by the two profile handlers: [true] when the
    caller is neither the owner nor an admin nor a super-admin. *)
Definition strangerTo (actor user : User.t) : bool :=
  negb (Nat.eqb (User._id actor) (User._id user))
  && negb (User.role_eqb (User.role actor) User.Admin)
  && negb (User.role_eqb (User.role actor) User.SuperAdmin).

(** [getUserProfile(req, res)]. *)
Definition getUserProfile (actor : User.t) (id : ObjectId) (db : Db)
    : Response User.t :=
  match User.findById id (users db) with
  | None => fail 404 "User not found"
  | Some stored =>
      let user := Middleware.withoutPassword stored in
      if strangerTo actor user then accessDenied
      else
        match foreignAdmin actor (User.organization user) with
        | None => fail 500 "Failed to fetch user profile"
        | Some true => accessDenied
        | Some false => mkResponse 200 true "" (Some user)
        end
  end.

(** The validated body of [PUT /users/profile/:id]. *)
Record ProfileValue := {
  pfirstName : option string;
  plastName : option string;
  pphoneNumber : option string;
  pdepartment : option string;
  pdesignation : option string
}.

(** [if (value[key]) user[key] = value[key]] for one key. *)
Definition assigned (new : option string) (old : string) : string :=
  match new with
  | Some s => if String.eqb s "" then old else s
  | None => old
  end.

Definition applyProfile (v : ProfileValue) (u : User.t) : User.t :=
  Stored.with_profile
    (assigned (pfirstName v) (User.firstName u))
    (assigned (plastName v) (User.lastName u))
    (assigned (pphoneNumber v) (User.phoneNumber u))
    (assigned (pdepartment v) (User.department u))
    (assigned (pdesignation v) (User.designation u)) u.

(** [updateUserProfile(req, res)]. *)
Definition updateUserProfile
    (actor : User.t) (id : ObjectId) (body : Validated ProfileValue) (db : Db)
    : Response User.t * Db :=
  match body with
  | JoiError _ => (validationError, db)
  | JoiValue value =>
      match User.findById id (users db) with
      | None => (fail 404 "User not found", db)
      | Some user =>
          if strangerTo actor user then (accessDenied, db)
          else
            let user' := applyProfile value user in
            (mkResponse 200 true "Profile updated successfully" (Some user'),
             with_users (User.store user' (users db)) db)
      end
  end.

(** The two routes of [routes/users.js], past [authenticate]. *)
Definition getProfileRoute (actor : User.t) (id : ObjectId) (db : Db)
    : Response User.t :=
  match Middleware.authorizeOwnerOrAdmin id actor with
  | Some r => fail (statusCode r) (message r)
  | None => getUserProfile actor id db
  end.

Definition putProfileRoute
    (actor : User.t) (id : ObjectId) (body : Validated ProfileValue) (db : Db)
    : Response User.t * Db :=
  match Middleware.authorizeOwnerOrAdmin id actor with
  | Some r => (fail (statusCode r) (message r), db)
  | None => updateUserProfile actor id body db
  end.

(** [User.findByIdAndDelete]. *)
Fixpoint removeUser (id : ObjectId) (users : list User.t) : list User.t :=
  match users with
  | [] => []
  | u :: rest =>
      if Nat.eqb (User._id u) id then rest else u :: removeUser id rest
  end.

(** [deleteUser(req, res)]: the events of the user go first
    ([Attendance.deleteMany]), then the document. The removal of the face
    image files touches the file system only, and its failures are
    swallowed. *)
Definition deleteUser (actor : User.t) (id : ObjectId) (db : Db)
    : Response unit * Db :=
  match User.findById id (users db) with
  | None => (fail 404 "User not found", db)
  | Some user =>
      match foreignAdmin actor (User.organization user) with
      | None => (fail 500 "Failed to delete user account", db)
      | Some true =>
          (fail 403 "You can only delete users in your organization", db)
      | Some false =>
          if Nat.eqb (User._id actor) (User._id user) then
            (fail 400 "Cannot delete your own account", db)
          else
            (mkResponse 200 true "User account deleted successfully" None,
             mkDb (removeUser id (users db))
                  (List.filter
                     (fun a => negb (Nat.eqb (Attendance.user a) (User._id user)))
                     (attendance db))
                  (organizations db))
      end
  end.

End UserAdmin.

(** ** controllers/OrganizationController.js: one organization *)

Module OrganizationAdmin.

Definition with_stats (s : Organization.Stats) (o : Organization.t) : Organization.t :=
  Organization.mk (Organization._id o) (Organization.name o)
    (Organization.type o) (Organization.description o) (Organization.phone o)
    (Organization.email o) (Organization.website o) (Organization.settings o)
    (Organization.subscription o) (Organization.inviteCode o)
    (Organization.isActive o) (Organization.createdBy o) s.

(** [this.save()] of a loaded organization whose [stats] were assigned. *)
Fixpoint saveStats (id : ObjectId) (s : Organization.Stats)
    (orgs : list Organization.t) : list Organization.t :=
  match orgs with
  | [] => []
  | o :: rest =>
      if Nat.eqb (Organization._id o) id then with_stats s o :: rest
      else o :: saveStats id s rest
  end.

(** [Organization.findByIdAndDelete]. *)
Fixpoint removeOrganization (id : ObjectId) (orgs : list Organization.t)
    : list Organization.t :=
  match orgs with
  | [] => []
  | o :: rest =>
      if Nat.eqb (Organization._id o) id then rest
      else o :: removeOrganization id rest
  end.

Definition with_organizations (orgs : list Organization.t) (db : Db) : Db :=
  mkDb (users db) (attendance db) orgs.

(** [countDocuments(filter)]. *)
Definition countDocuments {A} (filter : A -> bool) (docs : list A) : Z :=
  Z.of_nat (length (List.filter filter docs)).

Definition memberOf (org : ObjectId) (u : User.t) : bool :=
  match User.organization u with
  | Some o => Nat.eqb o org
  | None => false
  end.

(** [updateStats()]: the three counts, then [this.save()]. *)
Definition counted (this : Organization.t) (db : Db) : Organization.Stats :=
  {| Organization.totalUsers :=
       countDocuments (memberOf (Organization._id this)) (users db);
     Organization.activeUsers :=
       countDocuments
         (fun u => memberOf (Organization._id this) u && User.isActive u)
         (users db);
     Organization.totalAttendanceRecords :=
       countDocuments
         (fun a => Nat.eqb (Attendance.organization a) (Organization._id this))
         (attendance db) |}.

Definition updateStats (this : Organization.t) (db : Db) : Organization.t * Db :=
  let s := counted this db in
  (with_stats s this,
   with_organizations (saveStats (Organization._id this) s (organizations db)) db).

(** [getOrganizationById(req, res)]; [createdBy] is populated in the answer
    only. *)
Definition getOrganizationById (actor : User.t) (id : ObjectId) (db : Db)
    : Response Organization.t * Db :=
  match Organization.findById id (organizations db) with
  | None => (fail 404 "Organization not found", db)
  | Some organization =>
      if negb (User.role_eqb (User.role actor) User.SuperAdmin)
         && negb (match User.organization actor with
                  | Some mine => oid_equals mine (Some (Organization._id organization))
                  | None => false
                  end)
      then (fail 403 "Access denied", db)
      else
        let (organization, db) := updateStats organization db in
        (mkResponse 200 true "" (Some organization), db)
  end.

(** The text of a count in a template literal. *)
Definition countText (n : Z) : string :=
  NilZero.string_of_int (Z.to_int n).

(** [deleteOrganization(req, res)]. *)
Definition deleteOrganization (id : ObjectId) (db : Db) : Response unit * Db :=
  match Organization.findById id (organizations db) with
  | None => (fail 404 "Organization not found", db)
  | Some organization =>
      let userCount := countDocuments (memberOf id) (users db) in
      if userCount >? 0 then
        (fail 400
           ("Cannot delete organization with " ++ countText userCount
            ++ " users. Please transfer or delete users first.")%string,
         db)
      else
        (mkResponse 200 true "Organization deleted successfully" None,
         with_organizations (removeOrganization id (organizations db)) db)
  end.

(** [router.get('/:id', authenticate, authorize(['super-admin', 'admin']),
    getOrganizationById)] and [router.delete('/:id', authenticate,
    authorize(['super-admin']), deleteOrganization)], past [authenticate]. *)
Definition getRoute (actor : User.t) (id : ObjectId) (db : Db)
    : Response Organization.t * Db :=
  match Middleware.authorize (inr [User.SuperAdmin; User.Admin]) (Some actor) with
  | Some refusal =>
      (mkResponse (statusCode refusal) (success refusal) (message refusal) None, db)
  | None => getOrganizationById actor id db
  end.

Definition deleteRoute (actor : User.t) (id : ObjectId) (db : Db)
    : Response unit * Db :=
  match Middleware.authorize (inr [User.SuperAdmin]) (Some actor) with
  | Some refusal => (refusal, db)
  | None => deleteOrganization id db
  end.

(** Every stored user who names an organization names a stored one. *)
Definition housed (db : Db) : Prop :=
  forall u o, In u (users db) -> User.organization u = Some o ->
              Organization.findById o (organizations db) <> None.

End OrganizationAdmin.

(** ** services/emailService.js: the reset mail *)

Module EmailService.

(** [sendEmail(options)] resolves or throws. *)
Inductive Transport := Accepts | Throws.

(** [sendPasswordResetEmail(email, data)]: an error of [sendEmail] is caught
    and reported as [false]. *)
Definition sendPasswordResetEmail (transport : Transport) : bool :=
  match transport with
  | Accepts => true
  | Throws => false
  end.

(** The mail step of [forgotPassword] with this service: [service] is
    [None] when requiring the module throws; when it loads, the handler
    awaits [sendPasswordResetEmail], which returns in both cases, and drops
    what it returns. *)
Definition mailReturned (service : option Transport) : bool :=
  match service with
  | Some transport => let _ := sendPasswordResetEmail transport in true
  | None => false
  end.

End EmailService.

(** ** Further samples *)

Module MoreSamples.

(** A verifier that knows one token, Asha's, and never lets it expire. *)
#[global] Instance oneToken : Jwt :=
  {| jwtVerify := fun _ token =>
       if String.eqb token "asha-token" then JwtPayload 1
       else JsonWebTokenError |}.

(** A super-admin, who belongs to no organization. *)
Definition root : User.t :=
  User.mk 99 "Mira" "Das" "root@hq.io" "R-1" "HQ" "Owner" "7777777777"
    (bcrypt_hash "secret3") [] [] false 0 None false None true true None None
    None None None User.SuperAdmin None None None.

End MoreSamples.

(** ** A user's day: requests in a row *)

Module Day.

Import Attendance AttendanceController.

(** Successive [markAttendance] requests of one user, without a photo:
    each request is the clock reading, the id given to the new document and
    the validated body. *)
Fixpoint markAll `{LocalTime}
    (user : User.t) (requests : list (Date * ObjectId * MarkValue)) (db : Db)
    : list (Response t) * Db :=
  match requests with
  | [] => ([], db)
  | (now, newId, v) :: rest =>
      let '(r, db1) := markAttendance now newId None (JoiValue v) user db in
      let '(rs, db2) := markAll user rest db1 in
      (r :: rs, db2)
  end.

(** The filter of the day's query for the day that starts at [day]. *)
Definition inDay (day : Date) (uid : ObjectId) (a : t) : bool :=
  Nat.eqb (user a) uid
  && (day <=? checkInTime a) && (checkInTime a <? day + msPerDay).

(** The user's events of that day, most recent first. *)
Definition dayLedger (day : Date) (uid : ObjectId) (atts : list t) : list t :=
  sortDesc (List.filter (inDay day uid) atts).

(** A ledger, most recent first, in which check-ins and check-outs take
    turns at strictly increasing times, the oldest event being a
    check-in. *)
Fixpoint alternating (ledger : list t) : Prop :=
  match ledger with
  | [] => True
  | e :: older =>
      match older with
      | [] => type e = CheckIn
      | e' :: _ =>
          checkInTime e' < checkInTime e
          /\ ((type e = CheckIn /\ type e' = CheckOut)
              \/ (type e = CheckOut /\ type e' = CheckIn))
      end
      /\ alternating older
  end.

(** What a request that passes every check is answered: 201, or 500 when
    the [save] of [req.user] finds no stored document with its id. *)
Definition answered (user : User.t) (db : Db) : Z :=
  match User.findById (User._id user) (users db) with
  | Some _ => 201
  | None => 500
  end.

(** A request made at [now], on the day that starts at [day], that is not
    stamped with an offline time. *)
Definition online `{LocalTime} (day : Date) (request : Date * ObjectId * MarkValue)
    : Prop :=
  let '(now, _, v) := request in
  localMidnight now = day
  /\ day <= now < day + msPerDay
  /\ Ledger.requestTime now v = now.

(** A check-in made on the day that starts at [day] and stamped with an
    offline time outside that day. *)
Definition backdated `{LocalTime} (day : Date) (request : Date * ObjectId * MarkValue)
    : Prop :=
  let '(now, _, v) := request in
  localMidnight now = day
  /\ mtype v = MarkCheckIn
  /\ isOffline v = true
  /\ exists ts, offlineTimestamp v = Some ts /\ (ts < day \/ day + msPerDay <= ts).

End Day.
(** * Properties *)

(** ** Working hours and overtime ([markCheckOut]) *)

Module AttendanceFacts.

Import Attendance Ledger.


Lemma calculateWorkingHours_nonneg checkIn out break :
  0 <= calculateWorkingHours checkIn out break.
Proof.
  unfold calculateWorkingHours. destruct out; [apply Z.le_max_l | lia].
Qed.



End AttendanceFacts.

(** ** The day's ledger: sorting and the most recent events *)

Module LedgerFacts.

Import Attendance AttendanceController Ledger.

Lemma att_type_eqb_eq a b : att_type_eqb a b = true <-> a = b.
Proof. destruct a, b; simpl; split; congruence. Qed.

Lemma insertDesc_In a x l : In x (insertDesc a l) <-> x = a \/ In x l.
Proof.
  induction l as [| b l IH]; simpl.
  - intuition.
  - destruct (checkInTime b <=? checkInTime a); simpl.
    + intuition.
    + rewrite IH. intuition.
Qed.

Lemma sortDesc_In x l : In x (sortDesc l) <-> In x l.
Proof.
  induction l as [| a l IH]; simpl.
  - reflexivity.
  - rewrite insertDesc_In, IH. intuition.
Qed.

Lemma insertDesc_descending a l : descending l -> descending (insertDesc a l).
Proof.
  unfold descending. induction 1 as [| b l Hl IH Hb]; simpl.
  - repeat constructor.
  - destruct (checkInTime b <=? checkInTime a) eqn:E.
    + apply Z.leb_le in E. constructor.
      * constructor; assumption.
      * constructor; [assumption |].
        rewrite List.Forall_forall in Hb |- *. intros x Hx.
        specialize (Hb x Hx). simpl in Hb. lia.
    + apply Z.leb_gt in E. constructor; [assumption |].
      rewrite List.Forall_forall in Hb |- *. intros x Hx.
      apply insertDesc_In in Hx. destruct Hx as [-> | Hx].
      * lia.
      * apply Hb, Hx.
Qed.

Lemma sortDesc_descending l : descending (sortDesc l).
Proof.
  induction l as [| a l IH]; simpl.
  - constructor.
  - apply insertDesc_descending, IH.
Qed.

(** [Array.prototype.find] on a descending list returns a most recent
    match. *)
Lemma find_descending (p : t -> bool) l e :
  descending l -> List.find p l = Some e ->
  In e l /\ p e = true
  /\ forall x, In x l -> p x = true -> checkInTime x <= checkInTime e.
Proof.
  unfold descending. induction 1 as [| a l Hl IH Ha]; simpl; [discriminate |].
  destruct (p a) eqn:Pa.
  - intros [= <-]. split; [now left | split; [assumption |]].
    intros x [<- | Hx] _; [lia |].
    rewrite List.Forall_forall in Ha. apply Ha, Hx.
  - intros Hf. destruct (IH Hf) as (Hin & Hp & Hmax).
    split; [now right | split; [assumption |]].
    intros x [<- | Hx] Px; [congruence | now apply Hmax].
Qed.

Lemma find_type_latest ty evs e :
  List.find (fun att => att_type_eqb (type att) ty) (sortDesc evs) = Some e ->
  latest ty e evs.
Proof.
  intros Hf.
  destruct (find_descending _ _ _ (sortDesc_descending evs) Hf) as (Hin & Hp & Hmax).
  apply att_type_eqb_eq in Hp. apply (proj1 (sortDesc_In e evs)) in Hin.
  split; [assumption | split; [assumption |]].
  intros x Hx Hty. apply Hmax.
  - now apply sortDesc_In.
  - now apply att_type_eqb_eq.
Qed.

Lemma find_type_none ty evs :
  List.find (fun att => att_type_eqb (type att) ty) (sortDesc evs) = None ->
  forall x, In x evs -> type x <> ty.
Proof.
  intros Hf x Hx Hty.
  pose proof (find_none _ _ Hf x (proj2 (sortDesc_In x evs) Hx)) as Hn.
  simpl in Hn. apply att_type_eqb_eq in Hty. congruence.
Qed.

Lemma latest_time ty a b evs :
  latest ty a evs -> latest ty b evs -> checkInTime a = checkInTime b.
Proof.
  intros (Ha & Ta & Ma) (Hb & Tb & Mb).
  pose proof (Ma b Hb Tb). pose proof (Mb a Ha Ta). lia.
Qed.

(** The guard of the handler decides the two conditions of the ledger. *)
Lemma rejects_check_in evs :
  rejects MarkCheckIn (sortDesc evs) = true <-> openCheckIn evs.
Proof.
  unfold rejects, openCheckIn.
  destruct (List.find _ (sortDesc evs)) as [ci |] eqn:Hci.
  - apply find_type_latest in Hci.
    destruct (List.find (fun att => att_type_eqb (type att) CheckOut) _)
      as [co |] eqn:Hco.
    + apply find_type_latest in Hco. rewrite Z.ltb_lt. split.
      * intros Hlt. exists ci. split; [assumption | right]. now exists co.
      * intros (ci' & Hci' & [Hnone | (co' & Hco' & Hlt)]).
        -- destruct Hco as (Hin & Hty & _). now destruct (Hnone co Hin).
        -- rewrite (latest_time _ _ _ _ Hci Hci'), (latest_time _ _ _ _ Hco Hco').
           exact Hlt.
    + split; [intros _ | reflexivity].
      exists ci. split; [assumption | left].
      exact (find_type_none _ _ Hco).
  - split; [discriminate |].
    intros (ci & (Hin & Hty & _) & _).
    now destruct (find_type_none _ _ Hci ci Hin).
Qed.


End LedgerFacts.

(** ** The attendance state machine ([markAttendance]) *)

Module MarkAttendanceFacts.

Import Attendance AttendanceController Ledger LedgerFacts.

Section Gates.

Context `{LocalTime}.

Variables (now : Date) (newId : ObjectId) (file : option UploadedFile).
Variables (v : MarkValue) (user : User.t) (db : Db).

(** Past the two account gates the answer is decided by the guard, then by
    the presence of the user's organization, then by the presence of the
    user's document in the store. *)
Lemma markAttendance_gated :
  User.isApproved user = true -> User.isActive user = true ->
  markAttendance now newId file (JoiValue v) user db =
    if rejects (mtype v)
         (sortDesc (todays now (User._id user) (attendance db)))
    then
      (match mtype v with
       | MarkCheckIn => alreadyCheckedIn
       | MarkCheckOut => noOpenCheckIn
       end, db)
    else match User.organization user with
         | Some org =>
             match User.findById (User._id user) (users db) with
             | Some _ => accepted now newId file v user db org
             | None =>
                 (markFailed,
                  with_attendance
                    (attendance db
                     ++ [newAttendance now newId file v (User._id user) org])
                    db)
             end
         | None => (markFailed, db)
         end.
Proof.
  intros Happ Hact.
  unfold markAttendance, existingAttendance, todays, accepted.
  rewrite Happ, Hact. reflexivity.
Qed.

Lemma markAttendance_not_approved :
  User.isApproved user = false ->
  markAttendance now newId file (JoiValue v) user db = (notApproved, db).
Proof. intros Happ. unfold markAttendance. now rewrite Happ. Qed.

Lemma markAttendance_inactive :
  User.isApproved user = true -> User.isActive user = false ->
  markAttendance now newId file (JoiValue v) user db = (accountInactive, db).
Proof.
  intros Happ Hact. unfold markAttendance. now rewrite Happ, Hact.
Qed.

(** Whether the user's document is stored or not, a request that passes
    the guard for a member of [org] stores the new event. *)
Lemma markAttendance_appends org :
  User.isApproved user = true -> User.isActive user = true ->
  rejects (mtype v)
    (sortDesc (todays now (User._id user) (attendance db))) = false ->
  User.organization user = Some org ->
  attendance (snd (markAttendance now newId file (JoiValue v) user db))
  = attendance db ++ [newAttendance now newId file v (User._id user) org].
Proof.
  intros Happ Hact Hfree Horg.
  rewrite (markAttendance_gated Happ Hact), Hfree, Horg.
  destruct (User.findById (User._id user) (users db)); reflexivity.
Qed.

End Gates.

(** The stored document after [saveLastLogin]: the same account with the
    new [lastLogin]. *)
Lemma findById_saveLastLogin id d users account :
  User.findById id users = Some account ->
  User.findById id (User.saveLastLogin id d users)
  = Some (User.with_lastLogin d account).
Proof.
  unfold User.findById.
  induction users as [| u rest IH]; [discriminate |].
  cbn [List.find User.saveLastLogin].
  destruct (Nat.eqb (User._id u) id) eqn:E.
  - intros [= <-]. cbn [List.find].
    change (User._id (User.with_lastLogin d u)) with (User._id u).
    now rewrite E.
  - intros Hf. cbn [List.find]. rewrite E. now apply IH.
Qed.

(** C1 (as amended). For every approved and active user and every valid
    check-in request: when the user's events of the current day hold an
    open check-in the request fails with AlreadyCheckedIn and nothing is
    stored; otherwise, for a user that belongs to an organization, one new
    check-in event is appended, stamped with the current time, or with
    [offlineTimestamp] when the request is flagged offline and carries
    one. When the store holds the user's account the answer is 201 with
    that event, and the account is stored as it was but for [lastLogin]. *)
Theorem check_in_transition `{LocalTime}
    (now : Date) (newId : ObjectId) (file : option UploadedFile)
    (v : MarkValue) (user : User.t) (db : Db) :
  mtype v = MarkCheckIn ->
  User.isApproved user = true ->
  User.isActive user = true ->
  let today := todays now (User._id user) (attendance db) in
  let out := markAttendance now newId file (JoiValue v) user db in
  (openCheckIn today -> out = (alreadyCheckedIn, db))
  /\ (~ openCheckIn today ->
      forall org, User.organization user = Some org ->
      let e := newAttendance now newId file v (User._id user) org in
      attendance (snd out) = attendance db ++ [e]
      /\ type e = CheckIn
      /\ checkInTime e = requestTime now v
      /\ forall account,
           User.findById (User._id user) (users db) = Some account ->
           out = accepted now newId file v user db org
           /\ fst out = created MarkCheckIn e
           /\ User.findById (User._id user) (users (snd out))
              = Some (User.with_lastLogin (Some now) account)).
Proof.
  intros Hty Happ Hact today out.
  pose proof (markAttendance_gated now newId file v user db Happ Hact) as Hout.
  fold out today in Hout. rewrite Hty in Hout.
  pose proof (rejects_check_in today) as Hrej.
  destruct (rejects MarkCheckIn (sortDesc today)) eqn:Hguard.
  - split; [intros _; exact Hout |].
    intros Hno. destruct Hno. now apply Hrej.
  - split.
    + intros Hopen. apply Hrej in Hopen. discriminate Hopen.
    + intros _ org Horg e.
      split; [| split; [| split]].
      * subst out e.
        apply (markAttendance_appends now newId file v user db org Happ Hact);
          [now rewrite Hty | exact Horg].
      * subst e. unfold newAttendance. now rewrite Hty.
      * reflexivity.
      * intros account Hstored. rewrite Horg, Hstored in Hout.
        split; [exact Hout | rewrite Hout].
        unfold accepted. rewrite Hty.
        cbn [fst snd users attendance with_users with_attendance].
        split; [reflexivity | now apply findById_saveLastLogin].
Qed.


(** The check-in theorem run on the first request of the day of a stored
    employee: the answer is 201 and the stored password is kept. *)
Lemma check_in_transition_witness :
  let u := Samples.employee 1 (Some 10%nat) "asha@acme.io" in
  let out :=
    markAttendance (9 * Samples.hour) 100 None
      (JoiValue Samples.checkInRequest) u (Samples.homeDb u) in
  fst out
  = created MarkCheckIn
      (newAttendance (9 * Samples.hour) 100 None Samples.checkInRequest 1 10)
  /\ option_map User.password (User.findById 1 (users (snd out)))
     = Some (User.password u).
Proof.
  intros u out.
  destruct (check_in_transition (9 * Samples.hour) 100 None
              Samples.checkInRequest u (Samples.homeDb u)
              eq_refl eq_refl eq_refl) as [_ Hfree].
  assert (Hday : ~ openCheckIn
                   (todays (9 * Samples.hour) (User._id u)
                      (attendance (Samples.homeDb u)))).
  { intros (ci & (Hin & _) & _). exact Hin. }
  destruct (Hfree Hday 10%nat eq_refl) as (_ & _ & _ & Hstored).
  destruct (Hstored u eq_refl) as (_ & Hresp & Hacc).
  split; [exact Hresp |].
  subst out. change (User._id u) with 1%nat in Hacc. now rewrite Hacc.
Defined.

(** A super-admin, approved, active and stored, belongs to no organization:
    on an empty day no check-in is open, the request is answered 500 and
    no event is created. *)
Lemma check_in_rule_counterexample :
  let u := Samples.superAdmin 9 "mira@hq.io" in
  User.isApproved u = true /\ User.isActive u = true
  /\ markAttendance (9 * Samples.hour) 100 None
       (JoiValue Samples.checkInRequest) u (Samples.homeDb u)
     = (markFailed, Samples.homeDb u)
  /\ ~ check_in_rule (9 * Samples.hour) 100 None
         Samples.checkInRequest u (Samples.homeDb u).
Proof.
  intros u. split; [reflexivity | split; [reflexivity | split; [reflexivity |]]].
  intros Hrule. destruct (Hrule eq_refl eq_refl eq_refl) as [_ Hfree].
  destruct Hfree as (e & _ & Hatt & _).
  - intros (ci & (Hin & _) & _). exact Hin.
  - discriminate Hatt.
Qed.



(** C4. A check-out request that [markAttendance] answers with success
    appends one new event of type check-out whose [checkOutTime] is its own
    [checkInTime], the instant of the request; the events stored before,
    the open check-in among them, are left as they were, and the new
    event's [workingHours], [breakTime] and [overtime] are the default 0. *)
Theorem check_out_event `{LocalTime}
    (now : Date) (newId : ObjectId) (file : option UploadedFile)
    (v : MarkValue) (user : User.t) (db db' : Db) (resp : Response t) :
  mtype v = MarkCheckOut ->
  markAttendance now newId file (JoiValue v) user db = (resp, db') ->
  success resp = true ->
  exists e,
    data resp = Some e
    /\ attendance db' = attendance db ++ [e]
    /\ (forall i x, attendance db !! i = Some x -> attendance db' !! i = Some x)
    /\ type e = CheckOut
    /\ checkInTime e = requestTime now v
    /\ checkOutTime e = Some (checkInTime e)
    /\ workingHours e = 0 /\ breakTime e = 0 /\ overtime e = 0.
Proof.
  intros Hty Hrun Hok. unfold markAttendance in Hrun.
  destruct (User.isApproved user); [| inversion Hrun; subst; discriminate Hok].
  destruct (User.isActive user); [| inversion Hrun; subst; discriminate Hok].
  cbn [negb] in Hrun.
  destruct (rejects _ _).
  { rewrite Hty in Hrun. inversion Hrun; subst; discriminate Hok. }
  destruct (User.organization user) as [org |];
    [| inversion Hrun; subst; discriminate Hok].
  cbn [users with_attendance] in Hrun.
  destruct (User.findById (User._id user) (users db));
    [| inversion Hrun; subst; discriminate Hok].
  inversion Hrun; subst resp db'; clear Hrun.
  exists (newAttendance now newId file v (User._id user) org).
  cbn [data created attendance with_users with_attendance].
  split; [reflexivity | split; [reflexivity |]].
  split.
  { intros i x Hix. now apply lookup_app_l_Some. }
  unfold newAttendance. rewrite Hty. cbn.
  repeat split.
Qed.

(** The theorem run on the 18:00 check-out that follows a 09:00 check-in. *)
Lemma check_out_event_witness :
  let u := Samples.employee 1 (Some 10%nat) "asha@acme.io" in
  exists e,
    attendance
      (snd (markAttendance (18 * Samples.hour) 101 None
              (JoiValue Samples.checkOutRequest) u (Samples.morningDb u)))
    = attendance (Samples.morningDb u) ++ [e]
    /\ checkOutTime e = Some (18 * Samples.hour)
    /\ workingHours e = 0.
Proof.
  intros u.
  assert (Hok : success
            (fst (markAttendance (18 * Samples.hour) 101 None
                    (JoiValue Samples.checkOutRequest) u (Samples.morningDb u)))
          = true) by (vm_compute; reflexivity).
  destruct (check_out_event (18 * Samples.hour) 101 None
              Samples.checkOutRequest u (Samples.morningDb u) _ _
              eq_refl (surjective_pairing _) Hok)
    as (e & _ & Hatt & _ & _ & Htime & Hout & Hwork & _).
  exists e. split; [exact Hatt | split; [| exact Hwork]].
  rewrite Hout, Htime. reflexivity.
Defined.

End MarkAttendanceFacts.

(** ** Login lockout ([findByCredentials], [incLoginAttempts]) *)

Module LockoutFacts.

Import User Lockout.

Lemma with_login_id la lu u : _id (with_login la lu u) = _id u.
Proof. reflexivity. Qed.

Lemma with_lastLogin_id d u : _id (with_lastLogin d u) = _id u.
Proof. reflexivity. Qed.

Lemma incLoginAttempts_id now u : _id (incLoginAttempts now u) = _id u.
Proof.
  unfold incLoginAttempts.
  destruct (match lockUntil u with Some l => l <? now | None => false end);
    [reflexivity |].
  destruct (_ && _); reflexivity.
Qed.

Lemma incLoginAttempts_email now u : email (incLoginAttempts now u) = email u.
Proof.
  unfold incLoginAttempts.
  destruct (match lockUntil u with Some l => l <? now | None => false end);
    [reflexivity |].
  destruct (_ && _); reflexivity.
Qed.

Lemma incLoginAttempts_password now u :
  password (incLoginAttempts now u) = password u.
Proof.
  unfold incLoginAttempts.
  destruct (match lockUntil u with Some l => l <? now | None => false end);
    [reflexivity |].
  destruct (_ && _); reflexivity.
Qed.

(** A failure on an account that carries no lock. *)
Lemma incLoginAttempts_unlocked now u :
  lockUntil u = None ->
  loginAttempts (incLoginAttempts now u) = Some (getLoginAttempts u + 1)%nat
  /\ lockUntil (incLoginAttempts now u)
     = if (5 <=? getLoginAttempts u + 1)%nat then Some (now + lockDuration)
       else None.
Proof.
  intros Hl. unfold incLoginAttempts, isLocked. rewrite Hl.
  cbn [negb]. rewrite andb_true_r.
  destruct (5 <=? getLoginAttempts u + 1)%nat; cbn; rewrite ?Hl; split; reflexivity.
Qed.

(** A failure after a lock that has run out. *)
Lemma incLoginAttempts_expired now u l :
  lockUntil u = Some l -> l < now ->
  loginAttempts (incLoginAttempts now u) = Some 1%nat
  /\ lockUntil (incLoginAttempts now u) = None.
Proof.
  intros Hl Hlt. unfold incLoginAttempts. rewrite Hl.
  apply Z.ltb_lt in Hlt. rewrite Hlt. split; reflexivity.
Qed.

(** Storing a new version of the document found by a query, in a
    collection with unique ids. *)
Lemma find_store (p : t -> bool) users u u' :
  List.NoDup (map _id users) -> List.find p users = Some u -> _id u' = _id u ->
  exists before after,
    users = before ++ u :: after
    /\ store u' users = before ++ u' :: after
    /\ forall x, In x before -> p x = false.
Proof.
  intros Hnd Hf Hid. induction users as [| h rest IH]; [discriminate |].
  simpl in Hf, Hnd. apply NoDup_cons_iff in Hnd as [Hh Hnd].
  destruct (p h) eqn:Ph.
  - injection Hf as <-. exists [], rest. simpl.
    rewrite Hid, Nat.eqb_refl. repeat split. intros x [].
  - destruct (IH Hnd Hf) as (before & after & -> & Hst & Hb).
    exists (h :: before), after. simpl. rewrite Hst.
    destruct (Nat.eqb_spec (_id h) (_id u')) as [E |].
    + exfalso. apply Hh. rewrite E, Hid, map_app. apply in_or_app.
      right. now left.
    + repeat split. intros x [<- | Hx]; [assumption | now apply Hb].
Qed.

Lemma store_ids u' users : map _id (store u' users) = map _id users.
Proof.
  induction users as [| h rest IH]; [reflexivity |]. simpl.
  destruct (Nat.eqb_spec (_id h) (_id u')) as [E |]; simpl; congruence.
Qed.

Lemma findByEmail_store `{Setters} e users u u' :
  List.NoDup (map _id users) -> findByEmail e users = Some u ->
  _id u' = _id u -> email u' = email u ->
  findByEmail e (store u' users) = Some u'.
Proof.
  intros Hnd Hf Hid Hmail. unfold findByEmail in *.
  destruct (find_some _ _ Hf) as [_ Hp]. cbn beta in Hp.
  destruct (find_store _ _ _ u' Hnd Hf Hid) as (before & after & _ & -> & Hb).
  induction before as [| b before IH]; simpl.
  - now rewrite Hmail, Hp.
  - rewrite (Hb b (or_introl eq_refl)). apply IH.
    intros x Hx. apply Hb. now right.
Qed.

Section Policy.

Context `{Crypto} `{Setters}.

Variables (mail : string) (users : list t) (u : t).
Hypothesis unique_ids : List.NoDup (map _id users).
Hypothesis found : findByEmail mail users = Some u.

(** While the lock is in force every call fails with AccountLocked,
    whatever the password, and writes nothing. *)
Lemma locked_refuses now pw :
  isLocked now u = true ->
  findByCredentials now mail pw users = (inl AccountLocked, users).
Proof. intros Hl. unfold findByCredentials. now rewrite found, Hl. Qed.

(** A wrong password on an unlocked account. *)
Lemma wrong_password now pw :
  isLocked now u = false -> bcrypt_compare pw (password u) = false ->
  findByCredentials now mail pw users
  = (inl InvalidCredentials, store (incLoginAttempts now u) users)
  /\ findByEmail mail (store (incLoginAttempts now u) users)
     = Some (incLoginAttempts now u)
  /\ List.NoDup (map _id (store (incLoginAttempts now u) users)).
Proof.
  intros Hl Hpw. unfold findByCredentials. rewrite found, Hl, Hpw. cbn [negb].
  split; [reflexivity | split].
  - apply (findByEmail_store mail users u);
      auto using incLoginAttempts_id, incLoginAttempts_email.
  - now rewrite store_ids.
Qed.

(** The right password on an unlocked account. *)
Lemma right_password now pw :
  isLocked now u = false -> bcrypt_compare pw (password u) = true ->
  exists stored,
    findByCredentials now mail pw users
    = (inr (with_lastLogin (Some now) u), store stored users)
    /\ findByEmail mail (store stored users) = Some stored
    /\ getLoginAttempts stored = 0%nat
    /\ lastLogin stored = Some now.
Proof.
  intros Hl Hpw. unfold findByCredentials. rewrite found, Hl, Hpw. cbn [negb].
  eexists. split; [reflexivity | split; [| split]].
  - apply (findByEmail_store mail users u); auto;
      destruct (0 <? getLoginAttempts u)%nat; reflexivity.
  - destruct (0 <? getLoginAttempts u)%nat eqn:E; [reflexivity |].
    apply Nat.ltb_ge in E. cbn. unfold getLoginAttempts in *.
    destruct (loginAttempts u); cbn in *; lia.
  - destruct (0 <? getLoginAttempts u)%nat; reflexivity.
Qed.

End Policy.

Section Sequences.

Context `{Crypto} `{Setters}.

Variable mail : string.

Lemma authenticateAll_app tries1 tries2 users :
  authenticateAll mail (tries1 ++ tries2) users
  = let '(rs1, users1) := authenticateAll mail tries1 users in
    let '(rs2, users2) := authenticateAll mail tries2 users1 in
    (rs1 ++ rs2, users2).
Proof.
  revert users. induction tries1 as [| [now pw] tries1 IH]; intros users; simpl.
  - now destruct (authenticateAll mail tries2 users).
  - destruct (findByCredentials now mail pw users) as [r users1].
    rewrite IH. destruct (authenticateAll mail tries1 users1) as [rs1 users2].
    now destruct (authenticateAll mail tries2 users2).
Qed.

(** Fewer than five failures in a row on an account without a lock: each is
    answered InvalidCredentials and counted, no lock is set. *)
Lemma failures_below_limit tries : forall users u,
  List.NoDup (map _id users) -> findByEmail mail users = Some u ->
  lockUntil u = None -> Forall (wrong u) tries ->
  (getLoginAttempts u + length tries < 5)%nat ->
  exists users' u',
    authenticateAll mail tries users
    = (map (fun _ => inl InvalidCredentials) tries, users')
    /\ List.NoDup (map _id users') /\ findByEmail mail users' = Some u'
    /\ getLoginAttempts u' = (getLoginAttempts u + length tries)%nat
    /\ lockUntil u' = None /\ password u' = password u.
Proof.
  induction tries as [| [now pw] tries IH]; intros users u Hnd Hf Hl Hw Hlen.
  - exists users, u. cbn. rewrite Nat.add_0_r. auto 10.
  - apply Forall_cons in Hw as [Hw Hws]. cbn [length] in Hlen.
    destruct (wrong_password mail users u Hnd Hf now pw) as (Hrun & Hf' & Hnd').
    { unfold isLocked. now rewrite Hl. }
    { exact Hw. }
    destruct (incLoginAttempts_unlocked now u Hl) as [Hcount Hlock].
    destruct (5 <=? getLoginAttempts u + 1)%nat eqn:E;
      [apply Nat.leb_le in E; lia |].
    destruct (IH _ _ Hnd' Hf' Hlock) as (users' & u' & Hrest & Hnd2 & Hf2 & Hc2 & Hl2 & Hp2).
    { unfold wrong in *. now rewrite incLoginAttempts_password. }
    { unfold getLoginAttempts at 1. rewrite Hcount. cbn. lia. }
    exists users', u'. cbn [authenticateAll map]. rewrite Hrun, Hrest.
    repeat (split; [assumption || reflexivity |]).
    split; [| split; [assumption |]].
    + rewrite Hc2. unfold getLoginAttempts at 1. rewrite Hcount. cbn. lia.
    + now rewrite Hp2, incLoginAttempts_password.
Qed.

End Sequences.

(** C5 (as amended). On an account found by its e-mail address: (1) five
    consecutive failed password checks, starting from a clean counter, are
    each answered InvalidCredentials, and the fifth locks the account for 2
    hours from its own instant; from then on, while the lock timestamp is in
    the future, a call fails with AccountLocked whatever the password and
    writes nothing; (2) the same holds for every account whose lock is in the
    future; (3) a successful login leaves the stored counter reading 0; (4) a
    failure after a lock that ran out stores the counter 1 and no lock. *)
Theorem lockout_policy `{Crypto} `{Setters} (mail : string) (users : list t) (u : t) :
  List.NoDup (map _id users) ->
  findByEmail mail users = Some u ->
  (getLoginAttempts u = 0%nat -> lockUntil u = None ->
   forall tries t5 p5,
     length tries = 4%nat -> Forall (wrong u) (tries ++ [(t5, p5)]) ->
     exists users5 u5,
       authenticateAll mail (tries ++ [(t5, p5)]) users
       = (repeat (inl InvalidCredentials) 5, users5)
       /\ findByEmail mail users5 = Some u5
       /\ loginAttempts u5 = Some 5%nat
       /\ lockUntil u5 = Some (t5 + 2 * 60 * 60 * 1000)
       /\ forall t6 p6,
            t6 < t5 + 2 * 60 * 60 * 1000 ->
            findByCredentials t6 mail p6 users5 = (inl AccountLocked, users5))
  /\ (forall now pw,
        isLocked now u = true ->
        findByCredentials now mail pw users = (inl AccountLocked, users))
  /\ (forall now pw,
        isLocked now u = false -> bcrypt_compare pw (password u) = true ->
        exists stored,
          findByCredentials now mail pw users
          = (inr (with_lastLogin (Some now) u), store stored users)
          /\ findByEmail mail (store stored users) = Some stored
          /\ getLoginAttempts stored = 0%nat)
  /\ (forall now pw l,
        lockUntil u = Some l -> l < now ->
        bcrypt_compare pw (password u) = false ->
        exists stored,
          findByCredentials now mail pw users
          = (inl InvalidCredentials, store stored users)
          /\ findByEmail mail (store stored users) = Some stored
          /\ loginAttempts stored = Some 1%nat
          /\ lockUntil stored = None).
Proof.
  intros Hnd Hf. split; [| split; [| split]].
  - intros Hzero Hnone tries t5 p5 Hlen Hw.
    apply Forall_app in Hw as [Hw Hw5].
    apply Forall_cons in Hw5 as [Hw5 _].
    destruct (failures_below_limit mail tries users u Hnd Hf Hnone Hw)
      as (users4 & u4 & Hrun & Hnd4 & Hf4 & Hc4 & Hl4 & Hp4); [lia |].
    destruct (wrong_password mail users4 u4 Hnd4 Hf4 t5 p5) as (Hrun5 & Hf5 & _).
    { unfold isLocked. now rewrite Hl4. }
    { unfold wrong in Hw5. now rewrite Hp4. }
    destruct (incLoginAttempts_unlocked t5 u4 Hl4) as [Hc5 Hl5].
    rewrite Hc4, Hzero, Hlen in Hc5, Hl5. cbn in Hc5, Hl5.
    exists (store (incLoginAttempts t5 u4) users4), (incLoginAttempts t5 u4).
    rewrite authenticateAll_app, Hrun. cbn [authenticateAll]. rewrite Hrun5.
    split.
    { f_equal. destruct tries as [| ? [| ? [| ? [| ? [| ? ?]]]]];
        try discriminate Hlen. reflexivity. }
    split; [exact Hf5 | split; [exact Hc5 | split; [exact Hl5 |]]].
    intros t6 p6 Hlt. apply (locked_refuses mail _ _ Hf5).
    unfold isLocked. rewrite Hl5. unfold lockDuration. apply Z.gtb_lt. lia.
  - intros now pw. now apply locked_refuses.
  - intros now pw Hl Hpw.
    destruct (right_password mail users u Hnd Hf now pw Hl Hpw)
      as (stored & Hrun & Hf' & Hzero & _).
    now exists stored.
  - intros now pw l Hl Hlt Hpw.
    destruct (wrong_password mail users u Hnd Hf now pw) as (Hrun & Hf' & _).
    { unfold isLocked. rewrite Hl, Z.gtb_ltb. apply Z.ltb_ge. lia. }
    { exact Hpw. }
    destruct (incLoginAttempts_expired now u l Hl Hlt) as [Hc Hno].
    now exists (incLoginAttempts now u).
Qed.

(** The theorem run on one account: five wrong guesses, then the right
    password one second after the fifth. *)
Lemma lockout_policy_witness :
  exists users5,
    authenticateAll "asha@acme.io" Samples.fiveWrong [Samples.asha]
    = (repeat (inl InvalidCredentials) 5, users5)
    /\ findByCredentials 6000 "asha@acme.io" "secret1" users5
       = (inl AccountLocked, users5).
Proof.
  assert (Hnd : List.NoDup (map _id [Samples.asha])).
  { constructor; [intros [] | constructor]. }
  assert (Hfound : findByEmail "asha@acme.io" [Samples.asha] = Some Samples.asha)
    by (vm_compute; reflexivity).
  destruct (lockout_policy "asha@acme.io" [Samples.asha] Samples.asha
              Hnd Hfound) as [Hfive _].
  assert (Hwrong : Forall (wrong Samples.asha) Samples.fiveWrong).
  { repeat (constructor; [reflexivity |]). constructor. }
  destruct (Hfive eq_refl eq_refl
              [(1000, "guess1"); (2000, "guess2"); (3000, "guess3");
               (4000, "guess4")] 5000 "guess5" eq_refl Hwrong)
    as (users5 & u5 & Hrun & _ & _ & _ & Hsixth).
  exists users5. split; [exact Hrun |].
  apply Hsixth. reflexivity.
Defined.

(** The fifth wrong guess is itself answered InvalidCredentials; only the
    calls that follow it meet the lock. *)
Lemma fifth_attempt_counterexample :
  nth_error
    (fst (authenticateAll "asha@acme.io" Samples.fiveWrong [Samples.asha])) 4
  = Some (inl InvalidCredentials)
  /\ ~ fifth_and_sixth_locked "asha@acme.io" Samples.fiveWrong
         (6000, "secret1") [Samples.asha].
Proof.
  split; [vm_compute; reflexivity |].
  unfold fifth_and_sixth_locked.
  destruct (authenticateAll _ _ _) as [rs users5] eqn:Hrun.
  intros [Hfifth _].
  apply (f_equal fst) in Hrun. vm_compute in Hrun. subst rs.
  discriminate Hfifth.
Qed.

End LockoutFacts.

(** ** Tenant isolation of the admin operations *)

Module TenantFacts.

Import AttendanceController UserController OrganizationController.

Lemma oid_equals_other (a b : ObjectId) : a <> b -> oid_equals a (Some b) = false.
Proof. intros Hne. simpl. now apply Nat.eqb_neq. Qed.

Lemma foreignAdmin_other actor (a b : ObjectId) :
  User.role actor = User.Admin -> User.organization actor = Some a -> a <> b ->
  foreignAdmin actor (Some b) = Some true.
Proof.
  intros Hrole Horg Hne. unfold foreignAdmin.
  now rewrite Hrole, Horg, oid_equals_other.
Qed.

Lemma accessDenied_other actor (a b : ObjectId) :
  User.role actor = User.Admin -> User.organization actor = Some a -> a <> b ->
  accessDenied actor b = true.
Proof.
  intros Hrole Horg Hne. unfold accessDenied.
  now rewrite Hrole, Horg, oid_equals_other.
Qed.

Lemma organization_findById id orgs o :
  Organization.findById id orgs = Some o -> Organization._id o = id.
Proof.
  intros Hf. apply find_some in Hf as [_ Hid]. now apply Nat.eqb_eq in Hid.
Qed.

(** C6. An actor with role admin who belongs to organization [a] and
    names a target of another organization [b] (a user for
    [performAdminAction], the organization itself for the listing of its
    users, an attendance event for update and delete) is answered 403, and
    the store is returned as it was. *)
Theorem cross_tenant_denied (actor : User.t) (a b : ObjectId) :
  User.role actor = User.Admin ->
  User.organization actor = Some a ->
  a <> b ->
  (forall now id v db target,
      User.findById id (users db) = Some target ->
      User.organization target = Some b ->
      performAdminAction now actor id (JoiValue v) db
      = (fail 403 "You can only manage users in your organization", db))
  /\ (forall q db target,
         Organization.findById b (organizations db) = Some target ->
         getOrganizationUsers actor b q db = fail 403 "Access denied")
  /\ (forall now id body db target,
         findById id (attendance db) = Some target ->
         Attendance.organization target = b ->
         updateAttendance now actor id body db
         = (fail 403 "You can only modify attendance records in your organization",
            db))
  /\ (forall id db target,
         findById id (attendance db) = Some target ->
         Attendance.organization target = b ->
         deleteAttendance actor id db
         = (fail 403 "You can only delete attendance records in your organization",
            db)).
Proof.
  intros Hrole Horg Hne. repeat apply conj.
  - intros now id v db target Hf Hb. unfold performAdminAction.
    now rewrite Hf, Hb, (foreignAdmin_other actor a b).
  - intros q db target Hf. unfold getOrganizationUsers. rewrite Hf.
    now rewrite (organization_findById _ _ _ Hf), (accessDenied_other actor a b).
  - intros now id body db target Hf Hb. unfold updateAttendance.
    now rewrite Hf, Hb, (foreignAdmin_other actor a b).
  - intros id db target Hf Hb. unfold deleteAttendance.
    now rewrite Hf, Hb, (foreignAdmin_other actor a b).
Qed.

(** The theorem run on the admin of organization 10 who tries to approve
    an employee of organization 20. *)
Lemma cross_tenant_denied_witness :
  let boss := Samples.admin 2 (Some 10%nat) "ravi@acme.io" in
  let outsider := Samples.pending 3 (Some 20%nat) "lena@other.io" in
  let db := mkDb [boss; outsider] [] [] in
  performAdminAction 0 boss 3 (JoiValue {| action := Approve; reason := None |}) db
  = (fail 403 "You can only manage users in your organization", db).
Proof.
  intros boss outsider db.
  assert (Hne : 10%nat <> 20%nat) by discriminate.
  exact (proj1 (cross_tenant_denied boss 10 20 eq_refl eq_refl Hne)
           0 3%nat {| action := Approve; reason := None |} db outsider
           eq_refl eq_refl).
Defined.

End TenantFacts.

(** ** Admin edits of attendance events ([updateAttendance]) *)

Module UpdateFacts.

Import Attendance AttendanceController.

(** None of the four properties the handler assigns is a path of the
    schema. *)
Lemma assigned_props_outside_schema :
  Forall (fun name => ~ In name schemaPaths)
         ["note"; "isApproved"; "modifiedBy"; "modifiedAt"].
Proof.
  repeat constructor; intros Hin; simpl in Hin;
    repeat (destruct Hin as [Hin | Hin]; [discriminate Hin |]); exact Hin.
Qed.

Lemma assignProp_paths name v doc : paths (assignProp name v doc) = paths doc.
Proof. reflexivity. Qed.

Lemma findById_id id atts a : findById id atts = Some a -> _id a = id.
Proof.
  intros Hf. apply find_some in Hf as [_ Hid]. now apply Nat.eqb_eq in Hid.
Qed.

(** Saving a document whose paths were not touched rewrites it with
    itself. *)
Lemma store_found id atts a : findById id atts = Some a -> store a atts = atts.
Proof.
  induction atts as [| h rest IH]; [discriminate |]. cbn [findById List.find store].
  destruct (Nat.eqb_spec (_id h) id) as [E | E].
  - intros [= <-]. now rewrite Nat.eqb_refl.
  - intros Hf. pose proof (findById_id id rest a Hf) as Hid.
    destruct (Nat.eqb_spec (_id h) (_id a)) as [E' |]; [congruence |].
    f_equal. now apply IH.
Qed.

Lemma with_attendance_same db : with_attendance (attendance db) db = db.
Proof. now destruct db. Qed.

(** C7 (what the code does). [updateAttendance] never changes the stored
    collection: the answer to a permitted edit carries the event exactly as it
    was found, and the values assigned to [note], [isApproved], [modifiedBy]
    and [modifiedAt] stay on the in-memory object, none of them being a path
    of the schema. The stored [notes] and [status] are not changed and no
    [modifiedBy]/[modifiedAt] stamp reaches the store. *)
Theorem updateAttendance_stores_nothing
    (now : Date) (actor : User.t) (id : ObjectId) (body : UpdateBody) (db : Db) :
  snd (updateAttendance now actor id body db) = db
  /\ (success (fst (updateAttendance now actor id body db)) = true ->
      data (fst (updateAttendance now actor id body db))
      = findById id (attendance db)).
Proof.
  unfold updateAttendance.
  destruct (findById id (attendance db)) as [found |] eqn:Hf;
    [| split; [reflexivity | discriminate]].
  destruct (foreignAdmin actor (Some (organization found))) as [[] |];
    try (split; [reflexivity | discriminate]).
  cbn [fst snd data success]. unfold save.
  destruct (isUndefined (bnote body)), (isUndefined (bisApproved body));
    rewrite ?assignProp_paths; cbn [hydrate paths];
    rewrite (store_found id _ _ Hf), with_attendance_same; split; reflexivity.
Qed.

(** The admin of the event's own organization sends a note and an approval:
    the answer is 200 and the stored event is what it was. *)
Lemma updateAttendance_witness :
  let boss := Samples.admin 2 (Some 10%nat) "ravi@acme.io" in
  let db := Samples.morningDb Samples.asha in
  let body := {| bnote := JsStr "late bus"; bisApproved := JsBool true |} in
  statusCode (fst (updateAttendance (10 * Samples.hour) boss 100 body db)) = 200
  /\ attendance (snd (updateAttendance (10 * Samples.hour) boss 100 body db))
     = [Samples.event 100 1 10 CheckIn (9 * Samples.hour) 0].
Proof.
  intros boss db body. split; [reflexivity |].
  rewrite (proj1 (updateAttendance_stores_nothing
                    (10 * Samples.hour) boss 100 body db)).
  reflexivity.
Defined.

End UpdateFacts.

(** ** Face enrolment ([addFaceDescriptor], [enrollFace]) *)

Module EnrollmentFacts.

Import User.

(** C10 (what the code does). [addFaceDescriptor] raises [faceEnrolled]
    only when the user then holds at least three descriptors; the first
    descriptor added to a user who is not enrolled leaves the flag false.
    The handler [enrollFace] raises the flag with the first descriptor. *)
Theorem addFaceDescriptor_threshold :
  (forall d u,
      faceEnrolled (addFaceDescriptor d u)
      = (3 <=? length (faceDescriptors u) + 1)%nat || faceEnrolled u)
  /\ (faceDescriptors (addFaceDescriptor [] Samples.asha) = [[]]
      /\ faceEnrolled (addFaceDescriptor [] Samples.asha) = false)
  /\ (forall now f d u db,
         exists u',
           data (fst (AuthController.enrollFace now (Some f) (Some d) u db))
           = Some u'
           /\ faceDescriptors u' = faceDescriptors u ++ [d]
           /\ faceEnrolled u' = true).
Proof.
  split; [| split].
  - intros d u. unfold addFaceDescriptor. cbn [faceEnrolled with_face].
    rewrite length_app. cbn [length].
    now destruct (3 <=? length (faceDescriptors u) + 1)%nat.
  - split; reflexivity.
  - intros now f d u db. eexists. cbn [AuthController.enrollFace fst data].
    split; [reflexivity | split; [reflexivity |]].
    cbn [faceEnrolled with_face]. rewrite length_app. cbn [length].
    destruct (1 <=? length (faceDescriptors u) + 1)%nat eqn:E; [reflexivity |].
    apply Nat.leb_gt in E. lia.
Qed.

End EnrollmentFacts.

(** ** Invite codes ([generateInviteCode], [getOrganizationByInviteCode]) *)

Module InviteFacts.

Import Organization OrganizationController Tenancy.








End InviteFacts.

(** ** Password reset tokens ([createPasswordResetToken], [resetPassword]) *)

Module ResetFacts.

Import User AuthController Tenancy.

Lemma store_In u' users x :
  List.NoDup (map _id users) -> In x (store u' users) ->
  x = u' \/ (In x users /\ _id x <> _id u').
Proof.
  induction users as [| h rest IH]; [intros _ [] |].
  cbn [map store]. intros Hnd. apply NoDup_cons_iff in Hnd as [Hh Hnd].
  destruct (Nat.eqb_spec (_id h) (_id u')) as [E | E].
  - intros [<- | Hx]; [now left | right]. split; [now right |].
    intros Hid. apply Hh. rewrite E, <- Hid. now apply in_map.
  - intros [<- | Hx]; [right; split; [now left | assumption] |].
    destruct (IH Hnd Hx) as [-> | [Hin Hne]]; [now left | right].
    split; [now right | assumption].
Qed.

Section Tokens.

Context `{Crypto} `{Setters}.

Lemma holdsToken_fresh now token x :
  resetPasswordToken x <> Some (sha256 token) ->
  holdsToken now (sha256 token) x = false.
Proof.
  intros Hne. unfold holdsToken.
  destruct (resetPasswordToken x) as [h |]; [| reflexivity].
  destruct (resetPasswordExpires x); [| reflexivity].
  destruct (String.eqb_spec h (sha256 token)) as [-> |]; [now destruct Hne | reflexivity].
Qed.

(** With no holder of the token in the store, every submission fails and
    writes nothing. *)
Lemma resetPassword_no_holder now token pw cpw db :
  (forall x, In x (users db) -> holdsToken now (sha256 token) x = false) ->
  snd (resetPassword now token pw cpw db) = db
  /\ statusCode (fst (resetPassword now token pw cpw db)) = 400
  /\ success (fst (resetPassword now token pw cpw db)) = false.
Proof.
  intros Hnone. unfold resetPassword.
  destruct (falsy pw || falsy cpw); [repeat split |].
  destruct (negb _); [repeat split |].
  destruct (_ <? 6)%nat; [repeat split |].
  destruct (List.find _ (users db)) as [user |] eqn:Hf; [| repeat split].
  apply find_some in Hf as [Hin Hp]. now rewrite (Hnone user Hin) in Hp.
Qed.

(** What a [forgotPassword] that is answered with success leaves in the
    store. *)
Lemma forgotPassword_issued now0 token mailReturned mail db resp db1 :
  forgotPassword now0 token mailReturned mail db = (resp, db1) ->
  success resp = true ->
  exists u,
    users db1 = store (snd (createPasswordResetToken now0 token u)) (users db).
Proof.
  unfold forgotPassword. destruct mail as [e |]; [| intros [= <- _]; discriminate].
  destruct (String.eqb e ""); [intros [= <- _]; discriminate |].
  destruct (findByEmail e (users db)) as [u |]; [| intros [= <- _]; discriminate].
  destruct mailReturned; [| intros [= <- _]; discriminate].
  intros [= _ <-] _. now exists u.
Qed.

End Tokens.

(** C8. A reset token issued by [forgotPassword] at [now0], fresh in a
    store with unique ids: (1) from [now0] plus 10 minutes on, every
    submission of the token fails and writes nothing, whatever the
    passwords; (2) after one successful [resetPassword] with the token no
    stored user holds its hash any more, and every further submission of
    the same token fails and writes nothing. *)
Theorem reset_token_single_use `{Crypto} `{Setters}
    (db db1 : Db) (now0 : Date) (token : string) (mailReturned : bool)
    (mail : option string) (resp1 : Response unit) :
  List.NoDup (map _id (users db)) ->
  freshToken token (users db) ->
  forgotPassword now0 token mailReturned mail db = (resp1, db1) ->
  success resp1 = true ->
  (forall now pw cpw,
      now0 + 10 * 60 * 1000 <= now ->
      snd (resetPassword now token pw cpw db1) = db1
      /\ statusCode (fst (resetPassword now token pw cpw db1)) = 400
      /\ success (fst (resetPassword now token pw cpw db1)) = false)
  /\ (forall now pw cpw,
         success (fst (resetPassword now token pw cpw db1)) = true ->
         let db2 := snd (resetPassword now token pw cpw db1) in
         freshToken token (users db2)
         /\ forall now' pw' cpw',
              snd (resetPassword now' token pw' cpw' db2) = db2
              /\ statusCode (fst (resetPassword now' token pw' cpw' db2)) = 400
              /\ success (fst (resetPassword now' token pw' cpw' db2)) = false).
Proof.
  intros Hnd Hfresh Hissue Hok.
  destruct (forgotPassword_issued _ _ _ _ _ _ _ Hissue Hok) as (u & Hdb1).
  set (u1 := snd (createPasswordResetToken now0 token u)) in Hdb1.
  assert (Hholder : forall x, In x (users db1) ->
            x = u1 \/ (resetPasswordToken x <> Some (sha256 token)
                       /\ _id x <> _id u1)).
  { intros x Hx. rewrite Hdb1 in Hx.
    destruct (store_In _ _ _ Hnd Hx) as [-> | [Hin Hne]]; [now left | right].
    split; [now apply Hfresh | assumption]. }
  assert (Hnd1 : List.NoDup (map _id (users db1))).
  { rewrite Hdb1, LockoutFacts.store_ids. exact Hnd. }
  split.
  - intros now pw cpw Hlate. apply resetPassword_no_holder.
    intros x Hx. destruct (Hholder x Hx) as [-> | [Hne _]].
    + unfold holdsToken. cbn. rewrite String.eqb_refl. cbn.
      unfold resetTokenLifetime. rewrite Z.gtb_ltb. apply Z.ltb_ge. lia.
    + now apply holdsToken_fresh.
  - intros now pw cpw Hdone db2.
    assert (Hfresh2 : freshToken token (users db2)).
    { subst db2. revert Hdone. unfold resetPassword.
      destruct (falsy pw || falsy cpw); [discriminate |].
      destruct (negb _); [discriminate |].
      destruct (_ <? 6)%nat; [discriminate |].
      destruct (List.find _ (users db1)) as [user |] eqn:Hf; [| discriminate].
      intros _. cbn [snd users with_users].
      apply find_some in Hf as [Hin Hp].
      assert (Huser : user = u1).
      { destruct (Hholder user Hin) as [-> | [Hne _]]; [reflexivity |].
        now rewrite (holdsToken_fresh now token user Hne) in Hp. }
      subst user. intros x Hx.
      destruct (store_In _ _ _ Hnd1 Hx) as [-> | [Hin' Hne]]; [discriminate |].
      destruct (Hholder x Hin') as [-> | [Hne' _]]; [now destruct Hne | exact Hne']. }
    split; [exact Hfresh2 |].
    intros now' pw' cpw'. apply resetPassword_no_holder.
    intros x Hx. apply holdsToken_fresh. now apply Hfresh2.
Qed.

(** The theorem run on one account: the token issued at time 0 resets the
    password one second later; it then fails when it is submitted again, and
    an unused token fails from the tenth minute on. *)
Lemma reset_token_single_use_witness :
  let db := mkDb [Samples.asha] [] [] in
  let db1 := snd (forgotPassword 0 "4f1a" true (Some "asha@acme.io") db) in
  let db2 := snd (resetPassword 1000 "4f1a" (Some "newpass") (Some "newpass") db1) in
  statusCode (fst (resetPassword 1000 "4f1a" (Some "newpass") (Some "newpass") db1))
  = 200
  /\ statusCode (fst (resetPassword 2000 "4f1a" (Some "another") (Some "another") db2))
     = 400
  /\ statusCode (fst (resetPassword 600000 "4f1a" (Some "newpass") (Some "newpass") db1))
     = 400.
Proof.
  intros db db1 db2.
  assert (Hnd : List.NoDup (map _id (users db))).
  { constructor; [intros [] | constructor]. }
  assert (Hfresh : freshToken "4f1a" (users db)).
  { intros x [<- | []]. discriminate. }
  assert (Hok : success (fst (forgotPassword 0 "4f1a" true (Some "asha@acme.io") db))
                = true) by (vm_compute; reflexivity).
  destruct (reset_token_single_use db db1 0 "4f1a" true (Some "asha@acme.io") _
              Hnd Hfresh (surjective_pairing _) Hok) as [Hlate Honce].
  split; [vm_compute; reflexivity | split].
  - assert (Hdone : success
              (fst (resetPassword 1000 "4f1a" (Some "newpass") (Some "newpass") db1))
            = true) by (vm_compute; reflexivity).
    exact (proj1 (proj2 (proj2 (Honce 1000 _ _ Hdone)
                           2000 (Some "another") (Some "another")))).
  - apply Hlate. vm_compute. discriminate.
Defined.

End ResetFacts.

(** * Properties of the further code *)

(** ** The rate limiter *)

Module RateLimitFacts.

Import RateLimit.

Lemma filter_window_mono (w now0 now : Z) (l : list Z) :
  now0 <= now ->
  List.filter (fun time => now - time <? w)
    (List.filter (fun time => now0 - time <? w) l)
  = List.filter (fun time => now - time <? w) l.
Proof.
  intros Hle. induction l as [| a l IH]; [reflexivity |]. cbn [List.filter].
  destruct (Z.ltb_spec (now0 - a) w) as [H0 | H0]; cbn [List.filter].
  - now rewrite IH.
  - destruct (Z.ltb_spec (now - a) w); [lia | exact IH].
Qed.

(** The limiter only ever touches the record of its own key. *)
Lemma limiter_other_key maxAttempts w key key' now m :
  key <> key' ->
  snd (sensitiveOperationLimit maxAttempts w key now m) !! key' = m !! key'.
Proof.
  intros Hne. unfold sensitiveOperationLimit.
  destruct (m !! key) eqn:Hk; destruct (_ >=? _); cbn [snd];
    rewrite ?lookup_insert_ne by assumption; reflexivity.
Qed.

(** One step, read on the record of the key itself. *)
Lemma limiter_step maxAttempts w key now m :
  let stored := default [] (m !! key) in
  let recent := List.filter (fun time => now - time <? w) stored in
  sensitiveOperationLimit maxAttempts w key now m
  = if Z.of_nat (length recent) >=? maxAttempts
    then (Some tooMany,
          match m !! key with Some _ => m | None => <[key := []]> m end)
    else (None,
          <[key := recent ++ [now]]>
            (match m !! key with Some _ => m | None => <[key := []]> m end)).
Proof.
  unfold sensitiveOperationLimit in *. destruct (m !! key) eqn:Hk; cbn zeta.
  - now rewrite Hk.
  - now rewrite lookup_insert_eq.
Qed.

(** The pruned record decides like the full history of admitted
    requests, as long as the clock does not run backwards. *)
Lemma admitted_window maxAttempts w key : forall times m history clock,
  Sorted Z.le (clock :: times) ->
  (forall now, clock <= now ->
     List.filter (fun time => now - time <? w) (default [] (m !! key))
     = List.filter (fun time => now - time <? w) history) ->
  forall before t after,
    fst (admitted maxAttempts w key times m) = before ++ t :: after ->
    withinWindow w t (history ++ before) < maxAttempts.
Proof.
  induction times as [| now times IH]; intros m history clock Hs Hinv before t after.
  - cbn. intros Heq. now destruct before.
  - cbn [admitted]. rewrite limiter_step. cbn zeta.
    apply Sorted_inv in Hs as [Hs Hhd]. apply HdRel_inv in Hhd.
    rewrite (Hinv now Hhd).
    set (m1 := match m !! key with Some _ => m | None => <[key := []]> m end).
    assert (Hm1 : default [] (m1 !! key) = default [] (m !! key)).
    { subst m1. destruct (m !! key) eqn:Hk; [now rewrite Hk |].
      now rewrite lookup_insert_eq. }
    destruct (Z.geb_spec
                (Z.of_nat (length (List.filter (fun time => now - time <? w) history)))
                maxAttempts) as [Hfull | Hroom].
    + destruct (admitted _ _ _ times m1) as [passed m2] eqn:Hrun.
      cbn [fst]. intros Heq.
      apply (IH m1 history now Hs) with (after := after).
      * intros now' Hle. rewrite Hm1. apply Hinv. lia.
      * now rewrite Hrun.
    + set (m1' := <[key := _]> m1).
      destruct (admitted _ _ _ times m1') as [passed m2] eqn:Hrun.
      cbn [fst]. intros Heq.
      destruct before as [| b before]; cbn in Heq.
      * injection Heq as <- _. rewrite app_nil_r. unfold withinWindow. lia.
      * injection Heq as <- Heq.
        replace (history ++ now :: before) with ((history ++ [now]) ++ before)
          by now rewrite <- app_assoc.
        apply (IH m1' (history ++ [now]) now Hs) with (after := after).
        -- intros now' Hle. subst m1'. rewrite lookup_insert_eq.
           cbn [default from_option id].
           rewrite !List.filter_app, filter_window_mono by assumption.
           reflexivity.
        -- now rewrite Hrun.
Qed.

(** X1. Rate bound. For requests of one key that arrive in clock order at
    a limiter that has no record of the key yet, every request that is let
    through finds fewer than [maxAttempts] earlier admitted requests within
    the window that ends at its own instant. *)
Theorem limiter_rate_bound
    (maxAttempts w : Z) (key : string) (times : list Z)
    (m : gmap string (list Z)) :
  Sorted Z.le times ->
  m !! key = None ->
  forall before t after,
    fst (admitted maxAttempts w key times m) = before ++ t :: after ->
    withinWindow w t before < maxAttempts.
Proof.
  intros Hs Hnone before t after Heq.
  destruct times as [| now times]; [now destruct before |].
  apply (admitted_window maxAttempts w key (now :: times) m [] now) with (after := after).
  - constructor; [exact Hs | constructor; lia].
  - intros now' _. now rewrite Hnone.
  - exact Heq.
Qed.

(** The bound run on a limiter of 3 per 15 minutes: of five requests one
    minute apart the first three pass, and the third has two predecessors in
    its window. *)
Lemma limiter_rate_bound_witness :
  fst (admitted 3 900000 "10.0.0.7" [0; 60000; 120000; 180000; 240000] ∅)
  = [0; 60000; 120000]
  /\ withinWindow 900000 120000 [0; 60000] < 3.
Proof.
  split; [vm_compute; reflexivity |].
  apply (limiter_rate_bound 3 900000 "10.0.0.7"
           [0; 60000; 120000; 180000; 240000] ∅)
    with (after := []).
  - repeat constructor; lia.
  - apply lookup_empty.
  - vm_compute. reflexivity.
Defined.

End RateLimitFacts.

(** ** The OTP requests of the Aadhaar routes *)

Module AadhaarFacts.

Import Aadhaar.

Lemma modifyUser_findById id f users u :
  User.findById id users = Some u ->
  User.findById id (Stored.modifyUser id f users) = Some (f u)
  \/ User._id (f u) <> id.
Proof.
  destruct (Nat.eq_dec (User._id (f u)) id) as [Hid | Hid]; [| now right].
  left. induction users as [| h rest IH]; [discriminate |].
  cbn [User.findById List.find Stored.modifyUser] in *.
  destruct (Nat.eqb_spec (User._id h) id) as [E | E].
  - injection H as ->. cbn [List.find]. now rewrite Hid, Nat.eqb_refl.
  - cbn [List.find]. destruct (Nat.eqb_spec (User._id h) id); [contradiction |].
    now apply IH.
Qed.

(** A verification that the service turns down, on an entry of the
    caller that is neither expired nor used up. *)
Lemma verifyOtp_refused now n otp user r db store d :
  store !! n = Some d -> userId d = User._id user ->
  now - timestamp d <= otpLifetime -> attempts d < 3 ->
  verifySuccess r = false \/ verified r = false ->
  exists resp,
    verifyOtp now (JoiValue (n, otp)) user (Some r) db store
    = (resp, db,
       <[n := {| requestId := requestId d; userId := userId d;
                 timestamp := timestamp d; attempts := attempts d + 1 |}]> store)
    /\ statusCode resp = 400
    /\ (attemptsRemaining <$> data resp) = Some (Some (2 - attempts d)).
Proof.
  intros Hd Hown Hlive Hleft Hno. unfold verifyOtp. rewrite Hd, Hown, Nat.eqb_refl.
  cbn [negb]. destruct (Z.gtb_spec (now - timestamp d) otpLifetime); [lia |].
  destruct (Z.geb_spec (attempts d) 3); [lia |].
  assert (Hneg : negb (verifySuccess r) || negb (verified r) = true).
  { destruct Hno as [-> | ->]; [reflexivity | apply orb_true_r]. }
  rewrite Hneg. eexists. split; [reflexivity |]. cbn. split; [reflexivity |].
  do 2 f_equal. lia.
Qed.

(** Refused verifications in a row, as long as the entry has tries left. *)
Lemma verifyAll_refused n user db : forall tries store d,
  store !! n = Some d -> userId d = User._id user ->
  Forall refused tries ->
  Forall (fun try => fst (fst try) - timestamp d <= otpLifetime) tries ->
  attempts d + Z.of_nat (length tries) <= 3 ->
  exists rs,
    verifyAll n user tries db store
    = (rs, db,
       <[n := {| requestId := requestId d; userId := userId d;
                 timestamp := timestamp d;
                 attempts := attempts d + Z.of_nat (length tries) |}]> store)
    /\ Forall (fun r => statusCode r = 400) rs.
Proof.
  induction tries as [| [[now otp] service] tries IH];
    intros store d Hd Hown Hrefused Hlive Hleft.
  - exists []. cbn. rewrite Z.add_0_r. split; [| constructor].
    do 2 f_equal. symmetry. apply insert_id. rewrite Hd. now destruct d.
  - apply Forall_cons in Hrefused as [(r & Hr & Hno) Hrefused].
    apply Forall_cons in Hlive as [Hnow Hlive]. cbn in Hr, Hnow. subst service.
    cbn [length] in Hleft.
    destruct (verifyOtp_refused now n otp user r db store d Hd Hown Hnow
                ltac:(lia) Hno) as (resp & Hrun & Hcode & _).
    set (d1 := {| requestId := requestId d; userId := userId d;
                  timestamp := timestamp d; attempts := attempts d + 1 |}) in *.
    destruct (IH (<[n := d1]> store) d1) as (rs & Hrest & Hcodes);
      [apply lookup_insert_eq | exact Hown | exact Hrefused | exact Hlive
       | cbn; lia |].
    exists (resp :: rs). cbn [verifyAll]. rewrite Hrun, Hrest.
    split; [| now constructor].
    rewrite insert_insert_eq. cbn [requestId userId timestamp attempts d1].
    replace (Z.of_nat (length ((now, otp, Some r) :: tries)))
      with (1 + Z.of_nat (length tries)) by (cbn [length]; lia).
    now rewrite Z.add_assoc.
Qed.

(** X2. Attempt cap. On a freshly sent OTP request, three verifications by
    the requester that the service turns down, made before the request
    expires, all fail with 400 and leave the users as they were; the fourth
    call, still before expiry, fails with "Maximum OTP verification attempts
    exceeded" whatever the service would answer, removes the request and
    writes no user; the call after that finds no request. *)
Theorem otp_attempt_cap
    (n : string) (user : User.t) (db : Db) (store : gmap string OtpData)
    (d : OtpData) (tries : list (Z * option string * option VerifyResult)) :
  store !! n = Some d ->
  userId d = User._id user ->
  attempts d = 0 ->
  length tries = 3%nat ->
  Forall refused tries ->
  Forall (fun try => fst (fst try) - timestamp d <= otpLifetime) tries ->
  exists rs store3,
    verifyAll n user tries db store = (rs, db, store3)
    /\ Forall (fun r => statusCode r = 400) rs
    /\ forall now otp service,
         now - timestamp d <= otpLifetime ->
         verifyOtp now (JoiValue (n, otp)) user service db store3
         = (otpAttemptsExceeded, db, delete n store3)
         /\ forall now' otp' service',
              verifyOtp now' (JoiValue (n, otp')) user service' db
                (delete n store3)
              = (invalidOtpRequest, db, delete n store3).
Proof.
  intros Hd Hown Hzero Hlen Hrefused Hlive.
  destruct (verifyAll_refused n user db tries store d Hd Hown Hrefused Hlive)
    as (rs & Hrun & Hcodes); [lia |].
  rewrite Hzero, Hlen in Hrun. cbn in Hrun.
  eexists rs, _. split; [exact Hrun | split; [exact Hcodes |]].
  intros now otp service Hnow. split.
  - unfold verifyOtp. rewrite lookup_insert_eq. cbn [userId timestamp attempts].
    rewrite Hown, Nat.eqb_refl. cbn [negb].
    destruct (Z.gtb_spec (now - timestamp d) otpLifetime); [lia | reflexivity].
  - intros now' otp' service'. unfold verifyOtp.
    now rewrite lookup_delete_eq.
Qed.

(** The cap run in development mode: three verifications without an OTP,
    then a well formed one that the mock service would accept. *)
Lemma otp_attempt_cap_witness :
  let store : gmap string OtpData :=
    {[ "123412341234" :=
         {| requestId := "mock_request_0"; userId := 1; timestamp := 0;
            attempts := 0 |} ]} in
  let db := Samples.homeDb Samples.asha in
  let bad := (60000, None, Some (mockVerifyOTP None)) in
  exists store3,
    snd (verifyAll "123412341234" Samples.asha [bad; bad; bad] db store) = store3
    /\ verifyOtp 120000 (JoiValue ("123412341234", Some "123456")) Samples.asha
         (Some (mockVerifyOTP (Some "123456"))) db store3
       = (otpAttemptsExceeded, db, delete "123412341234" store3).
Proof.
  intros store db bad.
  destruct (otp_attempt_cap "123412341234" Samples.asha db store
              _ [bad; bad; bad] (lookup_singleton_eq _ _) eq_refl eq_refl eq_refl)
    as (rs & store3 & Hrun & _ & Hcap).
  - repeat (apply List.Forall_cons;
              [exists (mockVerifyOTP None); split;
                 [reflexivity | now left] |]).
    apply List.Forall_nil.
  - repeat (apply List.Forall_cons; [cbn; unfold otpLifetime; lia |]).
    apply List.Forall_nil.
  - exists store3. rewrite Hrun. split; [reflexivity |].
    apply Hcap. cbn. unfold otpLifetime. lia.
Defined.

(** X3. A verification that the service confirms, made by the requester on
    a live request with tries left, is answered 200, marks the stored
    document of the caller as verified for that number at that instant
    and removes the request: the same OTP cannot be used again, by anyone.
    A caller who did not send the request is answered "Invalid OTP request"
    and nothing is written. *)
Theorem otp_success_consumes
    (now : Z) (n : string) (otp : option string) (user : User.t)
    (r : VerifyResult) (db : Db) (store : gmap string OtpData) (d : OtpData) :
  store !! n = Some d ->
  userId d = User._id user ->
  now - timestamp d <= otpLifetime ->
  attempts d < 3 ->
  verifySuccess r = true -> verified r = true ->
  exists resp db' store',
    verifyOtp now (JoiValue (n, otp)) user (Some r) db store = (resp, db', store')
    /\ statusCode resp = 200
    /\ store' !! n = None
    /\ (forall u, User.findById (User._id user) (users db) = Some u ->
          User.findById (User._id user) (users db')
          = Some (Stored.with_aadhaar (Some n) true (Some now) u))
    /\ (forall now' otp' who service',
          verifyOtp now' (JoiValue (n, otp')) who service' db' store'
          = (invalidOtpRequest, db', store'))
    /\ (forall now' otp' who service',
          User._id who <> User._id user ->
          verifyOtp now' (JoiValue (n, otp')) who service' db store
          = (invalidOtpRequest, db, store)).
Proof.
  intros Hd Hown Hlive Hleft Hok Hver. unfold verifyOtp at 1.
  rewrite Hd, Hown, Nat.eqb_refl. cbn [negb].
  destruct (Z.gtb_spec (now - timestamp d) otpLifetime); [lia |].
  destruct (Z.geb_spec (attempts d) 3); [lia |].
  rewrite Hok, Hver. cbn [negb orb].
  eexists _, _, _. split; [reflexivity |]. split; [reflexivity |].
  split; [apply lookup_delete_eq |]. split; [| split].
  - intros u Hu. cbn [users with_users].
    destruct (modifyUser_findById _ (Stored.with_aadhaar (Some n) true (Some now))
                _ _ Hu) as [Hfound | Hid]; [exact Hfound |].
    destruct Hid. cbn. apply find_some in Hu as [_ Hu]. now apply Nat.eqb_eq in Hu.
  - intros now' otp' who service'. unfold verifyOtp. now rewrite lookup_delete_eq.
  - intros now' otp' who service' Hne. unfold verifyOtp. rewrite Hd, Hown.
    destruct (Nat.eqb_spec (User._id user) (User._id who)) as [E |];
      [now destruct Hne | reflexivity].
Qed.

(** The theorem run in development mode with a six digit OTP. *)
Lemma otp_success_consumes_witness :
  let store : gmap string OtpData :=
    {[ "123412341234" :=
         {| requestId := "mock_request_0"; userId := 1; timestamp := 0;
            attempts := 0 |} ]} in
  let db := mkDb [Samples.asha] [] [] in
  exists resp db' store',
    verifyOtp 60000 (JoiValue ("123412341234", Some "123456")) Samples.asha
      (Some (mockVerifyOTP (Some "123456"))) db store = (resp, db', store')
    /\ statusCode resp = 200.
Proof.
  intros store db.
  assert (Hlive : 60000 - 0 <= otpLifetime) by (unfold otpLifetime; lia).
  assert (Hleft : 0 < 3) by lia.
  destruct (otp_success_consumes 60000 "123412341234" (Some "123456")
              Samples.asha (mockVerifyOTP (Some "123456")) db store _
              (lookup_singleton_eq _ _) eq_refl Hlive Hleft eq_refl eq_refl)
    as (resp & db' & store' & Hrun & Hcode & _).
  now exists resp, db', store'.
Defined.

(** What a send that is answered with success leaves in the store. *)
Lemma sendOtp_success now n user service db store resp store' :
  sendOtp now (JoiValue n) user service db store = (resp, store') ->
  success resp = true ->
  exists rid,
    store' = <[n := {| requestId := rid; userId := User._id user;
                       timestamp := now; attempts := 0 |}]> store.
Proof.
  unfold sendOtp. destruct (_ && _); [intros [= <- _]; discriminate |].
  destruct (match store !! n with Some _ => _ | None => _ end);
    [intros [= <- _]; discriminate |].
  destruct service as [r |]; [| intros [= <- _]; discriminate].
  destruct (sendSuccess r); [| intros [= <- _]; discriminate].
  intros [= _ <-] _. now exists (sendRequestId r).
Qed.

(** X4. The throttle of resends lives in the pending request. While the
    store holds a request for a number, sent at a non zero clock reading
    [t0]: (1) no send for that number, by any user, succeeds before [t0]
    plus two minutes, and the store stays as it is; (2) a verification
    either removes the request or keeps its owner and its timestamp, so the
    throttle outlasts the tries that are turned down; (3) once a later send
    by another user succeeds, which it does at [t0] plus two minutes at the
    earliest, the request belongs to that user and every verification by
    the first owner is answered "Invalid OTP request" and writes nothing.
    (4) The throttle ends with the request: once the request is removed,
    as a verification that succeeds, a try past the third or a try past the
    expiry removes it, a send that the service accepts, by a user who
    carries the number or while no user has verified it, succeeds at any
    instant, before [t0] plus two minutes too. *)
Theorem otp_resend (n : string) (store : gmap string OtpData) (d : OtpData) :
  store !! n = Some d ->
  timestamp d <> 0 ->
  (forall t1 who service db,
      t1 - timestamp d < otpResendDelay ->
      success (fst (sendOtp t1 (JoiValue n) who service db store)) = false
      /\ snd (sendOtp t1 (JoiValue n) who service db store) = store)
  /\ (forall now otp who service db,
        let store' := snd (verifyOtp now (JoiValue (n, otp)) who service db store) in
        store' !! n = None
        \/ exists d', store' !! n = Some d'
             /\ userId d' = userId d /\ timestamp d' = timestamp d)
  /\ (forall t1 who service db,
        User._id who <> userId d ->
        success (fst (sendOtp t1 (JoiValue n) who service db store)) = true ->
        let store2 := snd (sendOtp t1 (JoiValue n) who service db store) in
        otpResendDelay <= t1 - timestamp d
        /\ forall first now otp answer db2,
             User._id first = userId d ->
             verifyOtp now (JoiValue (n, otp)) first answer db2 store2
             = (invalidOtpRequest, db2, store2))
  /\ (forall t1 who r db,
        sendSuccess r = true ->
        sameNumber (User.aadhaarNumber who) n = true
        \/ List.find (verifiedHolder n) (users db) = None ->
        success (fst (sendOtp t1 (JoiValue n) who (Some r) db (delete n store)))
        = true).
Proof.
  intros Hd Ht0.
  assert (Hthrottle : forall t1 who service db,
            t1 - timestamp d < otpResendDelay ->
            success (fst (sendOtp t1 (JoiValue n) who service db store)) = false
            /\ snd (sendOtp t1 (JoiValue n) who service db store) = store).
  { intros t1 who service db Hsoon. unfold sendOtp.
    destruct (_ && _); [split; reflexivity |].
    rewrite Hd.
    destruct (Z.eqb_spec (timestamp d) 0); [contradiction |].
    destruct (Z.ltb_spec (t1 - timestamp d) otpResendDelay); [| lia].
    split; reflexivity. }
  split; [exact Hthrottle | split; [| split]].
  - intros now otp who service db store'. subst store'.
    unfold verifyOtp. rewrite Hd.
    destruct (negb (Nat.eqb (userId d) (User._id who)));
      [right; exists d; now cbn [snd] |].
    destruct (now - timestamp d >? otpLifetime);
      [left; cbn [snd]; apply lookup_delete_eq |].
    destruct (attempts d >=? 3); [left; cbn [snd]; apply lookup_delete_eq |].
    destruct service as [r |]; [| right; exists d; now cbn [snd]].
    destruct (negb (verifySuccess r) || negb (verified r)); cbn [snd].
    + right. eexists. rewrite lookup_insert_eq. split; [reflexivity |].
      split; reflexivity.
    + left. apply lookup_delete_eq.
  - intros t1 who service db Hother Hok store2.
    assert (Hlate : otpResendDelay <= t1 - timestamp d).
    { destruct (Z.le_gt_cases otpResendDelay (t1 - timestamp d)) as [| Hsoon];
        [assumption |].
      destruct (Hthrottle t1 who service db ltac:(lia)) as [Hno _].
      rewrite Hno in Hok. discriminate. }
    split; [exact Hlate |].
    intros first now otp answer db2 Hfirst. subst store2.
    destruct (sendOtp t1 (JoiValue n) who service db store) as [resp1 store2] eqn:Hrun.
    cbn [fst snd] in *.
    destruct (sendOtp_success _ _ _ _ _ _ _ _ Hrun Hok) as (rid1 & ->).
    unfold verifyOtp. rewrite lookup_insert_eq. cbn [userId].
    destruct (Nat.eqb_spec (User._id who) (User._id first)); [| reflexivity].
    exfalso. apply Hother. congruence.
  - intros t1 who r db Hsent Hfree. unfold sendOtp.
    replace (negb (sameNumber (User.aadhaarNumber who) n)
             && match List.find (verifiedHolder n) (users db) with
                | Some _ => true
                | None => false
                end) with false
      by (destruct Hfree as [-> | ->]; [reflexivity | now rewrite andb_false_r]).
    rewrite lookup_delete_eq, Hsent. reflexivity.
Qed.

(** Asha asks for an OTP one second after the epoch: Ravi cannot ask for
    the same number one minute later, does so three minutes later, and
    Asha can no longer verify. *)
Lemma otp_resend_witness :
  let service := Some {| sendSuccess := true; sendRequestId := "req-1" |} in
  let ravi := Samples.admin 2 (Some 10%nat) "ravi@acme.io" in
  let db := mkDb [Samples.asha; ravi] [] [] in
  let store1 :=
    snd (sendOtp 1000 (JoiValue "123412341234") Samples.asha service
           db ∅) in
  let store2 :=
    snd (sendOtp 181000 (JoiValue "123412341234") ravi service
           db store1) in
  success (fst (sendOtp 61000 (JoiValue "123412341234") ravi service
                  db store1)) = false
  /\ verifyOtp 182000 (JoiValue ("123412341234", Some "123456")) Samples.asha
       (Some (mockVerifyOTP (Some "123456"))) db store2
     = (invalidOtpRequest, db, store2).
Proof.
  intros service ravi db store1 store2.
  assert (Hd : store1 !! "123412341234"
               = Some {| requestId := "req-1"; userId := 1; timestamp := 1000;
                         attempts := 0 |})
    by (vm_compute; reflexivity).
  assert (Ht0 : 1000 <> 0) by lia.
  destruct (otp_resend "123412341234" store1 _ Hd Ht0)
    as (Hthrottle & _ & Htake & _).
  split.
  - assert (Hsoon : 61000 - 1000 < otpResendDelay) by (unfold otpResendDelay; lia).
    exact (proj1 (Hthrottle 61000 ravi service db Hsoon)).
  - assert (Hother : User._id ravi <> 1%nat) by discriminate.
    assert (Hok1 : success (fst (sendOtp 181000 (JoiValue "123412341234") ravi
                                   service db store1)) = true)
      by (vm_compute; reflexivity).
    exact (proj2 (Htake 181000 ravi service db Hother Hok1)
             Samples.asha 182000 (Some "123456") _ db eq_refl).
Defined.

End AadhaarFacts.

(** ** Users: admin actions, profiles, deletion *)

Module UserAdminFacts.

Import AttendanceController UserController UserAdmin.

Lemma stored_user_id id users u : User.findById id users = Some u -> User._id u = id.
Proof.
  intros Hf. apply find_some in Hf as [_ Hid]. now apply Nat.eqb_eq in Hid.
Qed.

(** Reading back the document that was just stored. *)
Lemma findById_store id users u u' :
  User.findById id users = Some u -> User._id u' = id ->
  User.findById id (User.store u' users) = Some u'.
Proof.
  intros Hf Hid. induction users as [| h rest IH]; [discriminate |].
  cbn [User.findById List.find User.store] in *. rewrite Hid.
  destruct (Nat.eqb_spec (User._id h) id) as [E | E]; cbn [List.find].
  - now rewrite Hid, Nat.eqb_refl.
  - destruct (Nat.eqb_spec (User._id h) id); [contradiction | now apply IH].
Qed.

(** The other documents are read back as they were. *)
Lemma findById_store_other id users u' :
  User._id u' <> id ->
  User.findById id (User.store u' users) = User.findById id users.
Proof.
  intros Hne. induction users as [| h rest IH]; [reflexivity |].
  cbn [User.findById List.find User.store] in *.
  destruct (Nat.eqb_spec (User._id h) (User._id u')) as [E | E]; cbn [List.find].
  - destruct (Nat.eqb_spec (User._id h) id) as [E' |]; [congruence |].
    destruct (Nat.eqb_spec (User._id u') id); [contradiction | reflexivity].
  - destruct (Nat.eqb_spec (User._id h) id); [reflexivity | exact IH].
Qed.

Lemma applyAction_id now actor a u : User._id (applyAction now actor a u) = User._id u.
Proof. now destruct a. Qed.

(** An admin action that is answered with success stored the action on
    the target. *)
Lemma performAdminAction_success now actor id v db resp db' :
  performAdminAction now actor id (JoiValue v) db = (resp, db') ->
  success resp = true ->
  exists target,
    User.findById id (users db) = Some target
    /\ users db' = User.store (applyAction now actor (action v) target) (users db)
    /\ attendance db' = attendance db
    /\ (Nat.eqb (User._id actor) id && selfForbidden (action v) = false).
Proof.
  unfold performAdminAction.
  destruct (User.findById id (users db)) as [target |] eqn:Hf;
    [| intros [= <- _]; discriminate].
  destruct (foreignAdmin actor (User.organization target)) as [[] |];
    try (intros [= <- _]; discriminate).
  rewrite (stored_user_id _ _ _ Hf).
  destruct (Nat.eqb (User._id actor) id && selfForbidden (action v)) eqn:Hself;
    [intros [= <- _]; discriminate |].
  intros [= _ <-] _. now exists target.
Qed.

(** X5. Rejection and approval. (1) No actor can reject or deactivate their
    own account: the answer is 400 and nothing is written. (2) After a
    successful [reject] the stored target is neither approved nor active,
    and every attendance request made with that document is answered 403
    and stores nothing. (3) A later successful [approve] stamps the approver
    and the date but leaves the account inactive: attendance requests are
    still answered 403 "Account is inactive" until an [activate]. *)
Theorem reject_then_approve `{LocalTime}
    (now : Date) (actor : User.t) (id : ObjectId) (db : Db) :
  (forall v target,
      User.findById id (users db) = Some target ->
      User._id actor = id -> selfForbidden (action v) = true ->
      foreignAdmin actor (User.organization target) = Some false ->
      performAdminAction now actor id (JoiValue v) db
      = (fail 400 "Cannot perform this action on your own account", db))
  /\ (forall reason resp db1,
        performAdminAction now actor id
          (JoiValue {| action := Reject; reason := reason |}) db = (resp, db1) ->
        success resp = true ->
        exists rejected,
          User.findById id (users db1) = Some rejected
          /\ User.isApproved rejected = false /\ User.isActive rejected = false
          /\ (forall t newId file v,
                markAttendance t newId file (JoiValue v) rejected db1
                = (notApproved, db1))
          /\ forall now2 actor2 reason2 resp2 db2,
               performAdminAction now2 actor2 id
                 (JoiValue {| action := Approve; reason := reason2 |}) db1
               = (resp2, db2) ->
               success resp2 = true ->
               exists approved,
                 User.findById id (users db2) = Some approved
                 /\ User.isApproved approved = true
                 /\ User.approvedBy approved = Some (User._id actor2)
                 /\ User.approvedDate approved = Some now2
                 /\ User.isActive approved = false
                 /\ forall t newId file v,
                      markAttendance t newId file (JoiValue v) approved db2
                      = (accountInactive, db2)).
Proof.
  split.
  - intros v target Hf Hself Hforbidden Hown. unfold performAdminAction.
    rewrite Hf, Hown, (stored_user_id _ _ _ Hf), Hself, Nat.eqb_refl, Hforbidden.
    reflexivity.
  - intros reason resp db1 Hrun Hok.
    destruct (performAdminAction_success _ _ _ _ _ _ _ Hrun Hok)
      as (target & Hf & Husers & _ & _).
    cbn [action applyAction] in Husers.
    set (rejected := User.with_account false false _ _ target) in Husers.
    exists rejected. split.
    { rewrite Husers. apply (findById_store id _ target); [exact Hf |].
      exact (stored_user_id _ _ _ Hf). }
    split; [reflexivity | split; [reflexivity | split]].
    { intros t newId file v. reflexivity. }
    intros now2 actor2 reason2 resp2 db2 Hrun2 Hok2.
    destruct (performAdminAction_success _ _ _ _ _ _ _ Hrun2 Hok2)
      as (target2 & Hf2 & Husers2 & _ & _).
    assert (Htarget2 : target2 = rejected).
    { rewrite Husers in Hf2.
      rewrite (findById_store id _ target rejected Hf (stored_user_id _ _ _ Hf)) in Hf2.
      now injection Hf2. }
    subst target2. cbn [action applyAction] in Husers2.
    set (approved := User.with_account _ true _ _ rejected) in Husers2.
    exists approved. split.
    { rewrite Husers2. apply (findById_store id _ rejected); [| exact (stored_user_id _ _ _ Hf)].
      rewrite Husers. apply (findById_store id _ target); [exact Hf |].
      exact (stored_user_id _ _ _ Hf). }
    repeat (split; [reflexivity |]).
    intros t newId file v. reflexivity.
Qed.

(** The theorem run on the admin of organization 10 who rejects Asha. *)
Lemma reject_then_approve_witness :
  let boss := Samples.admin 2 (Some 10%nat) "ravi@acme.io" in
  let db := mkDb [boss; Samples.asha] [] [] in
  let db1 :=
    snd (performAdminAction 0 boss 1
           (JoiValue {| action := Reject; reason := None |}) db) in
  exists rejected,
    User.findById 1 (users db1) = Some rejected
    /\ markAttendance (9 * Samples.hour) 100 None
         (JoiValue Samples.checkInRequest) rejected db1
       = (notApproved, db1).
Proof.
  intros boss db db1.
  assert (Hok : success (fst (performAdminAction 0 boss 1
                  (JoiValue {| action := Reject; reason := None |}) db)) = true)
    by (vm_compute; reflexivity).
  destruct (proj2 (reject_then_approve 0 boss 1 db) None _ db1
              (surjective_pairing _) Hok)
    as (rejected & Hf & _ & _ & Hgate & _).
  exists rejected. split; [exact Hf | apply Hgate].
Defined.

Lemma removeUser_In id users x :
  In x (removeUser id users) -> In x users.
Proof.
  induction users as [| h rest IH]; [intros [] |]. cbn [removeUser].
  destruct (Nat.eqb (User._id h) id); [now right |].
  intros [<- | Hx]; [now left | right; now apply IH].
Qed.

Lemma removeUser_gone id users :
  List.NoDup (map User._id users) ->
  forall x, In x (removeUser id users) -> User._id x <> id.
Proof.
  induction users as [| h rest IH]; [intros _ x [] |]. cbn [map removeUser].
  intros Hnd x. apply NoDup_cons_iff in Hnd as [Hh Hnd].
  destruct (Nat.eqb_spec (User._id h) id) as [E | E].
  - intros Hx Hid. apply Hh. rewrite E, <- Hid. now apply in_map.
  - intros [<- | Hx]; [assumption | now apply IH].
Qed.

Lemma removeUser_keeps id users x :
  In x users -> User._id x <> id -> In x (removeUser id users).
Proof.
  induction users as [| h rest IH]; [intros [] |]. cbn [removeUser].
  destruct (Nat.eqb_spec (User._id h) id) as [E | E].
  - intros [<- | Hx] Hne; [contradiction | assumption].
  - intros [<- | Hx] Hne; [now left | right; now apply IH].
Qed.

(** X6. Deleting a user. A [deleteUser] that is answered with success, in
    a store with unique user ids, removes the user and every attendance
    event of that user, keeps every other user and every event of the other
    users in their order, and leaves the organizations alone. Nobody can
    delete their own account: the request is refused and nothing is
    written. *)
Theorem deleteUser_cascade (actor : User.t) (id : ObjectId) (db : Db) :
  List.NoDup (map User._id (users db)) ->
  (forall resp db',
      deleteUser actor id db = (resp, db') ->
      success resp = true ->
      User._id actor <> id
      /\ (forall x, In x (users db') <-> In x (users db) /\ User._id x <> id)
      /\ attendance db'
         = List.filter (fun a => negb (Nat.eqb (Attendance.user a) id))
                       (attendance db)
      /\ (forall a, In a (attendance db') -> Attendance.user a <> id)
      /\ organizations db' = organizations db)
  /\ (User._id actor = id ->
      success (fst (deleteUser actor id db)) = false
      /\ snd (deleteUser actor id db) = db).
Proof.
  intros Hnd. split.
  - intros resp db'. unfold deleteUser.
    destruct (User.findById id (users db)) as [user |] eqn:Hf;
      [| intros [= <- _]; discriminate].
    pose proof (stored_user_id _ _ _ Hf) as Hid. rewrite Hid.
    destruct (foreignAdmin actor (User.organization user)) as [[] |];
      try (intros [= <- _]; discriminate).
    destruct (Nat.eqb_spec (User._id actor) id) as [E | E];
      [intros [= <- _]; discriminate |].
    intros [= _ <-] _. cbn [users attendance organizations].
    split; [exact E | split; [| split; [reflexivity | split; [| reflexivity]]]].
    + intros x. split.
      * intros Hx. split; [now apply removeUser_In in Hx |].
        now apply (removeUser_gone id _ Hnd).
      * intros [Hx Hne]. now apply removeUser_keeps.
    + intros a Ha. apply filter_In in Ha as [_ Ha].
      apply negb_true_iff in Ha. now apply Nat.eqb_neq in Ha.
  - intros Hself. unfold deleteUser.
    destruct (User.findById id (users db)) as [user |] eqn:Hf;
      [| split; reflexivity].
    rewrite (stored_user_id _ _ _ Hf), Hself, Nat.eqb_refl.
    destruct (foreignAdmin actor (User.organization user)) as [[] |];
      split; reflexivity.
Qed.

(** The admin of organization 10 deletes Asha, who checked in at 09:00. *)
Lemma deleteUser_cascade_witness :
  let boss := Samples.admin 2 (Some 10%nat) "ravi@acme.io" in
  let db := mkDb [boss; Samples.asha]
              (attendance (Samples.morningDb Samples.asha)) [] in
  attendance (snd (deleteUser boss 1 db)) = []
  /\ users (snd (deleteUser boss 1 db)) = [boss].
Proof.
  intros boss db.
  assert (Hnd : List.NoDup (map User._id (users db))).
  { repeat constructor; cbn; intuition discriminate. }
  assert (Hok : success (fst (deleteUser boss 1 db)) = true)
    by (vm_compute; reflexivity).
  destruct (proj1 (deleteUser_cascade boss 1 db Hnd) _ _
              (surjective_pairing _) Hok) as (_ & _ & Hatt & _).
  split; [rewrite Hatt |]; vm_compute; reflexivity.
Defined.

(** X7. Profiles across tenants. For an admin of organization [a] and a
    stored user of another organization [b], reading the profile is
    answered 403, by the handler and through the route, while updating the
    profile with a valid body is answered 200 and stores the new values:
    [updateUserProfile] tests the role of the caller, not the organization.
    A super-admin who names another user in the path is turned away by the
    route's [authorizeOwnerOrAdmin] although both handlers would serve a
    super-admin. *)
Theorem profile_routes_across_tenants
    (actor target : User.t) (a b : ObjectId) (id : ObjectId) (db : Db) :
  User.findById id (users db) = Some target ->
  User._id actor <> id ->
  (User.role actor = User.Admin ->
   User.organization actor = Some a -> User.organization target = Some b ->
   a <> b ->
   getProfileRoute actor id db = accessDenied
   /\ forall v,
        putProfileRoute actor id (JoiValue v) db
        = (mkResponse 200 true "Profile updated successfully"
             (Some (applyProfile v target)),
           with_users (User.store (applyProfile v target) (users db)) db)
        /\ User.findById id
             (users (snd (putProfileRoute actor id (JoiValue v) db)))
           = Some (applyProfile v target))
  /\ (User.role actor = User.SuperAdmin ->
      getProfileRoute actor id db
      = fail 403 "Access denied. You can only access your own data."
      /\ getUserProfile actor id db
         = mkResponse 200 true "" (Some (Middleware.withoutPassword target))
      /\ forall v,
           fst (putProfileRoute actor id (JoiValue v) db)
           = fail 403 "Access denied. You can only access your own data.").
Proof.
  intros Hf Hne. pose proof (stored_user_id _ _ _ Hf) as Hid.
  assert (Hneq : Nat.eqb (User._id actor) id = false) by now apply Nat.eqb_neq.
  split.
  - intros Hrole Ha Hb Hab.
    assert (Hgate : Middleware.authorizeOwnerOrAdmin id actor = None).
    { unfold Middleware.authorizeOwnerOrAdmin. now rewrite Hrole, orb_true_r. }
    split.
    + unfold getProfileRoute, getUserProfile. rewrite Hgate, Hf.
      unfold strangerTo. cbn [Middleware.withoutPassword User._id User.with_reset
                               User.organization].
      rewrite Hrole. cbn [User.role_eqb negb andb]. rewrite andb_false_r.
      now rewrite Hb, (TenantFacts.foreignAdmin_other actor a b).
    + intros v. unfold putProfileRoute, updateUserProfile. rewrite Hgate, Hf.
      unfold strangerTo. rewrite Hrole. cbn [User.role_eqb negb andb].
      rewrite andb_false_r. split; [reflexivity |]. cbn [snd users with_users].
      now apply (findById_store id _ target).
  - intros Hrole.
    assert (Hgate : Middleware.authorizeOwnerOrAdmin id actor
                    = Some (fail 403 "Access denied. You can only access your own data.")).
    { unfold Middleware.authorizeOwnerOrAdmin. now rewrite Hneq, Hrole. }
    split; [| split].
    + unfold getProfileRoute. now rewrite Hgate.
    + unfold getUserProfile. rewrite Hf. unfold strangerTo, foreignAdmin.
      rewrite Hrole. cbn [User.role_eqb negb andb]. now rewrite andb_false_r.
    + intros v. unfold putProfileRoute. now rewrite Hgate.
Qed.

(** The admin of organization 10 renames an employee of organization 20. *)
Lemma profile_routes_across_tenants_witness :
  let boss := Samples.admin 2 (Some 10%nat) "ravi@acme.io" in
  let lena := Samples.employee 3 (Some 20%nat) "lena@other.io" in
  let db := mkDb [boss; lena] [] [] in
  let v := {| pfirstName := Some "Renamed"; plastName := None;
              pphoneNumber := None; pdepartment := None;
              pdesignation := None |} in
  getProfileRoute boss 3 db = accessDenied
  /\ User.firstName <$> User.findById 3
       (users (snd (putProfileRoute boss 3 (JoiValue v) db)))
     = Some "Renamed".
Proof.
  intros boss lena db v.
  assert (Hne : User._id boss <> 3%nat) by discriminate.
  assert (Hab : 10%nat <> 20%nat) by discriminate.
  destruct (proj1 (profile_routes_across_tenants boss lena 10 20 3 db
                     eq_refl Hne) eq_refl eq_refl eq_refl Hab) as [Hget Hput].
  split; [exact Hget |].
  rewrite (proj2 (Hput v)). reflexivity.
Defined.

End UserAdminFacts.

(** ** Sessions, logins and password resets *)

Module SessionFacts.

Import User Lockout LockoutFacts Middleware.

Lemma substring_all s : String.substring 0 (String.length s) s = s.
Proof. induction s as [| c s IH]; [reflexivity |]. cbn. now rewrite IH. Qed.

Lemma append_cons c p s : (String c p ++ s)%string = String c (p ++ s)%string.
Proof. reflexivity. Qed.

Lemma removeFirst_eq pattern s :
  removeFirst pattern s
  = if String.prefix pattern s then
      String.substring (String.length pattern)
        (String.length s - String.length pattern) s
    else match s with
         | EmptyString => EmptyString
         | String c rest => String c (removeFirst pattern rest)
         end.
Proof. destruct s; reflexivity. Qed.

Lemma prefix_append p s : String.prefix p (p ++ s)%string = true.
Proof.
  induction p as [| c p IH]; [now destruct s |].
  rewrite append_cons. cbn [String.prefix].
  destruct (Ascii.ascii_dec c c); [exact IH | contradiction].
Qed.

Lemma substring_append p s :
  String.substring (String.length p)
    (String.length (p ++ s)%string - String.length p) (p ++ s)%string = s.
Proof.
  induction p as [| c p IH].
  - change ("" ++ s)%string with s. rewrite Nat.sub_0_r. apply substring_all.
  - rewrite append_cons. cbn [String.length String.substring Nat.sub]. exact IH.
Qed.

(** A header that starts with the pattern loses exactly the pattern. *)
Lemma removeFirst_prefix p s : removeFirst p (p ++ s)%string = s.
Proof. now rewrite removeFirst_eq, prefix_append, substring_append. Qed.

Lemma withoutPassword_isActive u : isActive (withoutPassword u) = isActive u.
Proof. reflexivity. Qed.

Lemma withoutPassword_isLocked now u : isLocked now (withoutPassword u) = isLocked now u.
Proof. reflexivity. Qed.

Lemma NoDup_findById users x :
  List.NoDup (map _id users) -> In x users -> findById (_id x) users = Some x.
Proof.
  induction users as [| h rest IH]; [intros _ [] |]. cbn [map findById List.find].
  intros Hnd Hin. apply NoDup_cons_iff in Hnd as [Hh Hnd].
  destruct (Nat.eqb_spec (_id h) (_id x)) as [E | E].
  - destruct Hin as [-> | Hin]; [reflexivity |].
    destruct Hh. rewrite E. now apply in_map.
  - destruct Hin as [-> | Hin]; [contradiction | now apply IH].
Qed.

Lemma incLoginAttempts_isActive now u : isActive (incLoginAttempts now u) = isActive u.
Proof.
  unfold incLoginAttempts.
  destruct (match lockUntil u with Some l => l <? now | None => false end);
    [reflexivity |].
  destruct (_ && _); reflexivity.
Qed.

Section Sessions.

Context `{Crypto} `{Setters} `{Jwt}.

Variable mail : string.

(** Failures below the limit, with the identity of the account. *)
Lemma failures_track tries : forall users u,
  List.NoDup (map _id users) -> findByEmail mail users = Some u ->
  lockUntil u = None -> Forall (wrong u) tries ->
  (getLoginAttempts u + length tries < 5)%nat ->
  exists u',
    List.NoDup (map _id (snd (authenticateAll mail tries users)))
    /\ findByEmail mail (snd (authenticateAll mail tries users)) = Some u'
    /\ getLoginAttempts u' = (getLoginAttempts u + length tries)%nat
    /\ lockUntil u' = None /\ password u' = password u
    /\ _id u' = _id u /\ isActive u' = isActive u.
Proof.
  induction tries as [| [now pw] tries IH]; intros users u Hnd Hf Hl Hw Hlen.
  - exists u. cbn. rewrite Nat.add_0_r. auto 10.
  - apply Forall_cons in Hw as [Hw Hws]. cbn [length] in Hlen.
    destruct (wrong_password mail users u Hnd Hf now pw) as (Hrun & Hf' & Hnd').
    { unfold isLocked. now rewrite Hl. }
    { exact Hw. }
    destruct (incLoginAttempts_unlocked now u Hl) as [Hcount Hlock].
    destruct (5 <=? getLoginAttempts u + 1)%nat eqn:E;
      [apply Nat.leb_le in E; lia |].
    destruct (IH _ _ Hnd' Hf' Hlock) as (u' & Hnd2 & Hf2 & Hc2 & Hl2 & Hp2 & Hid2 & Ha2).
    { unfold wrong in *. now rewrite incLoginAttempts_password. }
    { unfold getLoginAttempts at 1. rewrite Hcount. cbn. lia. }
    exists u'. cbn [authenticateAll]. rewrite Hrun.
    destruct (authenticateAll mail tries _) as [rs users2]. cbn [snd] in *.
    repeat (split; [assumption |]).
    split; [| split; [assumption | split; [| split]]].
    + rewrite Hc2. unfold getLoginAttempts at 1. rewrite Hcount. cbn. lia.
    + now rewrite Hp2, incLoginAttempts_password.
    + now rewrite Hid2, incLoginAttempts_id.
    + now rewrite Ha2, incLoginAttempts_isActive.
Qed.

End Sessions.

(** X8. Failed logins close the open sessions. For an active account with
    a clean counter, a bearer of a valid token passes [authenticate]; after
    five wrong passwords in a row for the account's e-mail address, by
    anyone, the same bearer is answered 401 "Account is temporarily locked"
    at every instant before the fifth failure plus two hours. *)
Theorem failed_logins_close_sessions `{Crypto} `{Setters} `{Jwt}
    (mail : string) (users : list t) (u : t)
    (tries : list (Date * string)) (t5 : Date) (p5 : string) :
  List.NoDup (map _id users) ->
  findByEmail mail users = Some u ->
  getLoginAttempts u = 0%nat -> lockUntil u = None -> isActive u = true ->
  length tries = 4%nat ->
  Forall (wrong u) (tries ++ [(t5, p5)]) ->
  forall now token,
    token <> "" ->
    jwtVerify now token = JwtPayload (_id u) ->
    authenticate now (Some ("Bearer " ++ token)%string) users
    = inr (withoutPassword u)
    /\ (now < t5 + 2 * 60 * 60 * 1000 ->
        authenticate now (Some ("Bearer " ++ token)%string)
          (snd (authenticateAll mail (tries ++ [(t5, p5)]) users))
        = inl (unauthorized "Account is temporarily locked.")).
Proof.
  intros Hnd Hf Hzero Hnone Hact Hlen Hw now token Htoken Hjwt.
  assert (Hin : In u users) by (apply find_some in Hf; tauto).
  assert (Hne : String.eqb token "" = false) by now apply String.eqb_neq.
  split.
  - unfold authenticate. rewrite removeFirst_prefix, Hne, Hjwt.
    rewrite (NoDup_findById users u Hnd Hin).
    rewrite withoutPassword_isActive, withoutPassword_isLocked, Hact. cbn [negb].
    unfold isLocked. now rewrite Hnone.
  - intros Hsoon.
    apply Forall_app in Hw as [Hw Hw5]. apply Forall_cons in Hw5 as [Hw5 _].
    destruct (failures_track mail tries users u Hnd Hf Hnone Hw)
      as (u4 & Hnd4 & Hf4 & Hc4 & Hl4 & Hp4 & Hid4 & Ha4); [lia |].
    rewrite authenticateAll_app.
    destruct (authenticateAll mail tries users) as [rs4 users4]. cbn [snd] in *.
    destruct (wrong_password mail users4 u4 Hnd4 Hf4 t5 p5) as (Hrun5 & Hf5 & Hnd5).
    { unfold isLocked. now rewrite Hl4. }
    { unfold wrong in Hw5. now rewrite Hp4. }
    cbn [authenticateAll]. rewrite Hrun5. cbn [snd].
    destruct (incLoginAttempts_unlocked t5 u4 Hl4) as [_ Hl5].
    rewrite Hc4, Hzero, Hlen in Hl5. cbn in Hl5.
    set (u5 := incLoginAttempts t5 u4) in *.
    assert (Hin5 : In u5 (store u5 users4)) by (apply find_some in Hf5; tauto).
    assert (Hid5 : _id u5 = _id u)
      by (subst u5; now rewrite incLoginAttempts_id).
    unfold authenticate. rewrite removeFirst_prefix, Hne, Hjwt, <- Hid5.
    rewrite (NoDup_findById _ u5 Hnd5 Hin5).
    rewrite withoutPassword_isActive, withoutPassword_isLocked.
    replace (isActive u5) with true
      by (subst u5; now rewrite incLoginAttempts_isActive, Ha4, Hact).
    cbn [negb]. unfold isLocked. rewrite Hl5.
    unfold lockDuration.
    destruct (Z.gtb_spec (t5 + 2 * 60 * 60 * 1000) now); [reflexivity | lia].
Qed.

(** Asha holds a valid token; five wrong guesses later the token is turned
    away. *)
Lemma failed_logins_close_sessions_witness :
  authenticate 6000 (Some "Bearer asha-token")
    (snd (authenticateAll "asha@acme.io" Samples.fiveWrong [Samples.asha]))
  = inl (unauthorized "Account is temporarily locked.").
Proof.
  assert (Hnd : List.NoDup (map _id [Samples.asha])).
  { constructor; [intros [] | constructor]. }
  assert (Hwrong : Forall (wrong Samples.asha) Samples.fiveWrong).
  { repeat (constructor; [reflexivity |]). constructor. }
  assert (Htoken : "asha-token" <> "") by discriminate.
  assert (Hjwt : jwtVerify 6000 "asha-token" = JwtPayload (_id Samples.asha))
    by (vm_compute; reflexivity).
  assert (Hfound : findByEmail "asha@acme.io" [Samples.asha] = Some Samples.asha)
    by (vm_compute; reflexivity).
  apply (failed_logins_close_sessions "asha@acme.io" [Samples.asha] Samples.asha
           [(1000, "guess1"); (2000, "guess2"); (3000, "guess3"); (4000, "guess4")]
           5000 "guess5" Hnd Hfound eq_refl eq_refl eq_refl eq_refl Hwrong
           6000 "asha-token" Htoken Hjwt).
  lia.
Defined.

End SessionFacts.

(** ** Login answers and password resets *)

Module AccountFacts.

Import User AuthController Tenancy LockoutFacts ResetFacts.

(** X9. What the answers give away. [login] answers an address that no
    account holds and a wrong password for an unlocked account with the
    same response, 401 "Invalid credentials"; [forgotPassword] answers an
    address that no account holds with 404 and writes nothing, so it tells
    whether an address is registered. An address is looked up as the
    setters of the [email] path leave it, lowered and trimmed. *)
Theorem login_hides_forgot_tells `{Crypto} `{Setters}
    (now : Date) (v v' : LoginValue) (db db' : Db) (u : t) :
  findByEmail (lemail v) (users db) = None ->
  findByEmail (lemail v') (users db') = Some u ->
  isLocked now u = false ->
  bcrypt_compare (lpassword v') (password u) = false ->
  fst (login now (JoiValue v) db) = fail 401 "Invalid credentials"
  /\ fst (login now (JoiValue v') db') = fst (login now (JoiValue v) db)
  /\ snd (login now (JoiValue v) db) = db
  /\ (forall token mailReturned,
        forgotPassword now token mailReturned (Some (lemail v)) db
        = (if String.eqb (lemail v) "" then fail 400 "Email is required"
           else fail 404 "No user found with that email address", db))
  /\ (lemail v' <> "" ->
      forall token mailReturned,
        statusCode
          (fst (forgotPassword now token mailReturned (Some (lemail v')) db'))
        <> 404).
Proof.
  intros Hnone Hsome Hunlocked Hwrong.
  assert (H1 : login now (JoiValue v) db = (fail 401 "Invalid credentials", db)).
  { unfold login, findByCredentials. rewrite Hnone. cbn. now destruct db. }
  rewrite H1. cbn [fst snd]. split; [reflexivity | split; [| split; [reflexivity | split]]].
  - unfold login, findByCredentials. now rewrite Hsome, Hunlocked, Hwrong.
  - intros token mailReturned. unfold forgotPassword.
    destruct (String.eqb (lemail v) ""); [reflexivity | now rewrite Hnone].
  - intros Hne token mailReturned. unfold forgotPassword.
    apply String.eqb_neq in Hne. rewrite Hne, Hsome.
    destruct mailReturned; discriminate.
Qed.

(** A wrong guess for Asha, whose address is written in capitals, and a
    login for an address that nobody holds. *)
Lemma login_hides_forgot_tells_witness :
  let db := mkDb [Samples.asha] [] [] in
  findByEmail " ASHA@acme.io" (users db) = Some Samples.asha
  /\ fst (login 0 (JoiValue {| lemail := " ASHA@acme.io"; lpassword := "guess" |}) db)
     = fst (login 0 (JoiValue {| lemail := "nobody@acme.io"; lpassword := "guess" |}) db).
Proof.
  intros db.
  assert (Hnone : findByEmail "nobody@acme.io" (users db) = None)
    by (vm_compute; reflexivity).
  assert (Hsome : findByEmail " ASHA@acme.io" (users db) = Some Samples.asha)
    by (vm_compute; reflexivity).
  assert (Hwrong : bcrypt_compare "guess" (password Samples.asha) = false)
    by (vm_compute; reflexivity).
  split; [exact Hsome |].
  exact (proj1 (proj2 (login_hides_forgot_tells 0
           {| lemail := "nobody@acme.io"; lpassword := "guess" |}
           {| lemail := " ASHA@acme.io"; lpassword := "guess" |}
           db db Samples.asha Hnone Hsome eq_refl Hwrong))).
Defined.

(** A [resetPassword] with a token that a stored account holds, and the
    same password of six UTF-16 units or more in both fields, is answered
    200 and stores the first holder with the hash of the password, no
    token, a counter of 0 and no lock. *)
Lemma resetPassword_accepts `{Crypto} now token pw db u :
  List.find (holdsToken now (sha256 token)) (users db) = Some u ->
  (6 <= jsLength pw)%nat ->
  resetPassword now token (Some pw) (Some pw) db
  = (mkResponse 200 true "Password reset successful"
       (Some (with_login (Some 0%nat) None
                (with_reset (bcrypt_hash pw) None None u))),
     with_users
       (store (with_login (Some 0%nat) None
                 (with_reset (bcrypt_hash pw) None None u)) (users db)) db).
Proof.
  intros Hfind Hlen. unfold resetPassword.
  assert (Hpw : falsy (Some pw) = false).
  { cbn. destruct pw; [cbn in Hlen; lia | reflexivity]. }
  rewrite Hpw. cbn [orb default from_option id]. rewrite String.eqb_refl. cbn [negb].
  destruct (Nat.ltb_spec (jsLength pw) 6) as [| _]; [lia |].
  now rewrite Hfind.
Qed.

(** X10. A password reset lifts the lock. When the hash function accepts
    the password it hashed, a [resetPassword] with a valid token and a new
    password of six UTF-16 units or more is answered 200, and the account
    can log in with the new password at once, also at an instant at which
    its lock was still in force before the reset. *)
Theorem reset_lifts_lock `{Crypto} `{Setters}
    (now : Date) (token pw mail : string) (db : Db) (u : t) :
  (forall p, bcrypt_compare p (bcrypt_hash p) = true) ->
  List.NoDup (map _id (users db)) ->
  List.find (holdsToken now (sha256 token)) (users db) = Some u ->
  findByEmail mail (users db) = Some u ->
  (6 <= jsLength pw)%nat ->
  let out := resetPassword now token (Some pw) (Some pw) db in
  statusCode (fst out) = 200
  /\ forall now',
       exists logged,
         fst (findByCredentials now' mail pw (users (snd out))) = inr logged
         /\ _id logged = _id u.
Proof.
  intros Hlaw Hnd Hfind Hmail Hlen out. subst out.
  rewrite (resetPassword_accepts now token pw db u Hfind Hlen).
  cbn [fst snd statusCode users with_users].
  split; [reflexivity |]. intros now'.
  set (u' := with_login (Some 0%nat) None (with_reset (bcrypt_hash pw) None None u)).
  assert (Hf' : findByEmail mail (store u' (users db)) = Some u').
  { now apply (findByEmail_store mail (users db) u). }
  unfold findByCredentials. rewrite Hf'.
  change (isLocked now' u') with false.
  change (password u') with (bcrypt_hash pw). rewrite Hlaw. cbn [negb].
  eexists. split; [reflexivity | reflexivity].
Qed.

(** Asha, locked until the second hour, resets her password at the tenth
    second and logs in at the eleventh. *)
Lemma reset_lifts_lock_witness :
  let locked :=
    with_login (Some 5%nat) (Some (2 * Samples.hour))
      (with_reset (password Samples.asha) (Some (sha256 "4f1a")) (Some 600000)
         Samples.asha) in
  let db := mkDb [locked] [] [] in
  fst (findByCredentials 10000 "asha@acme.io" "secret1" (users db))
  = inl AccountLocked
  /\ exists logged,
       fst (findByCredentials 11000 "asha@acme.io" "newpass"
              (users (snd (resetPassword 10000 "4f1a" (Some "newpass")
                             (Some "newpass") db))))
       = inr logged.
Proof.
  intros locked db. split; [vm_compute; reflexivity |].
  assert (Hlaw : forall p, bcrypt_compare p (bcrypt_hash p) = true).
  { intros p. cbn. apply String.eqb_refl. }
  assert (Hnd : List.NoDup (map _id (users db))).
  { constructor; [intros [] | constructor]. }
  assert (Hfind : List.find (holdsToken 10000 (sha256 "4f1a")) (users db)
                  = Some locked) by (vm_compute; reflexivity).
  assert (Hmail : findByEmail "asha@acme.io" (users db) = Some locked)
    by (vm_compute; reflexivity).
  assert (Hlen : (6 <= jsLength "newpass")%nat) by (vm_compute; lia).
  destruct (proj2 (reset_lifts_lock 10000 "4f1a" "newpass" "asha@acme.io" db
                     locked Hlaw Hnd Hfind Hmail Hlen) 11000)
    as (logged & Hrun & _).
  now exists logged.
Defined.

(** X11. The answer of [forgotPassword] does not tell whether the reset
    mail left. For a registered address, in a store with unique ids where
    no account holds the hash of the new token: (1) when the mail service
    loads, the answer is 200 "Password reset email sent successfully"
    whether the transport accepts the message or throws, and the token is
    live in both cases: until ten minutes have passed a [resetPassword]
    with it and a new password of six UTF-16 units or more is answered 200;
    (2) only when requiring the mail service throws is the answer 500; the
    token and the expiry of the account are then unset, no stored account
    holds the token and every [resetPassword] with it fails. *)
Theorem reset_mail_unsent `{Crypto} `{Setters}
    (now : Date) (token mail : string) (db : Db) (u : t) :
  List.NoDup (map _id (users db)) ->
  freshToken token (users db) ->
  findByEmail mail (users db) = Some u ->
  mail <> "" ->
  (forall transport,
      let out :=
        forgotPassword now token
          (EmailService.mailReturned (Some transport)) (Some mail) db in
      fst out = mkResponse 200 true "Password reset email sent successfully" None
      /\ forall now' pw,
           now' < now + 10 * 60 * 1000 ->
           (6 <= jsLength pw)%nat ->
           statusCode (fst (resetPassword now' token (Some pw) (Some pw) (snd out)))
           = 200)
  /\ (let out :=
        forgotPassword now token (EmailService.mailReturned None) (Some mail) db in
      statusCode (fst out) = 500
      /\ freshToken token (users (snd out))
      /\ (exists u',
            findByEmail mail (users (snd out)) = Some u'
            /\ resetPasswordToken u' = None /\ resetPasswordExpires u' = None)
      /\ forall now' pw cpw,
           statusCode (fst (resetPassword now' token pw cpw (snd out))) = 400
           /\ snd (resetPassword now' token pw cpw (snd out)) = snd out).
Proof.
  intros Hnd Hfresh Hmail Hne. apply String.eqb_neq in Hne. split.
  - intros transport out. subst out. unfold forgotPassword.
    rewrite Hne, Hmail. cbn [EmailService.mailReturned fst snd].
    split; [reflexivity |]. intros now' pw Hlive Hlen.
    set (u1 := snd (createPasswordResetToken now token u)).
    assert (Hholds : holdsToken now' (sha256 token) u1 = true).
    { unfold holdsToken. cbn. rewrite String.eqb_refl. cbn.
      unfold resetTokenLifetime. apply Z.gtb_lt. lia. }
    assert (Hin : In u1 (store u1 (users db))).
    { apply find_some in Hmail as [Hu _]. clear - Hu.
      induction (users db) as [| h rest IH]; [destruct Hu |]. cbn [store].
      change (_id u1) with (_id u).
      destruct (Nat.eqb_spec (_id h) (_id u)) as [E | E]; [now left |].
      destruct Hu as [-> | Hu]; [now destruct E | right; now apply IH]. }
    destruct (List.find (holdsToken now' (sha256 token)) (store u1 (users db)))
      as [holder |] eqn:Hfind.
    + now rewrite (resetPassword_accepts now' token pw
                     (with_users (store u1 (users db)) db) holder Hfind Hlen).
    + now rewrite (find_none _ _ Hfind u1 Hin) in Hholds.
  - intros out. subst out. unfold forgotPassword.
    rewrite Hne, Hmail. cbn [EmailService.mailReturned fst snd statusCode users with_users].
    set (u' := with_reset _ None None _).
    assert (Hfresh' : freshToken token (store u' (users db))).
    { intros x Hx. destruct (store_In _ _ _ Hnd Hx) as [-> | [Hin _]];
        [discriminate | now apply Hfresh]. }
    split; [reflexivity | split; [exact Hfresh' | split]].
    + exists u'. split; [| split; reflexivity].
      now apply (findByEmail_store mail (users db) u).
    + intros now' pw cpw.
      destruct (resetPassword_no_holder now' token pw cpw
                  (with_users (store u' (users db)) db)) as (Hdb & Hcode & _).
      { intros x Hx. apply holdsToken_fresh. now apply Hfresh'. }
      split; assumption.
Qed.

(** The transport throws on the mail to Asha: the answer is 200 all the
    same and the token resets her password one second later. *)
Lemma reset_mail_unsent_witness :
  let db := mkDb [Samples.asha] [] [] in
  let out :=
    forgotPassword 0 "4f1a"
      (EmailService.mailReturned (Some EmailService.Throws))
      (Some "asha@acme.io") db in
  statusCode (fst out) = 200
  /\ statusCode
       (fst (resetPassword 1000 "4f1a" (Some "newpass") (Some "newpass") (snd out)))
     = 200.
Proof.
  intros db out.
  assert (Hnd : List.NoDup (map _id (users db))).
  { constructor; [intros [] | constructor]. }
  assert (Hfresh : freshToken "4f1a" (users db)).
  { intros x [<- | []]. discriminate. }
  assert (Hmail : findByEmail "asha@acme.io" (users db) = Some Samples.asha)
    by (vm_compute; reflexivity).
  assert (Hne : "asha@acme.io" <> "") by discriminate.
  destruct (reset_mail_unsent 0 "4f1a" "asha@acme.io" db Samples.asha
              Hnd Hfresh Hmail Hne) as [Hsent _].
  destruct (Hsent EmailService.Throws) as [Hresp Hlive].
  split.
  - subst out. now rewrite Hresp.
  - assert (Hsoon : 1000 < 0 + 10 * 60 * 1000) by lia.
    assert (Hlen : (6 <= jsLength "newpass")%nat) by (vm_compute; lia).
    exact (Hlive 1000 "newpass" Hsoon Hlen).
Defined.

End AccountFacts.

(** ** A user's day *)

Module DayFacts.

Import Attendance AttendanceController Ledger LedgerFacts Day.

(** An event newer than all the others sorts to the front. *)
Lemma sortDesc_newest l e :
  (forall x, In x l -> checkInTime x < checkInTime e) ->
  sortDesc (l ++ [e]) = e :: sortDesc l.
Proof.
  induction l as [| a l IH]; intros Hnew; [reflexivity |].
  cbn [app sortDesc foldr]. change (foldr insertDesc [] (l ++ [e])) with (sortDesc (l ++ [e])).
  rewrite IH by (intros x Hx; apply Hnew; now right).
  cbn [insertDesc]. pose proof (Hnew a (or_introl eq_refl)) as Ha.
  destruct (Z.leb_spec (checkInTime e) (checkInTime a)); [lia | reflexivity].
Qed.

Section OneDay.

Context `{LocalTime}.

Variables (user : User.t) (org : ObjectId) (day : Date).
Hypothesis approved : User.isApproved user = true.
Hypothesis active : User.isActive user = true.
Hypothesis member : User.organization user = Some org.

Lemma existing_dayLedger now atts :
  localMidnight now = day ->
  existingAttendance now (User._id user) atts = dayLedger day (User._id user) atts.
Proof.
  intros Hday. unfold existingAttendance, dayLedger, isToday, inDay.
  now rewrite Hday.
Qed.

(** On an alternating ledger the guard looks at the most recent event
    only. *)
Lemma rejects_alternating ty ledger :
  alternating ledger ->
  rejects ty ledger
  = match ty, ledger with
    | MarkCheckIn, e :: _ => att_type_eqb (type e) CheckIn
    | MarkCheckIn, [] => false
    | MarkCheckOut, e :: _ => att_type_eqb (type e) CheckOut
    | MarkCheckOut, [] => true
    end.
Proof.
  destruct ledger as [| e [| e' older]]; cbn [alternating].
  - now destruct ty.
  - intros [He _]. unfold rejects. cbn [List.find]. rewrite He. now destruct ty.
  - intros [[Hlt [[He He'] | [He He']]] _]; unfold rejects; cbn [List.find];
      rewrite He, He'; cbn [att_type_eqb]; destruct ty;
      try reflexivity;
      repeat match goal with
             | |- context [?a <? ?b] => destruct (Z.ltb_spec a b)
             | |- context [?a >? ?b] => destruct (Z.gtb_spec a b)
             end;
      try reflexivity; lia.
Qed.

(** One online request keeps the ledger alternating. *)
Lemma markAttendance_alternating now newId v db :
  online day (now, newId, v) ->
  alternating (dayLedger day (User._id user) (attendance db)) ->
  (forall x, In x (attendance db) ->
             inDay day (User._id user) x = true -> checkInTime x < now) ->
  let db' := snd (markAttendance now newId None (JoiValue v) user db) in
  alternating (dayLedger day (User._id user) (attendance db'))
  /\ (forall x, In x (attendance db') ->
                inDay day (User._id user) x = true -> checkInTime x <= now).
Proof.
  intros (Hday & Hin & Hstamp) Halt Hold db'. subst db'.
  assert (Hexisting : sortDesc (todays now (User._id user) (attendance db))
                      = dayLedger day (User._id user) (attendance db)).
  { change (sortDesc (todays now (User._id user) (attendance db)))
      with (existingAttendance now (User._id user) (attendance db)).
    now apply existing_dayLedger. }
  set (e := newAttendance now newId None v (User._id user) org).
  assert (Htime : checkInTime e = now) by exact Hstamp.
  assert (Hkeep : alternating (dayLedger day (User._id user) (attendance db))
                  /\ forall x, In x (attendance db) ->
                       inDay day (User._id user) x = true -> checkInTime x <= now).
  { split; [exact Halt |]. intros x Hx Hd. specialize (Hold x Hx Hd). lia. }
  assert (Hadd : dayLedger day (User._id user) (attendance db ++ [e])
                 = e :: dayLedger day (User._id user) (attendance db)).
  { unfold dayLedger. rewrite List.filter_app. cbn [List.filter].
    replace (inDay day (User._id user) e) with true.
    - apply sortDesc_newest. intros x Hx. apply filter_In in Hx as [Hx Hd].
      rewrite Htime. now apply Hold.
    - unfold inDay. change (Attendance.user e) with (User._id user).
      rewrite Nat.eqb_refl, Htime. symmetry. apply andb_true_intro. split; [apply Z.leb_le | apply Z.ltb_lt]; lia. }
  assert (Hbound : forall x, In x (attendance db ++ [e]) ->
            inDay day (User._id user) x = true -> checkInTime x <= now).
  { intros x Hx Hd. apply in_app_or in Hx as [Hx | [<- | []]]; [| lia].
    specialize (Hold x Hx Hd). lia. }
  destruct (rejects (mtype v) (dayLedger day (User._id user) (attendance db)))
    eqn:Hguard.
  - rewrite (MarkAttendanceFacts.markAttendance_gated now newId None v user db
               approved active), Hexisting, Hguard.
    exact Hkeep.
  - rewrite (MarkAttendanceFacts.markAttendance_appends now newId None v user db
               org approved active);
      [| now rewrite Hexisting | exact member].
    fold e. split; [| exact Hbound]. rewrite Hadd.
    rewrite (rejects_alternating _ _ Halt) in Hguard.
    assert (Hnew : type e = toAttType (mtype v)) by reflexivity.
    destruct (dayLedger day (User._id user) (attendance db))
      as [| last older] eqn:Hledger.
    + cbn [alternating]. split; [| exact I].
      rewrite Hnew. destruct (mtype v); [reflexivity | discriminate].
    + assert (Hlast : checkInTime last < now).
      { assert (Hl : In last (dayLedger day (User._id user) (attendance db)))
          by (rewrite Hledger; now left).
        unfold dayLedger in Hl. apply sortDesc_In, filter_In in Hl as [Hl Hd].
        now apply Hold. }
      assert (Hkind : type last = CheckIn \/ type last = CheckOut).
      { cbn [alternating] in Halt. destruct older as [| e' older'];
          [left; tauto | destruct Halt as [[_ [[? _] | [? _]]] _]; tauto]. }
      change (alternating (e :: last :: older))
        with ((checkInTime last < checkInTime e
               /\ ((type e = CheckIn /\ type last = CheckOut)
                   \/ (type e = CheckOut /\ type last = CheckIn)))
              /\ alternating (last :: older)).
      split; [| exact Halt]. rewrite Htime, Hnew. split; [exact Hlast |].
      destruct (mtype v); destruct Hkind as [Hk | Hk]; rewrite Hk in *;
        cbn [att_type_eqb toAttType] in *; try discriminate; tauto.
Qed.

(** A check-in stamped outside the day is stored without entering the
    day's ledger. *)
Lemma markAttendance_backdated now newId v db :
  backdated day (now, newId, v) ->
  rejects MarkCheckIn (dayLedger day (User._id user) (attendance db)) = false ->
  let out := markAttendance now newId None (JoiValue v) user db in
  statusCode (fst out) = answered user db
  /\ answered user (snd out) = answered user db
  /\ length (attendance (snd out)) = S (length (attendance db))
  /\ dayLedger day (User._id user) (attendance (snd out))
     = dayLedger day (User._id user) (attendance db).
Proof.
  intros (Hday & Hty & Hoff & ts & Hts & Hout) Hfree out. subst out.
  assert (Hexisting : sortDesc (todays now (User._id user) (attendance db))
                      = dayLedger day (User._id user) (attendance db)).
  { change (sortDesc (todays now (User._id user) (attendance db)))
      with (existingAttendance now (User._id user) (attendance db)).
    now apply existing_dayLedger. }
  rewrite <- Hty in Hfree.
  assert (Hatt := MarkAttendanceFacts.markAttendance_appends now newId None v
                    user db org approved active
                    ltac:(now rewrite Hexisting) member).
  split; [| split; [| split]].
  - rewrite (MarkAttendanceFacts.markAttendance_gated now newId None v user db
               approved active), Hexisting, Hfree, member.
    unfold answered.
    destruct (User.findById (User._id user) (users db)); [| reflexivity].
    unfold accepted. now rewrite Hty.
  - rewrite (MarkAttendanceFacts.markAttendance_gated now newId None v user db
               approved active), Hexisting, Hfree, member.
    unfold answered.
    destruct (User.findById (User._id user) (users db)) as [account |] eqn:Hstored.
    + unfold accepted. cbn [snd users with_users with_attendance].
      now rewrite (MarkAttendanceFacts.findById_saveLastLogin _ _ _ _ Hstored).
    + cbn [snd users with_attendance]. now rewrite Hstored.
  - rewrite Hatt, length_app. cbn [length]. lia.
  - rewrite Hatt. unfold dayLedger. rewrite List.filter_app. cbn [List.filter].
    replace (inDay day (User._id user) (newAttendance now newId None v (User._id user) org))
      with false; [now rewrite app_nil_r |].
    unfold inDay, newAttendance. cbn [Attendance.user checkInTime].
    rewrite Hoff, Hts. symmetry. apply andb_false_iff.
    destruct Hout as [Hbefore | Hafter].
    + left. apply andb_false_iff. right. apply Z.leb_gt. lia.
    + right. apply Z.ltb_ge. lia.
Qed.

End OneDay.

(** X12. The day alternates. For an approved and active member of an
    organization, requests that carry no offline time and arrive at strictly
    increasing instants of one day, all later than the events the day
    already holds, keep the user's ledger of that day alternating: ordered
    by time, check-ins and check-outs take turns at strictly increasing
    times and the first event is a check-in. *)
Theorem day_alternates `{LocalTime}
    (user : User.t) (org : ObjectId) (day : Date)
    (requests : list (Date * ObjectId * MarkValue)) (db : Db) :
  User.isApproved user = true ->
  User.isActive user = true ->
  User.organization user = Some org ->
  Forall (online day) requests ->
  Sorted Z.lt (map (fun request => fst (fst request)) requests) ->
  alternating (dayLedger day (User._id user) (attendance db)) ->
  (forall x request,
      In x (attendance db) -> inDay day (User._id user) x = true ->
      In request requests -> checkInTime x < fst (fst request)) ->
  alternating
    (dayLedger day (User._id user) (attendance (snd (markAll user requests db)))).
Proof.
  intros Happ Hact Horg Honline Hsorted. revert db.
  induction requests as [| [[now newId] v] requests IH]; intros db Halt Hold;
    [exact Halt |].
  apply Forall_cons in Honline as [Hfirst Honline].
  cbn [map fst] in Hsorted. apply Sorted_inv in Hsorted as [Hsorted Hhd].
  destruct (markAttendance_alternating user org day Happ Hact Horg
              now newId v db Hfirst Halt) as [Halt1 Hbound1].
  { intros x Hx Hd. exact (Hold x (now, newId, v) Hx Hd (or_introl eq_refl)). }
  cbn [markAll].
  destruct (markAttendance now newId None (JoiValue v) user db) as [r db1].
  cbn [snd] in Halt1, Hbound1.
  specialize (IH Honline Hsorted db1 Halt1).
  destruct (markAll user requests db1) as [rs db2] eqn:Hrest. cbn [snd] in *.
  apply IH. intros x request Hx Hd Hreq.
  specialize (Hbound1 x Hx Hd).
  assert (Hlater : now < fst (fst request)).
  { clear - Hsorted Hhd Hreq.
    assert (Hss : StronglySorted Z.lt
                    (now :: map (fun request => fst (fst request)) requests)).
    { apply Sorted_StronglySorted; [intros a b c; lia | now constructor]. }
    apply StronglySorted_inv in Hss as [_ Hall].
    rewrite List.Forall_forall in Hall. apply Hall.
    now apply (in_map (fun request => fst (fst request))). }
  lia.
Qed.

(** Asha on day 0: in at 09:00, a second check-in at 10:00, out at 18:00,
    a second check-out at 19:00. *)
Lemma day_alternates_witness :
  let requests :=
    [(9 * Samples.hour, 100%nat, Samples.checkInRequest);
     (10 * Samples.hour, 101%nat, Samples.checkInRequest);
     (18 * Samples.hour, 102%nat, Samples.checkOutRequest);
     (19 * Samples.hour, 103%nat, Samples.checkOutRequest)] in
  let db := Samples.homeDb Samples.asha in
  map statusCode (fst (markAll Samples.asha requests db))
  = [201; 400; 201; 400]
  /\ alternating
       (dayLedger 0 1 (attendance (snd (markAll Samples.asha requests db)))).
Proof.
  intros requests db. split; [vm_compute; reflexivity |].
  assert (Honline : Forall (online 0) requests).
  { repeat (apply List.Forall_cons;
              [split; [vm_compute; reflexivity |
                       split; [vm_compute; split; [discriminate | reflexivity]
                              | reflexivity]] |]).
    apply List.Forall_nil. }
  assert (Hsorted : Sorted Z.lt (map (fun request => fst (fst request)) requests)).
  { repeat constructor. }
  assert (Hold : forall x request,
             In x (attendance db) ->
             inDay 0 (User._id Samples.asha) x = true ->
             In request requests -> checkInTime x < fst (fst request)).
  { intros x request []. }
  exact (day_alternates Samples.asha 10 0 requests db
           eq_refl eq_refl eq_refl Honline Hsorted I Hold).
Defined.

(** X13. Offline check-ins outside the day are not guarded. For an approved
    and active member of an organization whose day holds no open check-in,
    every check-in flagged offline and stamped with a time outside the
    current day is stored, however many are sent, and answered 201 (500,
    after the event is stored, when no stored document has the id of the
    user): each adds one event, and the ledger of the current day, the only
    thing the guard reads, stays as it was. *)
Theorem backdated_check_ins_pile_up `{LocalTime}
    (user : User.t) (org : ObjectId) (day : Date)
    (requests : list (Date * ObjectId * MarkValue)) (db : Db) :
  User.isApproved user = true ->
  User.isActive user = true ->
  User.organization user = Some org ->
  Forall (backdated day) requests ->
  rejects MarkCheckIn (dayLedger day (User._id user) (attendance db)) = false ->
  Forall (fun r => statusCode r = answered user db)
    (fst (markAll user requests db))
  /\ length (attendance (snd (markAll user requests db)))
     = (length (attendance db) + length requests)%nat
  /\ dayLedger day (User._id user) (attendance (snd (markAll user requests db)))
     = dayLedger day (User._id user) (attendance db).
Proof.
  intros Happ Hact Horg Hback. revert db.
  induction requests as [| [[now newId] v] requests IH]; intros db Hfree.
  - cbn. split; [constructor | split; [lia | reflexivity]].
  - apply Forall_cons in Hback as [Hfirst Hback].
    destruct (markAttendance_backdated user org day Happ Hact Horg
                now newId v db Hfirst Hfree) as (Hcode & Hstays & Hlen & Hsame).
    cbn [markAll].
    destruct (markAttendance now newId None (JoiValue v) user db) as [r db1].
    cbn [fst snd] in Hcode, Hstays, Hlen, Hsame.
    destruct (IH Hback db1) as (Hcodes & Hlens & Hsames);
      [now rewrite Hsame |].
    destruct (markAll user requests db1) as [rs db2]. cbn [fst snd length] in *.
    rewrite Hstays in Hcodes.
    split; [now constructor | split; [lia | congruence]].
Qed.

(** Three check-ins sent on day 1 and stamped 09:00 of day 0. *)
Lemma backdated_check_ins_pile_up_witness :
  let late :=
    {| mtype := MarkCheckIn; mlocation := None; note := None;
       isOffline := true; offlineTimestamp := Some (9 * Samples.hour) |} in
  let requests :=
    [(33 * Samples.hour, 100%nat, late); (34 * Samples.hour, 101%nat, late);
     (35 * Samples.hour, 102%nat, late)] in
  let db := Samples.homeDb Samples.asha in
  map Attendance.type (attendance (snd (markAll Samples.asha requests db)))
  = [CheckIn; CheckIn; CheckIn]
  /\ Forall (fun r => statusCode r = 201) (fst (markAll Samples.asha requests db)).
Proof.
  intros late requests db. split; [vm_compute; reflexivity |].
  assert (Hback : Forall (backdated (24 * Samples.hour)) requests).
  { repeat (apply List.Forall_cons;
              [split; [vm_compute; reflexivity |
                       split; [reflexivity | split; [reflexivity |]]];
               exists (9 * Samples.hour); split; [reflexivity | left];
               vm_compute; reflexivity |]).
    apply List.Forall_nil. }
  exact (proj1 (backdated_check_ins_pile_up Samples.asha 10
                  (24 * Samples.hour) requests db
                  eq_refl eq_refl eq_refl Hback eq_refl)).
Defined.

End DayFacts.

(** ** One organization: statistics and deletion *)

Module OrganizationAdminFacts.

Import OrganizationAdmin.

Lemma stored_organization_id id orgs o :
  Organization.findById id orgs = Some o -> Organization._id o = id.
Proof.
  unfold Organization.findById. intros Hf.
  apply List.find_some in Hf as [_ Hid]. now apply Nat.eqb_eq in Hid.
Qed.

Lemma findById_saveStats id s orgs o :
  Organization.findById id orgs = Some o ->
  Organization.findById id (saveStats id s orgs) = Some (with_stats s o).
Proof.
  unfold Organization.findById.
  induction orgs as [| h rest IH]; [discriminate |]. cbn [List.find saveStats].
  destruct (Nat.eqb (Organization._id h) id) eqn:E.
  - intros [= <-]. cbn [List.find]. change (Organization._id (with_stats s h))
      with (Organization._id h). now rewrite E.
  - intros Hf. cbn [List.find]. rewrite E. now apply IH.
Qed.

Lemma findById_removeOrganization_other id other orgs :
  other <> id ->
  Organization.findById other (removeOrganization id orgs)
  = Organization.findById other orgs.
Proof.
  unfold Organization.findById. intros Hne.
  induction orgs as [| h rest IH]; [reflexivity |].
  cbn [List.find removeOrganization].
  destruct (Nat.eqb_spec (Organization._id h) id) as [E | E].
  - destruct (Nat.eqb_spec (Organization._id h) other) as [E' | E'];
      [congruence | reflexivity].
  - cbn [List.find]. now rewrite IH.
Qed.

Lemma findById_removeOrganization id orgs :
  List.NoDup (map Organization._id orgs) ->
  Organization.findById id (removeOrganization id orgs) = None.
Proof.
  unfold Organization.findById.
  induction orgs as [| h rest IH]; [reflexivity |].
  cbn [map List.find removeOrganization]. intros Hnd.
  apply NoDup_cons_iff in Hnd as [Hh Hnd].
  destruct (Nat.eqb_spec (Organization._id h) id) as [E | E].
  - destruct (List.find (fun o => Nat.eqb (Organization._id o) id) rest)
      as [o |] eqn:Hf; [| reflexivity].
    apply List.find_some in Hf as [Hin Hid]. apply Nat.eqb_eq in Hid.
    exfalso. apply Hh. rewrite E, <- Hid. now apply in_map.
  - cbn [List.find]. destruct (Nat.eqb_spec (Organization._id h) id);
      [contradiction | now apply IH].
Qed.

Lemma countDocuments_none {A} (f : A -> bool) docs :
  (countDocuments f docs >? 0) = false -> forall x, In x docs -> f x = false.
Proof.
  unfold countDocuments. intros Hc x Hx.
  destruct (f x) eqn:Hfx; [| reflexivity].
  assert (Hin : In x (List.filter f docs)) by (apply List.filter_In; now split).
  destruct (List.filter f docs); [destruct Hin |].
  cbn [length] in Hc. destruct (Z.gtb_spec (Z.of_nat (S (length l))) 0); [discriminate | lia].
Qed.

Lemma countDocuments_weaker {A} (f g : A -> bool) docs :
  (forall x, f x = true -> g x = true) ->
  0 <= countDocuments f docs <= countDocuments g docs.
Proof.
  unfold countDocuments. intros Himp. split; [lia |].
  apply inj_le. induction docs as [| h rest IH]; [reflexivity |].
  cbn [List.filter]. destruct (f h) eqn:Hf.
  - rewrite (Himp h Hf). cbn [length]. lia.
  - destruct (g h); cbn [length]; lia.
Qed.

(** X14. Deleting an organization. Through the route, only a super-admin
    is served; a deletion answered with success happens only when no stored
    user names the organization, removes that organization (ids being
    unique) and no other, and keeps the users and the attendance events as
    they are, those of the deleted organization included. A refusal writes
    nothing. So if every user named a stored organization before the
    request, every user still does afterwards. *)
Theorem deleteRoute_keeps_users_housed (actor : User.t) (id : ObjectId) (db : Db) :
  housed db ->
  let out := deleteRoute actor id db in
  housed (snd out)
  /\ users (snd out) = users db
  /\ attendance (snd out) = attendance db
  /\ (success (fst out) = true ->
        User.role actor = User.SuperAdmin
        /\ (forall u, In u (users db) -> User.organization u <> Some id)
        /\ (List.NoDup (map Organization._id (organizations db)) ->
              Organization.findById id (organizations (snd out)) = None)
        /\ forall other, other <> id ->
             Organization.findById other (organizations (snd out))
             = Organization.findById other (organizations db))
  /\ (success (fst out) = false -> snd out = db).
Proof.
  intros Hhoused out. subst out. unfold deleteRoute, Middleware.authorize.
  cbn [existsb]. rewrite orb_false_r.
  destruct (User.role actor) eqn:Hrole; cbn [User.role_eqb negb fail fst snd success];
    try (split; [exact Hhoused |
                 split; [reflexivity |
                 split; [reflexivity | split; [discriminate | reflexivity]]]]).
  unfold deleteOrganization.
  destruct (Organization.findById id (organizations db)) as [organization |];
    cbn [fail fst snd success];
    [| split; [exact Hhoused |
               split; [reflexivity |
               split; [reflexivity | split; [discriminate | reflexivity]]]]].
  destruct (countDocuments (memberOf id) (users db) >? 0) eqn:Hcount;
    cbn [fail fst snd success with_organizations users attendance organizations];
    [split; [exact Hhoused |
             split; [reflexivity |
             split; [reflexivity | split; [discriminate | reflexivity]]]] |].
  assert (Hnone : forall u, In u (users db) -> User.organization u <> Some id).
  { intros u Hu Horg.
    pose proof (countDocuments_none _ _ Hcount u Hu) as Hm.
    unfold memberOf in Hm. rewrite Horg, Nat.eqb_refl in Hm. discriminate. }
  split; [| split; [reflexivity | split; [reflexivity | split; [| discriminate]]]].
  - intros u o Hu Horg. unfold with_organizations in *.
    cbn [users organizations] in *.
    rewrite findById_removeOrganization_other.
    + now apply (Hhoused u).
    + intros ->. now apply (Hnone u).
  - intros _. split; [reflexivity | split; [exact Hnone | split]].
    + apply findById_removeOrganization.
    + intros other Hne. now apply findById_removeOrganization_other.
Qed.

(** Organization 10 with Asha as a member is kept, the empty organization
    11 is deleted; the users stay housed. *)
Lemma deleteRoute_keeps_users_housed_witness :
  let db :=
    mkDb [Samples.asha] []
      [Samples.org 10 (Some "ACME0001") true; Samples.org 11 (Some "ACME0002") true] in
  let root := MoreSamples.root in
  statusCode (fst (deleteRoute root 10 db)) = 400
  /\ statusCode (fst (deleteRoute root 11 db)) = 200
  /\ Organization.findById 11 (organizations (snd (deleteRoute root 11 db))) = None
  /\ housed (snd (deleteRoute root 11 db)).
Proof.
  intros db root.
  assert (Hhoused : housed db).
  { intros u o [<- | []] [= <-]. vm_compute. discriminate. }
  assert (Hnd : List.NoDup (map Organization._id (organizations db))).
  { constructor; [intros [E | []]; discriminate E |].
    constructor; [intros [] | constructor]. }
  assert (Hok : success (fst (deleteRoute root 11 db)) = true)
    by (vm_compute; reflexivity).
  destruct (deleteRoute_keeps_users_housed root 11 db Hhoused)
    as (Hafter & _ & _ & Hdone & _).
  destruct (Hdone Hok) as (_ & _ & Hgone & _).
  split; [vm_compute; reflexivity | split; [vm_compute; reflexivity | split]].
  - exact (Hgone Hnd).
  - exact Hafter.
Defined.

(** A request that is refused leaves the store as it was. *)
Local Ltac refused_request :=
  intros [= <- <-];
  split; [reflexivity |
  split; [reflexivity |
  split; [discriminate | intros _ _; split; reflexivity]]].

(** X15. Reading an organization refreshes its statistics. A request to
    [GET /organizations/:id] that is answered with success stores and
    returns the organization with [stats.totalUsers] equal to the number of
    stored users who name it, and with [stats.activeUsers] between 0 and
    that number, so that [canAddUser] on the returned document compares the
    present number of users with [subscription.maxUsers]; users and
    attendance events are not written. A caller who is no super-admin and
    names another organization, or none, is refused and nothing is
    written. *)
Theorem getRoute_refreshes_stats
    (actor : User.t) (id : ObjectId) (db : Db)
    (resp : Response Organization.t) (db' : Db) :
  getRoute actor id db = (resp, db') ->
  users db' = users db
  /\ attendance db' = attendance db
  /\ (success resp = true ->
        exists o,
          data resp = Some o
          /\ Organization.findById id (organizations db') = Some o
          /\ Organization.totalUsers (Organization.stats o)
             = countDocuments (memberOf id) (users db)
          /\ 0 <= Organization.activeUsers (Organization.stats o)
               <= Organization.totalUsers (Organization.stats o)
          /\ (Organization.canAddUser o = true <->
                countDocuments (memberOf id) (users db)
                < Organization.maxUsers (Organization.subscription o)))
  /\ (User.role actor <> User.SuperAdmin ->
        User.organization actor <> Some id ->
        success resp = false /\ db' = db).
Proof.
  unfold getRoute, Middleware.authorize. cbn [existsb]. rewrite orb_false_r.
  destruct (User.role_eqb (User.role actor) User.SuperAdmin
            || User.role_eqb (User.role actor) User.Admin);
    cbn [negb statusCode success message fail]; [| refused_request].
  unfold getOrganizationById.
  destruct (Organization.findById id (organizations db)) as [organization |] eqn:Hfound;
    [| refused_request].
  pose proof (stored_organization_id _ _ _ Hfound) as Hid.
  destruct (negb (User.role_eqb (User.role actor) User.SuperAdmin)
            && negb match User.organization actor with
                    | Some mine => oid_equals mine (Some (Organization._id organization))
                    | None => false
                    end) eqn:Hdenied; [refused_request |].
  unfold updateStats. intros [= <- <-].
  cbn [with_organizations users attendance organizations success data].
  split; [reflexivity | split; [reflexivity | split]].
  - intros _. exists (with_stats (counted organization db) organization).
    rewrite Hid. split; [reflexivity | split; [| split; [| split]]].
    + now apply findById_saveStats.
    + cbn. now rewrite Hid.
    + cbn [with_stats Organization.stats counted Organization.activeUsers
             Organization.totalUsers].
      apply countDocuments_weaker. intros x Hx.
      now apply andb_true_iff in Hx as [Hx _].
    + unfold Organization.canAddUser.
      cbn [with_stats Organization.stats Organization.subscription counted
             Organization.totalUsers]. rewrite Hid. apply Z.ltb_lt.
  - intros Hrole Horg. exfalso.
    apply andb_false_iff in Hdenied as [Hsuper | Hmine].
    + apply negb_false_iff in Hsuper. apply Hrole.
      destruct (User.role actor); try discriminate. reflexivity.
    + apply negb_false_iff in Hmine.
      destruct (User.organization actor) as [mine |]; [| discriminate].
      cbn [oid_equals] in Hmine. apply Nat.eqb_eq in Hmine.
      apply Horg. congruence.
Qed.

(** The admin of organization 10 reads it while Asha is its only user. *)
Lemma getRoute_refreshes_stats_witness :
  let db := mkDb [Samples.asha] [] [Samples.org 10 (Some "ACME0001") true] in
  let ravi := Samples.admin 2 (Some 10%nat) "ravi@acme.io" in
  option_map (fun o => Organization.totalUsers (Organization.stats o))
    (data (fst (getRoute ravi 10 db))) = Some 1
  /\ users (snd (getRoute ravi 10 db)) = users db.
Proof.
  intros db ravi. split; [vm_compute; reflexivity |].
  exact (proj1 (getRoute_refreshes_stats ravi 10 db _ _
                  (surjective_pairing (getRoute ravi 10 db)))).
Defined.

End OrganizationAdminFacts.

(** ** Deleting an attendance event *)

Module DeleteFacts.

Import Attendance AttendanceController.

Lemma remove_In id atts x :
  List.NoDup (map _id atts) ->
  In x (remove id atts) <-> In x atts /\ _id x <> id.
Proof.
  induction atts as [| h rest IH]; [intros _; cbn; tauto |].
  cbn [map remove]. intros Hnd. apply NoDup_cons_iff in Hnd as [Hh Hnd].
  specialize (IH Hnd).
  destruct (Nat.eqb_spec (_id h) id) as [E | E].
  - split.
    + intros Hx. split; [now right |]. intros Hid. apply Hh.
      rewrite E, <- Hid. now apply in_map.
    + intros [[<- | Hx] Hne]; [contradiction | assumption].
  - split.
    + intros [<- | Hx]; [split; [now left | assumption] |].
      apply IH in Hx as [Hx Hne]. split; [now right | assumption].
    + intros [[<- | Hx] Hne]; [now left | right; apply IH; now split].
Qed.

Lemma findById_remove id atts :
  List.NoDup (map _id atts) -> findById id (remove id atts) = None.
Proof.
  intros Hnd. unfold findById.
  destruct (List.find (fun a => Nat.eqb (_id a) id) (remove id atts)) as [a |] eqn:Hf;
    [| reflexivity].
  apply List.find_some in Hf as [Hin Hid]. apply Nat.eqb_eq in Hid.
  apply (remove_In id atts a Hnd) in Hin as [_ Hne]. contradiction.
Qed.

(** X16. Deleting an attendance event. In a store with unique event ids, a
    [deleteAttendance] answered with success removes the event with the
    given id and no other event, and writes neither users nor
    organizations; the same request sent again is answered 404 and writes
    nothing. *)
Theorem deleteAttendance_removes_one
    (actor : User.t) (id : ObjectId) (db : Db)
    (resp : Response t) (db' : Db) :
  List.NoDup (map _id (attendance db)) ->
  deleteAttendance actor id db = (resp, db') ->
  success resp = true ->
  (forall x, In x (attendance db') <-> In x (attendance db) /\ _id x <> id)
  /\ users db' = users db
  /\ organizations db' = organizations db
  /\ forall again : User.t,
       deleteAttendance again id db' = (fail 404 "Attendance record not found", db').
Proof.
  intros Hnd. unfold deleteAttendance at 1.
  destruct (findById id (attendance db)) as [found |];
    [| intros [= <- <-]; discriminate].
  destruct (foreignAdmin actor (Some (organization found))) as [[|] |];
    try (intros [= <- <-]; discriminate).
  intros [= <- <-] _. cbn [with_attendance attendance users organizations].
  split; [intros x; now apply remove_In | split; [reflexivity | split; [reflexivity |]]].
  intros again. unfold deleteAttendance.
  change (attendance (with_attendance (remove id (attendance db)) db))
    with (remove id (attendance db)).
  now rewrite findById_remove.
Qed.

(** The admin of organization 10 deletes Asha's 09:00 check-in, twice. *)
Lemma deleteAttendance_removes_one_witness :
  let db := Samples.morningDb Samples.asha in
  let ravi := Samples.admin 2 (Some 10%nat) "ravi@acme.io" in
  let id := hd 0%nat (map _id (attendance db)) in
  attendance (snd (deleteAttendance ravi id db)) = []
  /\ statusCode (fst (deleteAttendance ravi id (snd (deleteAttendance ravi id db)))) = 404.
Proof.
  intros db ravi id.
  assert (Hnd : List.NoDup (map _id (attendance db))).
  { vm_compute. constructor; [intros [] | constructor]. }
  assert (Hok : success (fst (deleteAttendance ravi id db)) = true)
    by (vm_compute; reflexivity).
  destruct (deleteAttendance_removes_one ravi id db _ _ Hnd
              (surjective_pairing (deleteAttendance ravi id db)) Hok)
    as (_ & _ & _ & Hagain).
  split; [vm_compute; reflexivity |].
  now rewrite (Hagain ravi).
Defined.

End DeleteFacts.

